(** * TickerAI: a shallow embedding of the retrieval pipeline

    The Python sources embedded here are [document_processor.py],
    [vector_store.py], [llm_provider.py], [mcp_server.py] and [config.py].
    Python [str] is [string], Python [int] is [Z], a [dict] with string keys
    is a [gmap string _], a [while] loop is a fuelled recursion and an
    exception is the [Raise] outcome of the [result] type. *)

From Stdlib Require Import ZArith Lia Ascii String List.
From stdpp Require Import base option list gmap strings pretty.

Local Open Scope Z_scope.

(** ** Python-level primitives *)

Module Py.

(** A Python exception: its class name and [str(e)]. *)
Record exn := Exception { exn_type : string; exn_msg : string }.

(** Outcome of running a piece of code: it returns, it raises, or the
    fuel given to its loops ran out before it did either. *)
Inductive result (A : Type) : Type :=
| Ok (a : A)
| Raise (e : exn)
| OutOfFuel.
Global Arguments Ok {A} a.
Global Arguments Raise {A} e.
Global Arguments OutOfFuel {A}.

(** Values stored in metadata dictionaries: the document processor stores
    strings (file names, paths) and integers (offsets, chunk ids). *)
Inductive pyval :=
| VStr (s : string)
| VInt (z : Z).

(** The line feed written [\n] in the sources. *)
Definition nl : string := String "010"%char EmptyString.

(** [len(s)] *)
Definition len (s : string) : Z := Z.of_nat (String.length s).

(** Slice bounds as Python normalises them: a negative index counts from
    the end, and both ends are clamped to [0, len]. *)
Definition clamp_index (n i : Z) : Z :=
  if i <? 0 then Z.max 0 (i + n) else Z.min i n.

(** [s[lo:hi]] *)
Definition py_slice (s : string) (lo hi : Z) : string :=
  let lo' := clamp_index (len s) lo in
  let hi' := clamp_index (len s) hi in
  substring (Z.to_nat lo') (Z.to_nat (hi' - lo')) s.

(** [str.upper] maps every character through its upper-case mapping and
    concatenates what it gets; the mapping of a character does not depend
    on its neighbours. On ASCII the letters a-z move to A-Z and nothing
    else changes. Beyond ASCII the mapping is the table of the Unicode
    standard, which the interpreter holds: one character (e-acute gives
    E-acute), or one character followed by more (sharp s gives SS). *)
Class Unicode := {
  upper_beyond_ascii : ascii -> ascii * string
}.

Definition upper_ascii (c : ascii) : ascii :=
  let n := nat_of_ascii c in
  if ((97 <=? n)%nat && (n <=? 122)%nat)%bool then ascii_of_nat (n - 32) else c.

Definition upper_char {U : Unicode} (c : ascii) : string :=
  if (nat_of_ascii c <? 128)%nat then String (upper_ascii c) EmptyString
  else String (fst (upper_beyond_ascii c)) (snd (upper_beyond_ascii c)).

Fixpoint upper {U : Unicode} (s : string) : string :=
  match s with
  | EmptyString => EmptyString
  | String c s' => upper_char c +:+ upper s'
  end.

(** [str.lower] on ASCII text. *)
Definition lower_char (c : ascii) : ascii :=
  let n := nat_of_ascii c in
  if ((65 <=? n)%nat && (n <=? 90)%nat)%bool then ascii_of_nat (n + 32) else c.

Fixpoint lower (s : string) : string :=
  match s with
  | EmptyString => EmptyString
  | String c s' => String (lower_char c) (lower s')
  end.

(** Truth value of a [str] ([if s:], [not s]). *)
Definition truthy (s : string) : bool :=
  match s with
  | EmptyString => false
  | String _ _ => true
  end.

(** Truth value of an [Optional[str]]: [None] and [""] are false. *)
Definition truthy_opt (o : option string) : bool :=
  match o with
  | None => false
  | Some s => truthy s
  end.

(** [sep.join(parts)] *)
Definition join (sep : string) (parts : list string) : string :=
  String.concat sep parts.

(** [str(n)] for integers, in decimal. *)
Definition str_of_Z (z : Z) : string := pretty z.
Definition str_of_nat (n : nat) : string := pretty n.

(** [str(v)] as an f-string placeholder renders a metadata value. *)
Definition str_of_val (v : pyval) : string :=
  match v with
  | VStr s => s
  | VInt z => str_of_Z z
  end.

(** [x in xs] for a list of strings. *)
Definition str_in (x : string) (xs : list string) : bool :=
  existsb (String.eqb x) xs.

End Py.
Export Py.

(** ** Values and services that live outside the program *)

(** Python floats are left abstract: the program only moves them around
    (embeddings, distances, the sampling temperature) and prints one. *)
Class Floats := {
  float : Type;
  (** [f"{1 - distance:.2f}"] *)
  format_relevance : float -> string
}.

(** What a call into a library returns: a value, or an exception. *)
Definition external (A : Type) : Type := (exn + A)%type.

(** ** config.py *)

Module Config.
Section WithFloats.
Context {F : Floats}.

Record t := {
  LLM_PROVIDER : string;
  LLM_HOST : string;
  LLM_MODEL : string;
  LLM_TEMPERATURE : float;
  LLM_MAX_TOKENS : Z;
  EMBEDDING_MODEL : string;
  CHROMA_DB_DIR : string;
  CHROMA_COLLECTION_NAME : string;
  KNOWLEDGE_DIR : string;
  SUPPORTED_FILE_TYPES : list string;
  TOP_K_RESULTS : Z;
  CHUNK_SIZE : Z;
  CHUNK_OVERLAP : Z
}.

(** The constants of [config.py] when no environment variable is set;
    [base] stands for [BASE_DIR] and [t07] for the literal [0.7]. *)
Definition defaults (base : string) (t07 : float) : t := {|
  LLM_PROVIDER := "ollama";
  LLM_HOST := "http://localhost:11434";
  LLM_MODEL := "llama3.2";
  LLM_TEMPERATURE := t07;
  LLM_MAX_TOKENS := 1000;
  EMBEDDING_MODEL := "all-MiniLM-L6-v2";
  CHROMA_DB_DIR := base +:+ "/chroma_db";
  CHROMA_COLLECTION_NAME := "stock_documents";
  KNOWLEDGE_DIR := base +:+ "/knowledge";
  SUPPORTED_FILE_TYPES := [".txt"; ".md"; ".pdf"; ".json"];
  TOP_K_RESULTS := 5;
  CHUNK_SIZE := 1000;
  CHUNK_OVERLAP := 200
|}.
End WithFloats.
End Config.

(** ** document_processor.py *)

Module DocumentProcessor.

(** A chunk is the dict [{'text': ..., 'metadata': {...}}]. *)
Record Chunk := {
  text : string;
  metadata : gmap string pyval
}.

(** One path yielded by [knowledge_dir.rglob('*')], with what the file
    system and the parsers answer for it. *)
Record FileEntry := {
  path_name : string;               (* file_path.name *)
  path_str : string;                (* str(file_path) *)
  path_suffix : string;             (* file_path.suffix *)
  path_relative : string;           (* str(file_path.relative_to(knowledge_dir)) *)
  path_is_file : bool;              (* file_path.is_file() *)
  open_read : external string;      (* open(file_path, 'r').read() *)
  pdf_pages : external (list string);
                                    (* page.extract_text() of PdfReader(...).pages *)
  json_pretty : external string     (* json.dumps(json.load(f), indent=2) *)
}.

(** The attributes set by [DocumentProcessor.__init__]. *)
Record t := {
  knowledge_dir : string;
  chunk_size : Z;
  chunk_overlap : Z
}.

Definition init {F : Floats} (config : Config.t) : t := {|
  knowledge_dir := Config.KNOWLEDGE_DIR config;
  chunk_size := Config.CHUNK_SIZE config;
  chunk_overlap := Config.CHUNK_OVERLAP config
|}.

Definition read_text_file (file_path : FileEntry) : string :=
  match open_read file_path with
  | inr content => content
  | inl _ => ""
  end.

Definition read_pdf_file (file_path : FileEntry) : string :=
  match pdf_pages file_path with
  | inr pages => foldl (fun text page => text +:+ page +:+ nl) "" pages
  | inl _ => ""
  end.

Definition read_json_file (file_path : FileEntry) : string :=
  match json_pretty file_path with
  | inr dumped => dumped
  | inl _ => ""
  end.

Definition read_document (file_path : FileEntry) : string :=
  let suffix := lower (path_suffix file_path) in
  if str_in suffix [".txt"; ".md"] then read_text_file file_path
  else if String.eqb suffix ".pdf" then read_pdf_file file_path
  else if String.eqb suffix ".json" then read_json_file file_path
  else "".

(** The body of [while start < len(text)] in [chunk_text]; the
    accumulator is the triple of locals [chunks], [start], [chunk_id]. *)
Fixpoint chunk_loop (fuel : nat) (self : t) (text : string)
    (metadata : gmap string pyval)
    (chunks : list Chunk) (start chunk_id : Z) : result (list Chunk) :=
  match fuel with
  | O => OutOfFuel
  | S fuel' =>
      if start <? len text then
        let end_ := start + chunk_size self in
        let chunk_text := py_slice text start end_ in
        let chunk :=
          {| text := chunk_text;
             metadata :=
               <["end_char" := VInt end_]>
                 (<["start_char" := VInt start]>
                    (<["chunk_id" := VInt chunk_id]> metadata)) |} in
        chunk_loop fuel' self text metadata (chunks ++ [chunk])
          (start + (chunk_size self - chunk_overlap self)) (chunk_id + 1)
      else Ok chunks
  end.

(** [DocumentProcessor.chunk_text] *)
Definition chunk_text (fuel : nat) (self : t) (text : string)
    (metadata : gmap string pyval) : result (list Chunk) :=
  chunk_loop fuel self text metadata [] 0 0.

(** The [for file_path in self.knowledge_dir.rglob('*')] loop of
    [process_documents], with [all_chunks] as accumulator. *)
Fixpoint process_loop (fuel : nat) (self : t) (supported : list string)
    (files : list FileEntry) (all_chunks : list Chunk) : result (list Chunk) :=
  match files with
  | [] => Ok all_chunks
  | file_path :: rest =>
      let is_supported :=
        path_is_file file_path && str_in (path_suffix file_path) supported in
      if is_supported then
        let content := read_document file_path in
        if negb (truthy content) then
          process_loop fuel self supported rest all_chunks
        else
          let metadata : gmap string pyval :=
            <["relative_path" := VStr (path_relative file_path)]>
              (<["file_type" := VStr (path_suffix file_path)]>
                 (<["filepath" := VStr (path_str file_path)]>
                    (<["filename" := VStr (path_name file_path)]> ∅))) in
          match chunk_text fuel self content metadata with
          | Ok chunks => process_loop fuel self supported rest (all_chunks ++ chunks)
          | Raise e => Raise e
          | OutOfFuel => OutOfFuel
          end
      else process_loop fuel self supported rest all_chunks
  end.

(** [DocumentProcessor.process_documents]; [dir] is [None] when the
    knowledge directory does not exist. *)
Definition process_documents {F : Floats} (fuel : nat) (config : Config.t)
    (self : t) (dir : option (list FileEntry)) : result (list Chunk) :=
  match dir with
  | None => Ok []
  | Some files =>
      process_loop fuel self (Config.SUPPORTED_FILE_TYPES config) files []
  end.

End DocumentProcessor.

(** ** The ChromaDB client, as its documentation describes it

    ChromaDB is a library, not part of the repository. The persistent
    client is modelled by the map from collection names to their records;
    a collection handle is the collection's name. Error messages of the
    library are not part of the model and are written as short tags. *)

Module Chroma.
Section WithFloats.
Context {F : Floats}.

(** One stored record: [(id, embedding, document, metadata)]. *)
Record VRecord := {
  rec_id : string;
  rec_embedding : list float;
  rec_document : string;
  rec_metadata : gmap string pyval
}.

(** The dict returned by [collection.query] with
    [include=["documents", "metadatas", "distances"]]: one inner list
    per query embedding. *)
Record QueryResult := {
  documents : list (list string);
  metadatas : list (list (gmap string pyval));
  distances : list (list float)
}.

Definition get_collection (name : string)
    (client : gmap string (list VRecord)) : external unit :=
  match client !! name with
  | Some _ => inr tt
  | None => inl (Exception "ValueError" "collection does not exist")
  end.

Definition create_collection (name : string)
    (client : gmap string (list VRecord))
    : external (gmap string (list VRecord)) :=
  match client !! name with
  | Some _ => inl (Exception "UniqueConstraintError" "collection already exists")
  | None => inr (<[name := []]> client)
  end.

Definition delete_collection (name : string)
    (client : gmap string (list VRecord))
    : external (gmap string (list VRecord)) :=
  match client !! name with
  | Some _ => inr (delete name client)
  | None => inl (Exception "ValueError" "collection does not exist")
  end.

Definition count (name : string)
    (client : gmap string (list VRecord)) : external Z :=
  match client !! name with
  | Some records => inr (Z.of_nat (length records))
  | None => inl (Exception "ValueError" "collection does not exist")
  end.

(** Whether a list of ids has no repetition. *)
Fixpoint distinct (ids : list string) : bool :=
  match ids with
  | [] => true
  | i :: rest => negb (str_in i rest) && distinct rest
  end.

(** The records built from the four parallel lists given to [add]. *)
Fixpoint build_records (ids : list string) (embeddings : list (list float))
    (documents : list string) (metadatas : list (gmap string pyval))
    : list VRecord :=
  match ids, embeddings, documents, metadatas with
  | i :: ids', e :: embeddings', d :: documents', m :: metadatas' =>
      {| rec_id := i; rec_embedding := e; rec_document := d; rec_metadata := m |}
        :: build_records ids' embeddings' documents' metadatas'
  | _, _, _, _ => []
  end.

(** [collection.add(documents=, embeddings=, metadatas=, ids=)]: the
    four lists must have one length, the ids must be distinct, and there
    must be no more records than the client takes in one call
    ([max_batch], what [client.get_max_batch_size()] answers); a record
    whose id is already stored is skipped. *)
Definition add (max_batch : nat) (name : string) (documents : list string)
    (embeddings : list (list float)) (metadatas : list (gmap string pyval))
    (ids : list string) (client : gmap string (list VRecord))
    : external (gmap string (list VRecord)) :=
  match client !! name with
  | None => inl (Exception "ValueError" "collection does not exist")
  | Some records =>
      if negb (Nat.eqb (length documents) (length ids)
               && Nat.eqb (length embeddings) (length ids)
               && Nat.eqb (length metadatas) (length ids)) then
        inl (Exception "ValueError" "unequal lengths")
      else if negb (distinct ids) then
        inl (Exception "DuplicateIDError" "duplicate ids")
      else if (max_batch <? length ids)%nat then
        inl (Exception "ValueError" "batch size exceeds maximum batch size")
      else
        let stored := rec_id <$> records in
        let fresh :=
          filter (fun r => negb (str_in (rec_id r) stored) = true)
            (build_records ids embeddings documents metadatas) in
        inr (<[name := records ++ fresh]> client)
  end.
End WithFloats.
End Chroma.

(** The services the program calls and does not implement. *)
Class Services {F : Floats} := {
  (** the case mapping behind [str.upper] *)
  unicode :: Unicode;
  (** [SentenceTransformer(name)]: loading the embedding model *)
  load_model : string -> external unit;
  (** [chromadb.PersistentClient(path=, settings=)]: opening the store *)
  open_client : string -> external unit;
  (** [client.get_max_batch_size()]: the most records one [add] takes *)
  max_batch_size : nat;
  (** [SentenceTransformer.encode(text).tolist()] for one text *)
  model_encode : string -> external (list float);
  (** [SentenceTransformer.encode(texts).tolist()] for a batch *)
  model_encode_batch : list string -> external (list (list float));
  (** The nearest-neighbour search of a collection: the [n] records
      closest to an embedding, each with its distance. *)
  nearest : list Chroma.VRecord -> list float -> Z -> list (Chroma.VRecord * float);
  (** [ollama.generate(model=, prompt=, options=)['response']] *)
  ollama_generate : string -> string -> float -> Z -> external string;
  (** [json.dumps(s)] for a string [s] *)
  json_dumps_str : string -> string
}.

(** ** The world the program runs in, and the monad of its effects *)

Module Run.
Section WithServices.
Context {F : Floats} {Sv : Services}.

(** A call that leaves the process. *)
Inductive Event :=
| LoadModel (name : string)
| OpenClient (path : string)
| EmbedOne (text : string)
| EmbedBatch (texts : list string)
| StoreGet (name : string)
| StoreCreate (name : string)
| StoreDelete (name : string)
| StoreCount (name : string)
| StoreAdd (name : string) (ids : list string)
| StoreQuery (name : string) (query_embeddings : list (list float)) (n_results : Z)
| LLMGenerate (model prompt : string) (temperature : float) (num_predict : Z).

Record World := {
  (** the files under the knowledge directory, [None] if it is missing *)
  knowledge : option (list DocumentProcessor.FileEntry);
  (** the collections of the persistent ChromaDB client *)
  client : gmap string (list Chroma.VRecord);
  (** the calls made so far, oldest first *)
  trace : list Event
}.

Definition M (A : Type) : Type := World -> result A * World.

Definition ret {A} (a : A) : M A := fun w => (Ok a, w).

Definition bind {A B} (m : M A) (f : A -> M B) : M B :=
  fun w =>
    match m w with
    | (Ok a, w') => f a w'
    | (Raise e, w') => (Raise e, w')
    | (OutOfFuel, w') => (OutOfFuel, w')
    end.

Definition raise {A} (e : exn) : M A := fun w => (Raise e, w).

(** [try: m except Exception as e: handler(e)] *)
Definition try_except {A} (m : M A) (handler : exn -> M A) : M A :=
  fun w =>
    match m w with
    | (Raise e, w') => handler e w'
    | other => other
    end.

(** A pure computation (one that reads and writes nothing). *)
Definition lift {A} (r : result A) : M A := fun w => (r, w).

Definition of_external {A} (x : external A) : result A :=
  match x with
  | inr a => Ok a
  | inl e => Raise e
  end.

Definition emit (ev : Event) : M unit :=
  fun w => (Ok tt, {| knowledge := knowledge w; client := client w;
                      trace := trace w ++ [ev] |}).

(** A call on the ChromaDB client that may change its collections. *)
Definition store_update (ev : Event)
    (op : gmap string (list Chroma.VRecord)
          -> external (gmap string (list Chroma.VRecord))) : M unit :=
  fun w =>
    let tr := trace w ++ [ev] in
    match op (client w) with
    | inr client' =>
        (Ok tt, {| knowledge := knowledge w; client := client'; trace := tr |})
    | inl e =>
        (Raise e, {| knowledge := knowledge w; client := client w; trace := tr |})
    end.

(** A call on the ChromaDB client that only reads. *)
Definition store_read {A} (ev : Event)
    (op : gmap string (list Chroma.VRecord) -> external A) : M A :=
  fun w =>
    (of_external (op (client w)),
     {| knowledge := knowledge w; client := client w; trace := trace w ++ [ev] |}).

(** [xs[0]] *)
Definition getitem0 {A} (xs : list A) : M A :=
  match xs with
  | x :: _ => ret x
  | [] => raise (Exception "IndexError" "list index out of range")
  end.
End WithServices.
End Run.
Import Run.

#[global] Instance M_ret {F : Floats} : MRet Run.M := @Run.ret F.
#[global] Instance M_bind {F : Floats} : MBind Run.M :=
  fun A B f m => Run.bind m f.

(** ** document_processor.py: the embedding generator *)

Module EmbeddingGenerator.
Section WithServices.
Context {F : Floats} {Sv : Services}.

(** [EmbeddingGenerator.__init__]: the model is loaded outside any
    [try], so what the loader raises leaves the constructor. *)
Definition init (config : Config.t) : M unit :=
  emit (LoadModel (Config.EMBEDDING_MODEL config));;
  lift (of_external (load_model (Config.EMBEDDING_MODEL config))).

(** [EmbeddingGenerator.generate_embeddings] *)
Definition generate_embeddings (texts : list string) : M (list (list float)) :=
  try_except
    (emit (EmbedBatch texts);;
     lift (of_external (model_encode_batch texts)))
    (fun _ => mret []).

(** [EmbeddingGenerator.generate_embedding] *)
Definition generate_embedding (text : string) : M (list float) :=
  try_except
    (emit (EmbedOne text);;
     lift (of_external (model_encode text)))
    (fun _ => mret []).
End WithServices.
End EmbeddingGenerator.

(** ** vector_store.py *)

Module VectorStore.
Section WithServices.
Context {F : Floats} {Sv : Services}.
Variable config : Config.t.

(** The attributes of a [VectorStore]. [self.client] is the [client]
    of the world, and [self.collection] is a handle on the collection
    named [collection_name]: every assignment to it in the source
    takes a handle for that name. *)
Record t := {
  chroma_dir : string;
  collection_name : string
}.

Definition _get_or_create_collection (self : t) : M unit :=
  try_except
    (store_read (StoreGet (collection_name self))
       (Chroma.get_collection (collection_name self)))
    (fun _ =>
       store_update (StoreCreate (collection_name self))
         (Chroma.create_collection (collection_name self))).

(** [VectorStore.__init__] *)
Definition init : M t :=
  let self := {| chroma_dir := Config.CHROMA_DB_DIR config;
                 collection_name := Config.CHROMA_COLLECTION_NAME config |} in
  EmbeddingGenerator.init config;;
  emit (OpenClient (chroma_dir self));;
  lift (of_external (open_client (chroma_dir self)));;
  _get_or_create_collection self;;
  mret self.

Definition reset_collection (self : t) : M unit :=
  try_except
    (store_update (StoreDelete (collection_name self))
       (Chroma.delete_collection (collection_name self)))
    (fun _ => mret tt);;
  store_update (StoreCreate (collection_name self))
    (Chroma.create_collection (collection_name self)).

(** [processor.process_documents()] on the knowledge directory of the
    world. *)
Definition run_process_documents (fuel : nat)
    (processor : DocumentProcessor.t) : M (list DocumentProcessor.Chunk) :=
  fun w =>
    (DocumentProcessor.process_documents fuel config processor (knowledge w), w).

Definition ingest_documents (fuel : nat) (self : t) (force_refresh : bool)
    : M unit :=
  (if force_refresh then reset_collection self else mret tt);;
  count ← store_read (StoreCount (collection_name self))
             (Chroma.count (collection_name self));
  if (0 <? count) && negb force_refresh then mret tt
  else
    let processor := DocumentProcessor.init config in
    chunks ← run_process_documents fuel processor;
    match chunks with
    | [] => mret tt
    | _ :: _ =>
        let documents := DocumentProcessor.text <$> chunks in
        let metadatas := DocumentProcessor.metadata <$> chunks in
        let ids := imap (fun i _ => "doc_" +:+ str_of_nat i) chunks in
        embeddings ← EmbeddingGenerator.generate_embeddings documents;
        match embeddings with
        | [] => mret tt
        | _ :: _ =>
            store_update (StoreAdd (collection_name self) ids)
              (Chroma.add max_batch_size (collection_name self)
                 documents embeddings metadatas ids)
        end
    end.

(** [self.collection.query(query_embeddings=, n_results=, include=)] *)
Definition collection_query (self : t)
    (query_embeddings : list (list float)) (n_results : Z)
    : M Chroma.QueryResult :=
  store_read (StoreQuery (collection_name self) query_embeddings n_results)
    (fun client =>
       match client !! collection_name self with
       | None => inl (Exception "ValueError" "collection does not exist")
       | Some records =>
           let hits := (fun e => nearest records e n_results) <$> query_embeddings in
           inr {| Chroma.documents :=
                    (fun h => (Chroma.rec_document ∘ fst) <$> h) <$> hits;
                  Chroma.metadatas :=
                    (fun h => (Chroma.rec_metadata ∘ fst) <$> h) <$> hits;
                  Chroma.distances := (fun h => snd <$> h) <$> hits |}
       end).

Definition query (self : t) (query_text : string) (n_results : option Z)
    : M Chroma.QueryResult :=
  let n_results := default (Config.TOP_K_RESULTS config) n_results in
  query_embedding ← EmbeddingGenerator.generate_embedding query_text;
  match query_embedding with
  | [] =>
      mret {| Chroma.documents := []; Chroma.metadatas := [];
              Chroma.distances := [] |}
  | _ :: _ =>
      results ← collection_query self [query_embedding] n_results;
      (* the log line reads len(results['documents'][0]) *)
      getitem0 (Chroma.documents results);;
      mret results
  end.

(** The four lines appended for a result that is kept. *)
Definition context_block (i : nat) (doc : string)
    (metadata : gmap string pyval) (distance : float) : list string :=
  [ "--- Context " +:+ str_of_nat (i + 1) +:+ " (Relevance: "
      +:+ format_relevance distance +:+ ") ---";
    "Source: " +:+ str_of_val (default (VStr "Unknown") (metadata !! "filename"));
    "Content: " +:+ doc;
    "" ].

(** The test guarding [continue]: [Ok true] skips the result. *)
Definition ticker_mismatch (ticker : option string)
    (metadata : gmap string pyval) : result bool :=
  match ticker with
  | None => Ok false
  | Some tk =>
      if truthy tk then
        match metadata !! "ticker" with
        | None => Ok false
        | Some (VStr v) => Ok (negb (String.eqb (upper v) (upper tk)))
        | Some (VInt _) =>
            Raise (Exception "AttributeError"
                     "'int' object has no attribute 'upper'")
        end
      else Ok false
  end.

(** The [for i, (doc, metadata, distance) in enumerate(zip(...))] loop
    of [get_context_for_query]; [i] is the index of the head of
    [items]. *)
Fixpoint context_loop (ticker : option string) (i : nat)
    (items : list (string * (gmap string pyval * float)))
    (context_parts : list string) : result (list string) :=
  match items with
  | [] => Ok context_parts
  | (doc, (metadata, distance)) :: rest =>
      match ticker_mismatch ticker metadata with
      | Ok true => context_loop ticker (S i) rest context_parts
      | Ok false =>
          context_loop ticker (S i) rest
            (context_parts ++ context_block i doc metadata distance)
      | Raise e => Raise e
      | OutOfFuel => OutOfFuel
      end
  end.

Definition get_context_for_query (self : t) (query_ : string)
    (ticker : option string) : M string :=
  results ← query self query_ None;
  match Chroma.documents results with
  | [] => mret "No relevant context found."
  | [] :: _ => mret "No relevant context found."
  | docs :: _ =>
      mds ← getitem0 (Chroma.metadatas results);
      dists ← getitem0 (Chroma.distances results);
      context_parts ← lift (context_loop ticker 0 (zip docs (zip mds dists)) []);
      mret (join nl context_parts)
  end.

(** The dict returned by [get_collection_stats]. *)
Record Stats := {
  stats_collection_name : string;
  stats_document_count : Z;
  stats_db_path : string
}.

Definition get_collection_stats (self : t) : M Stats :=
  count ← store_read (StoreCount (collection_name self))
             (Chroma.count (collection_name self));
  mret {| stats_collection_name := collection_name self;
          stats_document_count := count;
          stats_db_path := chroma_dir self |}.
End WithServices.
End VectorStore.

(** ** llm_provider.py *)

Module LLMProvider.
Section WithServices.
Context {F : Floats} {Sv : Services}.
Variable config : Config.t.

(** The abstract base class [BaseLLMProvider]. *)
Class BaseLLMProvider (P : Type) := {
  generate : P -> string -> option string -> option float -> option Z -> M string;
  get_model_name : P -> string
}.

Record OllamaProvider := {
  ollama_model : string;
  ollama_host : string
}.

Record OpenAIProvider := {
  openai_api_key : option string;
  openai_model : string
}.

(** [a or b] on an optional string *)
Definition or_default (a : option string) (b : string) : string :=
  match a with
  | Some s => if truthy s then s else b
  | None => b
  end.

(** [OllamaProvider.__init__] *)
Definition ollama_init (model host : option string) : OllamaProvider :=
  {| ollama_model := or_default model (Config.LLM_MODEL config);
     ollama_host := or_default host (Config.LLM_HOST config) |}.

(** [OpenAIProvider.__init__], whose [model] defaults to ["gpt-4"] *)
Definition openai_init (api_key : option string) (model : option string)
    : OpenAIProvider :=
  {| openai_api_key := api_key;
     openai_model := default "gpt-4" model |}.

(** The request [ollama.generate(...)] as it leaves the process. *)
Definition ollama_call (model full_prompt : string) (temperature : float)
    (num_predict : Z) : M string :=
  emit (LLMGenerate model full_prompt temperature num_predict);;
  lift (of_external (ollama_generate model full_prompt temperature num_predict)).

(** [OllamaProvider.generate] *)
Definition ollama_provider_generate (self : OllamaProvider) (prompt : string)
    (system_prompt : option string) (temperature : option float)
    (max_tokens : option Z) : M string :=
  let temperature := default (Config.LLM_TEMPERATURE config) temperature in
  let max_tokens := default (Config.LLM_MAX_TOKENS config) max_tokens in
  let full_prompt :=
    match system_prompt with
    | Some sp => if truthy sp then sp +:+ nl +:+ nl +:+ prompt else prompt
    | None => prompt
    end in
  try_except
    (ollama_call (ollama_model self) full_prompt temperature max_tokens)
    (fun e =>
       let error_msg :=
         "Error: " +:+ exn_msg e +:+ nl +:+ nl
         +:+ "Make sure Ollama is running: ollama serve" +:+ nl
         +:+ "And model '" +:+ ollama_model self +:+ "' is installed: "
         +:+ "ollama pull " +:+ ollama_model self in
       raise (Exception "RuntimeError" error_msg)).

(** [OpenAIProvider.generate] *)
Definition openai_provider_generate (self : OpenAIProvider) (prompt : string)
    (system_prompt : option string) (temperature : option float)
    (max_tokens : option Z) : M string :=
  raise (Exception "NotImplementedError"
           ("OpenAI provider not yet implemented. "
            +:+ "Install openai package and implement this method.")).

#[export] Instance ollama_provider : BaseLLMProvider OllamaProvider := {|
  generate := ollama_provider_generate;
  get_model_name := ollama_model
|}.

#[export] Instance openai_provider : BaseLLMProvider OpenAIProvider := {|
  generate := openai_provider_generate;
  get_model_name := openai_model
|}.

(** A provider instance of either class, as [get_llm_provider]
    returns it. *)
Inductive Provider :=
| UseOllama (p : OllamaProvider)
| UseOpenAI (p : OpenAIProvider).

#[export] Instance any_provider : BaseLLMProvider Provider := {|
  generate p :=
    match p with
    | UseOllama o => generate o
    | UseOpenAI o => generate o
    end;
  get_model_name p :=
    match p with
    | UseOllama o => get_model_name o
    | UseOpenAI o => get_model_name o
    end
|}.

(** [get_llm_provider] *)
Definition get_llm_provider (provider_type : option string) : result Provider :=
  let provider_type := or_default provider_type (Config.LLM_PROVIDER config) in
  if String.eqb provider_type "ollama" then Ok (UseOllama (ollama_init None None))
  else if String.eqb provider_type "openai" then Ok (UseOpenAI (openai_init None None))
  else
    Raise (Exception "ValueError"
             ("Unsupported LLM provider: " +:+ provider_type +:+ ". "
              +:+ "Supported: ollama, openai")).
End WithServices.
End LLMProvider.

(** ** mcp_server.py *)

Module MCPServer.
Import LLMProvider.
Section WithServices.
Context {F : Floats} {Sv : Services}.
Variable config : Config.t.

(** [mcp.types.TextContent] *)
Record TextContent := {
  type : string;
  text : string
}.

Record TickerAIMCPServer := {
  vector_store : VectorStore.t;
  llm_provider : Provider
}.

(** The provider classes read the same [config] module. *)
#[local] Instance configured_provider : BaseLLMProvider Provider :=
  any_provider config.

(** [TickerAIMCPServer.__init__] *)
Definition init : M TickerAIMCPServer :=
  vs ← VectorStore.init config;
  provider ← lift (get_llm_provider config None);
  mret {| vector_store := vs; llm_provider := provider |}.

Definition _generate_ai_response (self : TickerAIMCPServer)
    (ticker query context user_context : string) : M string :=
  let system_prompt :=
    "You are a knowledgeable financial analyst AI assistant "
    +:+ "specializing in stock market analysis." +:+ nl
    +:+ "You have access to a knowledge base containing information "
    +:+ "about various stocks." +:+ nl +:+ nl
    +:+ "Your task is to answer questions about stock ticker "
    +:+ ticker +:+ " based on the provided context." +:+ nl +:+ nl
    +:+ "Guidelines:" +:+ nl
    +:+ "- Be factual and base your answers on the provided context" +:+ nl
    +:+ "- If the context doesn't contain enough information, "
    +:+ "acknowledge the limitation" +:+ nl
    +:+ "- Provide clear, concise, and actionable insights" +:+ nl
    +:+ "- Use professional financial terminology when appropriate" +:+ nl
    +:+ "- If asked about predictions, provide balanced analysis "
    +:+ "with appropriate disclaimers" +:+ nl in
  let user_prompt :=
    "Stock Ticker: " +:+ ticker +:+ nl
    +:+ "User Question: " +:+ query +:+ nl +:+ nl
    +:+ "Relevant Context from Knowledge Base:" +:+ nl
    +:+ context +:+ nl in
  let user_prompt :=
    if truthy user_context then
      user_prompt +:+ nl +:+ nl +:+ "Additional User Context: " +:+ user_context
    else user_prompt in
  let user_prompt :=
    user_prompt +:+ nl +:+ nl
    +:+ "Please provide a comprehensive answer to the user's "
    +:+ "question based on the context provided." in
  try_except
    (generate (llm_provider self) user_prompt (Some system_prompt)
       (Some (Config.LLM_TEMPERATURE config))
       (Some (Config.LLM_MAX_TOKENS config)))
    (fun e => mret ("Error generating response: " +:+ exn_msg e)).

(** The [arguments] of a tool call: the tool's input schema types
    [ticker], [query] and [context] as strings. *)
Definition _handle_stock_query (self : TickerAIMCPServer)
    (arguments : gmap string string) : M string :=
  let ticker := upper (default "" (arguments !! "ticker")) in
  let query := default "" (arguments !! "query") in
  let user_context := default "" (arguments !! "context") in
  if negb (truthy ticker) || negb (truthy query) then
    mret "Error: Both ticker and query are required"
  else
    let search_query := ticker +:+ " " +:+ query in
    context ← VectorStore.get_context_for_query config (vector_store self)
                search_query (Some ticker);
    response ← _generate_ai_response self ticker query context user_context;
    mret response.

Definition quote : string := String "034"%char EmptyString.

(** [json.dumps(stats, indent=2)] *)
Definition stats_json (stats : VectorStore.Stats) : string :=
  "{" +:+ nl
  +:+ "  " +:+ quote +:+ "collection_name" +:+ quote +:+ ": "
  +:+ json_dumps_str (VectorStore.stats_collection_name stats) +:+ "," +:+ nl
  +:+ "  " +:+ quote +:+ "document_count" +:+ quote +:+ ": "
  +:+ str_of_Z (VectorStore.stats_document_count stats) +:+ "," +:+ nl
  +:+ "  " +:+ quote +:+ "db_path" +:+ quote +:+ ": "
  +:+ json_dumps_str (VectorStore.stats_db_path stats) +:+ nl
  +:+ "}".

(** The handler registered with [@self.server.call_tool()]. What it
    returns is the content of an ordinary tool result; a protocol-level
    error would be an exception leaving it. *)
Definition call_tool (fuel : nat) (self : TickerAIMCPServer) (name : string)
    (arguments : gmap string string) : M (list TextContent) :=
  try_except
    (if String.eqb name "query_stock" then
       result ← _handle_stock_query self arguments;
       mret [ {| type := "text"; text := result |} ]
     else if String.eqb name "get_vector_store_stats" then
       stats ← VectorStore.get_collection_stats (vector_store self);
       mret [ {| type := "text"; text := stats_json stats |} ]
     else if String.eqb name "refresh_knowledge_base" then
       VectorStore.ingest_documents config fuel (vector_store self) true;;
       mret [ {| type := "text";
                 text := "Knowledge base refreshed successfully" |} ]
     else
       mret [ {| type := "text"; text := "Unknown tool: " +:+ name |} ])
    (fun e => mret [ {| type := "text"; text := "Error: " +:+ exn_msg e |} ]).
End WithServices.
End MCPServer.

(** ** Vocabulary of the specification

    The definitions below are not translated from the sources: they say
    what the properties proved further down talk about. *)

Module Spec.

(** The ceiling of [a / b] for a positive [b]. *)
Definition ceil_div (a b : Z) : Z := (a + b - 1) / b.

(** Concatenation of the non-overlapping spans of consecutive chunks:
    the first [stride] characters of every chunk but the last, then the
    whole last chunk. *)
Fixpoint non_overlapping_concat (stride : Z) (texts : list string) : string :=
  match texts with
  | [] => ""
  | [t] => t
  | t :: rest => py_slice t 0 stride +:+ non_overlapping_concat stride rest
  end.

(** The chunk whose window starts at [start]. *)
Definition window (self : DocumentProcessor.t) (text : string)
    (metadata : gmap string pyval) (start chunk_id : Z) : DocumentProcessor.Chunk :=
  {| DocumentProcessor.text :=
       py_slice text start (start + DocumentProcessor.chunk_size self);
     DocumentProcessor.metadata :=
       <["end_char" := VInt (start + DocumentProcessor.chunk_size self)]>
         (<["start_char" := VInt start]>
            (<["chunk_id" := VInt chunk_id]> metadata)) |}.

(** [n] consecutive windows, one stride apart. *)
Fixpoint windows (n : nat) (self : DocumentProcessor.t) (text : string)
    (metadata : gmap string pyval) (start chunk_id : Z)
    : list DocumentProcessor.Chunk :=
  match n with
  | O => []
  | S n' =>
      window self text metadata start chunk_id
        :: windows n' self text metadata
             (start + (DocumentProcessor.chunk_size self
                       - DocumentProcessor.chunk_overlap self))
             (chunk_id + 1)
  end.

(** How many windows start at or after [start] and before the end of
    the text. *)
Definition iterations (self : DocumentProcessor.t) (text : string)
    (start : Z) : nat :=
  Z.to_nat (ceil_div (len text - start)
              (DocumentProcessor.chunk_size self
               - DocumentProcessor.chunk_overlap self)).

(** What the metadata of a chunk records about its span. *)
Definition span_recorded (self : DocumentProcessor.t) (text : string)
    (c : DocumentProcessor.Chunk) : Prop :=
  exists start_char end_char : Z,
    DocumentProcessor.metadata c !! "start_char" = Some (VInt start_char)
    /\ DocumentProcessor.metadata c !! "end_char" = Some (VInt end_char)
    /\ end_char = start_char + DocumentProcessor.chunk_size self
    /\ DocumentProcessor.text c
       = py_slice text start_char (Z.min end_char (len text)).

(** Two characters that are equal up to the case of a letter. *)
Definition same_letter (a b : ascii) : bool :=
  let x := nat_of_ascii a in
  let y := nat_of_ascii b in
  (x =? y)%nat
  || ((97 <=? x)%nat && (x <=? 122)%nat && (y =? x - 32)%nat)
  || ((97 <=? y)%nat && (y <=? 122)%nat && (x =? y - 32)%nat).

(** Equality of two strings up to the case of the letters a-z, character
    by character. *)
Fixpoint ci_equal (s t : string) : bool :=
  match s, t with
  | EmptyString, EmptyString => true
  | String a s', String b t' => same_letter a b && ci_equal s' t'
  | _, _ => false
  end.

(** A text of ASCII characters only. *)
Fixpoint ascii_text (s : string) : bool :=
  match s with
  | EmptyString => true
  | String c s' => (nat_of_ascii c <? 128)%nat && ascii_text s'
  end.

(** Two strings match case-insensitively when they are the same text
    once both are in upper case. *)
Definition ci_match {U : Unicode} (s t : string) : bool :=
  String.eqb (upper s) (upper t).

(** A result is excluded for [ticker] when its metadata has a ['ticker']
    field whose value does not match [ticker] case-insensitively. *)
Definition excluded {U : Unicode} (ticker : string)
    (metadata : gmap string pyval) : bool :=
  match metadata !! "ticker" with
  | Some (VStr v) => negb (ci_match v ticker)
  | Some (VInt _) => true
  | None => false
  end.

(** Every ['ticker'] field among the metadata holds a string. *)
Definition ticker_fields_are_str (mds : list (gmap string pyval)) : Prop :=
  forall md v, md ∈ mds -> md !! "ticker" = Some v -> exists s, v = VStr s.

Section WithServices.
Context {F : Floats} {Sv : Services}.

(** The results of a search with their positions, as the loop of
    [get_context_for_query] meets them. *)
Definition enumerate_results (docs : list string)
    (mds : list (gmap string pyval)) (dists : list float)
    : list (nat * (string * (gmap string pyval * float))) :=
  imap (fun i item => (i, item)) (zip docs (zip mds dists)).

(** The four lines of a result, under its position. *)
Definition block_of (it : nat * (string * (gmap string pyval * float)))
    : list string :=
  let '(i, (doc, (md, dist))) := it in VectorStore.context_block i doc md dist.

(** A result is kept for [ticker] when it is not excluded. *)
Definition kept (ticker : string)
    (it : nat * (string * (gmap string pyval * float))) : Prop :=
  excluded ticker (fst (snd (snd it))) = false.

#[global] Instance kept_dec ticker it : Decision (kept ticker it).
Proof. unfold kept. apply _. Defined.

(** The formatted context of the results that are kept. *)
Definition context_of_kept (ticker : string)
    (items : list (nat * (string * (gmap string pyval * float)))) : string :=
  join nl (mjoin (block_of <$> filter (kept ticker) items)).

(** The world after one more outside call. *)
Definition after (w : World) (evs : list Event) : World :=
  {| knowledge := knowledge w; client := client w; trace := trace w ++ evs |}.

(** What [OllamaProvider.generate] returns once the request
    [full_prompt] has been answered. *)
Definition ollama_outcome (self : LLMProvider.OllamaProvider) (full_prompt : string)
    (temperature : float) (max_tokens : Z) : result string :=
  match ollama_generate (LLMProvider.ollama_model self) full_prompt temperature max_tokens with
  | inr response => Ok response
  | inl e =>
      Raise (Exception "RuntimeError"
               ("Error: " +:+ exn_msg e +:+ nl +:+ nl
                +:+ "Make sure Ollama is running: ollama serve" +:+ nl
                +:+ "And model '" +:+ LLMProvider.ollama_model self +:+ "' is installed: "
                +:+ "ollama pull " +:+ LLMProvider.ollama_model self))
  end.

(** A computation that only ever adds to the trace of outside calls. *)
Definition grows {A} (m : M A) : Prop :=
  forall w : World, exists evs : list Event, trace (snd (m w)) = trace w ++ evs.

(** The result of a search that found nothing. *)
Definition no_results : Chroma.QueryResult :=
  {| Chroma.documents := []; Chroma.metadatas := []; Chroma.distances := [] |}.
End WithServices.
End Spec.

(** ** A small concrete world

    Floats are counted in hundredths, the embedding of a text is its
    length, every stored record is at distance 0.25 and the language model
    echoes its prompt. *)

Module Demo.

#[export] Instance floats : Floats := {|
  float := Z;
  format_relevance := fun d => "0." +:+ str_of_Z (100 - d)
|}.

(** The case mapping of the characters 128 to 255 read as Latin-1: a small
    accented letter moves to its capital, sharp s gives SS, and a
    character whose capital is not among the 256 stays. *)
Definition latin1 : Unicode := {|
  upper_beyond_ascii := fun c =>
    let n := nat_of_ascii c in
    if (n =? 223)%nat then ("S"%char, "S")
    else if ((224 <=? n)%nat && (n <=? 254)%nat && negb (n =? 247)%nat)%bool
         then (ascii_of_nat (n - 32), EmptyString)
         else (c, EmptyString)
|}.

#[export] Instance services : Services := {|
  unicode := latin1;
  load_model := fun _ => inr tt;
  open_client := fun _ => inr tt;
  max_batch_size := Z.to_nat 5461;
  model_encode := fun s =>
    if truthy s then inr [len s]
    else inl (Exception "RuntimeError" "model unavailable");
  model_encode_batch := fun texts => inr ((fun s => [len s]) <$> texts);
  nearest := fun records _ n => (fun r => (r, 25)) <$> take (Z.to_nat n) records;
  ollama_generate := fun _ prompt _ _ => inr ("echo: " +:+ prompt);
  json_dumps_str := fun s => String "034"%char (s +:+ String "034"%char EmptyString)
|}.

Definition config : Config.t := Config.defaults "/srv/tickerai" 70.

Definition small : DocumentProcessor.t := {|
  DocumentProcessor.knowledge_dir := "/srv/tickerai/knowledge";
  DocumentProcessor.chunk_size := 4;
  DocumentProcessor.chunk_overlap := 1
|}.

Definition store : VectorStore.t := {|
  VectorStore.chroma_dir := "/srv/tickerai/chroma_db";
  VectorStore.collection_name := "stock_documents"
|}.

Definition server : MCPServer.TickerAIMCPServer := {|
  MCPServer.vector_store := store;
  MCPServer.llm_provider :=
    LLMProvider.UseOllama (LLMProvider.ollama_init config None None)
|}.

Definition record (i d : string) (md : gmap string pyval) : Chroma.VRecord :=
  {| Chroma.rec_id := i; Chroma.rec_embedding := [len d];
     Chroma.rec_document := d; Chroma.rec_metadata := md |}.

(** Three stored records: one tagged AAPL in lower case, one tagged
    TSLA, one without a ticker. *)
Definition records : list Chroma.VRecord :=
  [ record "doc_0" "AAPL revenue grew 5%."
      (<["ticker" := VStr "aapl"]> {["filename" := VStr "aapl.txt"]});
    record "doc_1" "TSLA deliveries fell."
      (<["ticker" := VStr "TSLA"]> {["filename" := VStr "tsla.txt"]});
    record "doc_2" "Markets were flat."
      {["filename" := VStr "notes.md"]} ].

Definition file (name content : string) : DocumentProcessor.FileEntry := {|
  DocumentProcessor.path_name := name;
  DocumentProcessor.path_str := "/srv/tickerai/knowledge/" +:+ name;
  DocumentProcessor.path_suffix := ".txt";
  DocumentProcessor.path_relative := name;
  DocumentProcessor.path_is_file := true;
  DocumentProcessor.open_read := inr content;
  DocumentProcessor.pdf_pages := inl (Exception "PdfReadError" "not a PDF");
  DocumentProcessor.json_pretty := inl (Exception "JSONDecodeError" "not JSON")
|}.

Definition world : World := {|
  knowledge := Some [file "aapl.txt" "AAPL revenue grew 5%."];
  client := {["stock_documents" := records]};
  trace := []
|}.

(** A world whose stored records all carry a ticker. *)
Definition tagged_world : World := {|
  knowledge := Some [file "aapl.txt" "AAPL revenue grew 5%."];
  client := {["stock_documents" := take 2 records]};
  trace := []
|}.

End Demo.

(** ** mcp_client.py

    The client reaches the server through a session of the MCP library;
    the session is taken as it is given, by its [call_tool] method.
    Connecting and disconnecting (which start and stop the server
    process) are not modelled: a client is either without a session or
    has one. *)

Module MCPClient.
Section WithServices.
Context {F : Floats} {Sv : Services}.

(** [mcp.types.CallToolResult], by its [content]. *)
Record CallToolResult := {
  content : list MCPServer.TextContent
}.

(** [mcp.ClientSession], by its [call_tool] method. *)
Record ClientSession := {
  session_call_tool : string -> gmap string string -> M CallToolResult
}.

Record TickerAIMCPClient := {
  server_script_path : string;
  session : option ClientSession
}.

(** [TickerAIMCPClient.__init__], whose path defaults to
    ["mcp_server.py"] *)
Definition init (server_script_path : option string) : TickerAIMCPClient :=
  {| server_script_path := default "mcp_server.py" server_script_path;
     session := None |}.

Definition not_connected {A} : M A :=
  raise (Exception "RuntimeError" "Not connected to server. Call connect() first.").

(** [TickerAIMCPClient.query_stock] *)
Definition query_stock (self : TickerAIMCPClient) (ticker query : string)
    (context : option string) : M string :=
  match session self with
  | None => not_connected
  | Some session =>
      let arguments : gmap string string :=
        <["query" := query]> (<["ticker" := ticker]> ∅) in
      let arguments :=
        match context with
        | Some c => if truthy c then <["context" := c]> arguments else arguments
        | None => arguments
        end in
      result ← session_call_tool session "query_stock" arguments;
      match content result with
      | c :: _ => mret (MCPServer.text c)
      | [] => mret "No response received from server"
      end
  end.

(** [TickerAIMCPClient.get_vector_store_stats]; [json_loads] stands for
    [json.loads]. *)
Definition get_vector_store_stats
    (json_loads : string -> external (gmap string pyval))
    (self : TickerAIMCPClient) : M (gmap string pyval) :=
  match session self with
  | None => not_connected
  | Some session =>
      result ← session_call_tool session "get_vector_store_stats" ∅;
      match content result with
      | c :: _ => lift (of_external (json_loads (MCPServer.text c)))
      | [] => mret ∅
      end
  end.

(** [TickerAIMCPClient.refresh_knowledge_base] *)
Definition refresh_knowledge_base (self : TickerAIMCPClient) : M string :=
  match session self with
  | None => not_connected
  | Some session =>
      result ← session_call_tool session "refresh_knowledge_base" ∅;
      match content result with
      | c :: _ => mret (MCPServer.text c)
      | [] => mret "No response received from server"
      end
  end.

(** [TickerAIClientInterface]; [client_of] is its attribute
    [self.client]. *)
Record TickerAIClientInterface := {
  client_of : TickerAIMCPClient
}.

(** [TickerAIClientInterface.ask] *)
Definition ask (self : TickerAIClientInterface) (ticker question : string)
    (context : option string) : M string :=
  query_stock (client_of self) ticker question context.

(** [TickerAIClientInterface.refresh] *)
Definition refresh (self : TickerAIClientInterface) : M string :=
  refresh_knowledge_base (client_of self).

End WithServices.
End MCPClient.

(** ** Vocabulary for the rest of the code

    As in [Spec], nothing here is translated from the sources except
    where a comment names the source it follows. *)

Module Aux.

(** The three keys that [chunk_text] writes into the metadata of every
    chunk. *)
Definition positional (key : string) : bool :=
  str_in key ["chunk_id"; "start_char"; "end_char"].

(** A chunk carries [metadata]: it has the caller's value under every
    key that is not positional, and an integer under the positional
    ones. *)
Definition carries (metadata : gmap string pyval)
    (c : DocumentProcessor.Chunk) : Prop :=
  (forall key, positional key = false ->
               DocumentProcessor.metadata c !! key = metadata !! key)
  /\ (forall key, positional key = true ->
                  exists z, DocumentProcessor.metadata c !! key = Some (VInt z)).

(** The metadata that [process_documents] builds for a file before it
    chunks it. *)
Definition file_metadata (f : DocumentProcessor.FileEntry) : gmap string pyval :=
  <["relative_path" := VStr (DocumentProcessor.path_relative f)]>
    (<["file_type" := VStr (DocumentProcessor.path_suffix f)]>
       (<["filepath" := VStr (DocumentProcessor.path_str f)]>
          (<["filename" := VStr (DocumentProcessor.path_name f)]> ∅))).

(** A path that [process_documents] turns into chunks: a regular file
    with a supported suffix from which some content was read. *)
Definition eligible (supported : list string)
    (f : DocumentProcessor.FileEntry) : bool :=
  DocumentProcessor.path_is_file f
  && str_in (DocumentProcessor.path_suffix f) supported
  && truthy (DocumentProcessor.read_document f).

(** The chunks of one file under a valid configuration: the windows over
    the content read from it, with the metadata of the file. *)
Definition file_chunks (self : DocumentProcessor.t)
    (f : DocumentProcessor.FileEntry) : list DocumentProcessor.Chunk :=
  Spec.windows (Spec.iterations self (DocumentProcessor.read_document f) 0)
    self (DocumentProcessor.read_document f) (file_metadata f) 0 0.

(** A chunk comes from file [f]: it has the four file keys of [f] and
    records a span of the content read from [f]. *)
Definition comes_from (self : DocumentProcessor.t)
    (f : DocumentProcessor.FileEntry) (c : DocumentProcessor.Chunk) : Prop :=
  DocumentProcessor.metadata c !! "filename"
  = Some (VStr (DocumentProcessor.path_name f))
  /\ DocumentProcessor.metadata c !! "filepath"
     = Some (VStr (DocumentProcessor.path_str f))
  /\ DocumentProcessor.metadata c !! "file_type"
     = Some (VStr (DocumentProcessor.path_suffix f))
  /\ DocumentProcessor.metadata c !! "relative_path"
     = Some (VStr (DocumentProcessor.path_relative f))
  /\ Spec.span_recorded self (DocumentProcessor.read_document f) c.

(** The sum of the lengths of some strings. *)
Definition total_len (parts : list string) : Z :=
  foldr (fun p acc => len p + acc) 0 parts.

(** [sub] occurs in [s]. *)
Definition contains (s sub : string) : Prop :=
  exists pre post : string, s = pre +:+ sub +:+ post.

Section WithServices.
Context {F : Floats} {Sv : Services}.

(** A computation that never runs out of fuel: it has no unbounded
    loop. *)
Definition finishes {A} (m : M A) : Prop :=
  forall w : World, fst (m w) <> OutOfFuel.

(** A session through which the tools of [server] answer: calling a
    tool returns the contents that the server's [call_tool] returns. *)
Definition served_by (config : Config.t) (fuel : nat)
    (server : MCPServer.TickerAIMCPServer)
    (session : MCPClient.ClientSession) : Prop :=
  forall name arguments w,
    MCPClient.session_call_tool session name arguments w
    = (r ← MCPServer.call_tool config fuel server name arguments;
       mret {| MCPClient.content := r |}) w.

(** The session that hands every call to the [call_tool] of [server]. *)
Definition direct_session (config : Config.t) (fuel : nat)
    (server : MCPServer.TickerAIMCPServer) : MCPClient.ClientSession :=
  {| MCPClient.session_call_tool := fun name arguments =>
       r ← MCPServer.call_tool config fuel server name arguments;
       mret {| MCPClient.content := r |} |}.

(** A tool result made of one text content. *)
Definition text_reply (r : result (list MCPServer.TextContent)) : Prop :=
  exists t : string,
    r = Ok [ {| MCPServer.type := "text"; MCPServer.text := t |} ].

End WithServices.
End Aux.

(** ** More concrete cases

    Further inputs on which the properties below are exercised: an
    embedding model that is down, a configuration whose overlap equals
    the chunk size, a placeholder provider, a record with an integer
    ticker, and a few directory entries. *)

Module Cases.

(** The services of [Demo] with a batch embedding that always raises. *)
Definition model_down : @Services Demo.floats := {|
  unicode := Demo.latin1;
  load_model := @load_model _ Demo.services;
  open_client := @open_client _ Demo.services;
  max_batch_size := @max_batch_size _ Demo.services;
  model_encode := @model_encode _ Demo.services;
  model_encode_batch := fun _ => inl (Exception "RuntimeError" "model unavailable");
  nearest := @nearest _ Demo.services;
  ollama_generate := @ollama_generate _ Demo.services;
  json_dumps_str := @json_dumps_str _ Demo.services
|}.

(** The services of [Demo] on a machine where the embedding model cannot
    be loaded. *)
Definition model_missing : @Services Demo.floats := {|
  unicode := Demo.latin1;
  load_model := fun _ => inl (Exception "OSError" "model not found");
  open_client := @open_client _ Demo.services;
  max_batch_size := @max_batch_size _ Demo.services;
  model_encode := @model_encode _ Demo.services;
  model_encode_batch := @model_encode_batch _ Demo.services;
  nearest := @nearest _ Demo.services;
  ollama_generate := @ollama_generate _ Demo.services;
  json_dumps_str := @json_dumps_str _ Demo.services
|}.

(** The services of [Demo] when the database directory cannot be
    opened. *)
Definition store_locked : @Services Demo.floats := {|
  unicode := Demo.latin1;
  load_model := @load_model _ Demo.services;
  open_client := fun _ => inl (Exception "PermissionError" "permission denied");
  max_batch_size := @max_batch_size _ Demo.services;
  model_encode := @model_encode _ Demo.services;
  model_encode_batch := @model_encode_batch _ Demo.services;
  nearest := @nearest _ Demo.services;
  ollama_generate := @ollama_generate _ Demo.services;
  json_dumps_str := @json_dumps_str _ Demo.services
|}.

(** The constants of [config.py] with the overlap raised to the chunk
    size. *)
Definition looping_config : @Config.t Demo.floats := {|
  Config.LLM_PROVIDER := "ollama";
  Config.LLM_HOST := "http://localhost:11434";
  Config.LLM_MODEL := "llama3.2";
  Config.LLM_TEMPERATURE := Config.LLM_TEMPERATURE Demo.config;
  Config.LLM_MAX_TOKENS := 1000;
  Config.EMBEDDING_MODEL := "all-MiniLM-L6-v2";
  Config.CHROMA_DB_DIR := "/srv/tickerai/chroma_db";
  Config.CHROMA_COLLECTION_NAME := "stock_documents";
  Config.KNOWLEDGE_DIR := "/srv/tickerai/knowledge";
  Config.SUPPORTED_FILE_TYPES := [".txt"; ".md"; ".pdf"; ".json"];
  Config.TOP_K_RESULTS := 5;
  Config.CHUNK_SIZE := 1000;
  Config.CHUNK_OVERLAP := 1000
|}.

Definition openai_server : MCPServer.TickerAIMCPServer := {|
  MCPServer.vector_store := Demo.store;
  MCPServer.llm_provider :=
    LLMProvider.UseOpenAI (LLMProvider.openai_init None None)
|}.

(** A client connected to [Demo.server]. *)
Definition connected_client
    : @MCPClient.TickerAIMCPClient Demo.floats := {|
  MCPClient.server_script_path := "mcp_server.py";
  MCPClient.session :=
    Some (@Aux.direct_session Demo.floats Demo.services Demo.config 5 Demo.server)
|}.

(** The same client when the embedding model is down. *)
Definition connected_client_model_down
    : @MCPClient.TickerAIMCPClient Demo.floats := {|
  MCPClient.server_script_path := "mcp_server.py";
  MCPClient.session :=
    Some (@Aux.direct_session Demo.floats model_down Demo.config 5 Demo.server)
|}.

(** A world without any collection. *)
Definition fresh_world : @World Demo.floats := {|
  knowledge := knowledge Demo.world;
  client := ∅;
  trace := []
|}.

(** A world whose collection exists and is empty. *)
Definition empty_collection_world : @World Demo.floats := {|
  knowledge := knowledge Demo.world;
  client := {["stock_documents" := []]};
  trace := []
|}.

(** A world whose second stored record has an integer ticker. *)
Definition int_ticker_world : @World Demo.floats := {|
  knowledge := knowledge Demo.world;
  client :=
    {["stock_documents" :=
        [ Demo.record "doc_0" "AAPL revenue grew 5%."
            (<["ticker" := VStr "aapl"]> {["filename" := VStr "aapl.txt"]});
          Demo.record "doc_1" "Ticker seven."
            (<["ticker" := VInt 7]> {["filename" := VStr "seven.txt"]}) ]]};
  trace := []
|}.

(** A world whose stored records are tagged with accented letters: the
    small e-acute (code 233) and the capital one (code 201). *)
Definition accent_world : @World Demo.floats := {|
  knowledge := knowledge Demo.world;
  client :=
    {["stock_documents" :=
        [ Demo.record "doc_0" "Hermes sales rose."
            (<["ticker" := VStr (String (ascii_of_nat 233) "")]>
               {["filename" := VStr "hermes.txt"]});
          Demo.record "doc_1" "AAPL revenue grew 5%."
            (<["ticker" := VStr "aapl"]> {["filename" := VStr "aapl.txt"]}) ]]};
  trace := []
|}.

(** A knowledge directory of [n] short notes, one chunk each. *)
Definition notes (n : nat) : list DocumentProcessor.FileEntry :=
  (fun i => Demo.file ("note_" +:+ str_of_nat i +:+ ".txt") "Markets were flat.")
    <$> seq 0 n.

(** A world with one note more than the client takes in one call, and
    three records stored before. *)
Definition crowded_world : @World Demo.floats := {|
  knowledge := Some (notes (Z.to_nat 5462));
  client := client Demo.world;
  trace := []
|}.

(** Directory entries: a sub-directory, a text file with an upper-case
    suffix, a text file that cannot be opened, and a PDF of two pages
    without text. *)
Definition subdirectory : DocumentProcessor.FileEntry := {|
  DocumentProcessor.path_name := "reports";
  DocumentProcessor.path_str := "/srv/tickerai/knowledge/reports";
  DocumentProcessor.path_suffix := "";
  DocumentProcessor.path_relative := "reports";
  DocumentProcessor.path_is_file := false;
  DocumentProcessor.open_read := inl (Exception "IsADirectoryError" "is a directory");
  DocumentProcessor.pdf_pages := inl (Exception "IsADirectoryError" "is a directory");
  DocumentProcessor.json_pretty := inl (Exception "IsADirectoryError" "is a directory")
|}.

Definition upper_case_file : DocumentProcessor.FileEntry := {|
  DocumentProcessor.path_name := "NOTES.TXT";
  DocumentProcessor.path_str := "/srv/tickerai/knowledge/NOTES.TXT";
  DocumentProcessor.path_suffix := ".TXT";
  DocumentProcessor.path_relative := "NOTES.TXT";
  DocumentProcessor.path_is_file := true;
  DocumentProcessor.open_read := inr "Markets were flat.";
  DocumentProcessor.pdf_pages := inl (Exception "PdfReadError" "not a PDF");
  DocumentProcessor.json_pretty := inl (Exception "JSONDecodeError" "not JSON")
|}.

Definition unreadable_file : DocumentProcessor.FileEntry := {|
  DocumentProcessor.path_name := "locked.txt";
  DocumentProcessor.path_str := "/srv/tickerai/knowledge/locked.txt";
  DocumentProcessor.path_suffix := ".txt";
  DocumentProcessor.path_relative := "locked.txt";
  DocumentProcessor.path_is_file := true;
  DocumentProcessor.open_read := inl (Exception "PermissionError" "permission denied");
  DocumentProcessor.pdf_pages := inl (Exception "PdfReadError" "not a PDF");
  DocumentProcessor.json_pretty := inl (Exception "JSONDecodeError" "not JSON")
|}.

Definition scanned_pdf : DocumentProcessor.FileEntry := {|
  DocumentProcessor.path_name := "scan.pdf";
  DocumentProcessor.path_str := "/srv/tickerai/knowledge/scan.pdf";
  DocumentProcessor.path_suffix := ".pdf";
  DocumentProcessor.path_relative := "scan.pdf";
  DocumentProcessor.path_is_file := true;
  DocumentProcessor.open_read := inr "%PDF-1.7";
  DocumentProcessor.pdf_pages := inr [""; ""];
  DocumentProcessor.json_pretty := inl (Exception "JSONDecodeError" "not JSON")
|}.

Definition alphabet : DocumentProcessor.FileEntry := Demo.file "abc.txt" "abcdefgh".

End Cases.

(** * Properties *)

(** ** Strings and slices *)

Section Strings.

Lemma append_cons (c : ascii) (a b : string) :
  String c a +:+ b = String c (a +:+ b).
Proof. reflexivity. Qed.

Lemma substring_all (s : string) (m : nat) :
  (String.length s <= m)%nat -> substring 0 m s = s.
Proof.
  revert m. induction s as [|c s IH]; intros [|m] Hm; simpl in *; try reflexivity.
  - lia.
  - f_equal. apply IH. lia.
Qed.

Lemma substring_to_end (s : string) (n m : nat) :
  (String.length s - n <= m)%nat ->
  substring n m s = substring n (String.length s - n) s.
Proof.
  revert n m. induction s as [|c s IH]; intros n m Hm.
  - destruct n, m; reflexivity.
  - destruct n as [|n]; simpl in *.
    + destruct m as [|m]; [lia|]. f_equal.
      rewrite !substring_all; [reflexivity|lia..].
    + apply IH. exact Hm.
Qed.

Lemma substring_of_substring (s : string) (n m k : nat) :
  (k <= m)%nat -> substring 0 k (substring n m s) = substring n k s.
Proof.
  revert n m k. induction s as [|c s IH]; intros n m k Hk.
  - destruct n, m, k; reflexivity.
  - destruct n as [|n]; simpl.
    + destruct m as [|m], k as [|k]; simpl; try reflexivity; try lia.
      f_equal. apply IH. lia.
    + apply IH. exact Hk.
Qed.

Lemma substring_split (s : string) (n k : nat) :
  substring n k s +:+ substring (n + k) (String.length s - (n + k)) s
  = substring n (String.length s - n) s.
Proof.
  revert n k. induction s as [|c s IH]; intros n k.
  - destruct n, k; reflexivity.
  - destruct n as [|n]; simpl.
    + destruct k as [|k]; simpl.
      * reflexivity.
      * specialize (IH 0%nat k). simpl in IH.
        rewrite Nat.sub_0_r in IH. rewrite append_cons. f_equal. exact IH.
    + apply IH.
Qed.

Lemma length_substring (s : string) (n m : nat) :
  String.length (substring n m s) = Nat.min m (String.length s - n).
Proof.
  revert n m. induction s as [|c s IH]; intros n m.
  - destruct n, m; reflexivity.
  - destruct n as [|n]; simpl.
    + destruct m as [|m]; simpl; [reflexivity|].
      rewrite IH, Nat.sub_0_r. reflexivity.
    + apply IH.
Qed.

Lemma len_nonneg (s : string) : 0 <= len s.
Proof. unfold len. lia. Qed.

Lemma len_empty (s : string) : len s = 0 -> s = "".
Proof. destruct s; [reflexivity|]. unfold len. simpl. lia. Qed.

(** A slice whose end is clamped to the length by hand is the slice. *)
Lemma py_slice_min (s : string) (lo hi : Z) :
  py_slice s lo (Z.min hi (len s)) = py_slice s lo hi.
Proof.
  unfold py_slice. f_equal. f_equal. f_equal.
  pose proof (len_nonneg s). unfold clamp_index.
  destruct (Z.ltb_spec hi 0), (Z.ltb_spec (Z.min hi (len s)) 0); lia.
Qed.

(** A window that reaches the end of the text is the rest of the text. *)
Lemma py_slice_to_end (s : string) (lo hi : Z) :
  0 <= lo <= len s -> len s <= hi ->
  py_slice s lo hi
  = substring (Z.to_nat lo) (String.length s - Z.to_nat lo) s.
Proof.
  intros Hlo Hhi. unfold py_slice. unfold clamp_index.
  destruct (Z.ltb_spec lo 0), (Z.ltb_spec hi 0); try lia.
  rewrite (Z.min_l lo), (Z.min_r hi) by lia.
  apply substring_to_end. unfold len in *. lia.
Qed.

(** The first [k] characters of a window that holds at least [k]. *)
Lemma py_slice_prefix (s : string) (lo hi k : Z) :
  0 <= lo -> 0 < k -> lo + k <= hi -> lo + k <= len s ->
  py_slice (py_slice s lo hi) 0 k = substring (Z.to_nat lo) (Z.to_nat k) s.
Proof.
  intros Hlo Hk Hhi Hlen.
  assert (Hin : py_slice s lo hi
                = substring (Z.to_nat lo) (Z.to_nat (Z.min hi (len s) - lo)) s).
  { unfold py_slice, clamp_index.
    destruct (Z.ltb_spec lo 0), (Z.ltb_spec hi 0); try lia.
    rewrite (Z.min_l lo) by lia. reflexivity. }
  rewrite Hin. unfold py_slice at 1. unfold clamp_index, len.
  rewrite length_substring.
  destruct (Z.ltb_spec 0 0), (Z.ltb_spec k 0); try lia.
  unfold len in *.
  rewrite Z.min_l by lia. rewrite Z.min_l by lia.
  rewrite Z.sub_0_r. change (Z.to_nat 0) with 0%nat.
  apply substring_of_substring. lia.
Qed.

End Strings.

(** ** Chunking *)

Section CeilDiv.
Import Spec.

(** [ceil_div a b] is the least [q] with [a <= b * q]. *)
Lemma ceil_div_spec (a b : Z) :
  0 < b -> b * (ceil_div a b - 1) < a <= b * ceil_div a b.
Proof.
  intros Hb. unfold ceil_div.
  pose proof (Z.div_mod (a + b - 1) b ltac:(lia)) as Hdm.
  pose proof (Z.mod_pos_bound (a + b - 1) b Hb) as Hm.
  nia.
Qed.

Lemma ceil_div_unique (a b q : Z) :
  0 < b -> b * (q - 1) < a <= b * q -> ceil_div a b = q.
Proof.
  intros Hb Hq. pose proof (ceil_div_spec a b Hb). nia.
Qed.

Lemma ceil_div_step (a b : Z) :
  0 < b -> ceil_div (a - b) b = ceil_div a b - 1.
Proof.
  intros Hb. apply ceil_div_unique; [exact Hb|].
  pose proof (ceil_div_spec a b Hb). nia.
Qed.

Lemma ceil_div_nonpos (a b : Z) : 0 < b -> a <= 0 -> ceil_div a b <= 0.
Proof. intros Hb Ha. pose proof (ceil_div_spec a b Hb). nia. Qed.

Lemma ceil_div_pos (a b : Z) : 0 < b -> 0 < a -> 0 < ceil_div a b.
Proof. intros Hb Ha. pose proof (ceil_div_spec a b Hb). nia. Qed.

Lemma ceil_div_le (a b : Z) : 0 < b -> 0 <= a -> ceil_div a b <= a.
Proof. intros Hb Ha. pose proof (ceil_div_spec a b Hb). nia. Qed.

End CeilDiv.

Section Chunking.
Import DocumentProcessor Spec.
Variable self : DocumentProcessor.t.
Variable text : string.
Variable metadata : gmap string pyval.

#[local] Abbreviation stride := (chunk_size self - chunk_overlap self).

Lemma iterations_done (start : Z) :
  0 < stride -> len text <= start -> iterations self text start = 0%nat.
Proof.
  intros Hs Hge. unfold iterations.
  pose proof (ceil_div_nonpos (len text - start) stride Hs). lia.
Qed.

Lemma iterations_step (start : Z) :
  0 < stride -> start < len text ->
  iterations self text start = S (iterations self text (start + stride)).
Proof.
  intros Hs Hlt. unfold iterations.
  replace (len text - (start + stride)) with (len text - start - stride) by lia.
  rewrite ceil_div_step by exact Hs.
  pose proof (ceil_div_pos (len text - start) stride Hs). lia.
Qed.

Lemma iterations_bound :
  0 < stride -> (iterations self text 0 <= Z.to_nat (len text))%nat.
Proof.
  intros Hs. unfold iterations. rewrite Z.sub_0_r.
  pose proof (ceil_div_le (len text) stride Hs (len_nonneg text)). lia.
Qed.

(** With a positive stride the loop is the list of its windows. *)
Lemma chunk_loop_unroll (fuel : nat) :
  0 < stride ->
  forall (chunks : list Chunk) (start chunk_id : Z),
    (iterations self text start < fuel)%nat ->
    chunk_loop fuel self text metadata chunks start chunk_id
    = Ok (chunks ++ windows (iterations self text start) self text metadata
                      start chunk_id).
Proof.
  intros Hs. induction fuel as [|fuel IH]; intros chunks start chunk_id Hfuel.
  - lia.
  - simpl. destruct (Z.ltb_spec start (len text)) as [Hlt|Hge].
    + rewrite (iterations_step start Hs Hlt) in Hfuel |- *.
      rewrite IH by lia. simpl. rewrite <- app_assoc. reflexivity.
    + rewrite (iterations_done start Hs Hge). simpl.
      rewrite app_nil_r. reflexivity.
Qed.

(** More fuel does not change what a finished loop returned. *)
Lemma chunk_loop_fuel_mono (fuel fuel' : nat) :
  (fuel <= fuel')%nat ->
  forall (chunks : list Chunk) (start chunk_id : Z) (r : list Chunk),
    chunk_loop fuel self text metadata chunks start chunk_id = Ok r ->
    chunk_loop fuel' self text metadata chunks start chunk_id = Ok r.
Proof.
  revert fuel'. induction fuel as [|fuel IH]; intros fuel' Hle chunks start chunk_id r.
  - discriminate.
  - destruct fuel' as [|fuel']; [lia|]. simpl.
    destruct (start <? len text); [|auto]. apply IH. lia.
Qed.

(** With a stride that is not positive the loop never leaves a
    non-empty text. *)
Lemma chunk_loop_diverges (fuel : nat) :
  stride <= 0 -> 0 < len text ->
  forall (chunks : list Chunk) (start chunk_id : Z),
    start <= 0 ->
    chunk_loop fuel self text metadata chunks start chunk_id = OutOfFuel.
Proof.
  intros Hs Hlen. induction fuel as [|fuel IH]; intros chunks start chunk_id Hstart.
  - reflexivity.
  - simpl. destruct (Z.ltb_spec start (len text)); [|lia].
    apply IH. lia.
Qed.

Lemma length_windows (n : nat) (start chunk_id : Z) :
  length (windows n self text metadata start chunk_id) = n.
Proof.
  revert start chunk_id. induction n as [|n IH]; intros; simpl; [|rewrite IH]; reflexivity.
Qed.

Lemma last_windows (n : nat) (start chunk_id : Z) :
  last (windows (S n) self text metadata start chunk_id)
  = Some (window self text metadata (start + Z.of_nat n * stride)
            (chunk_id + Z.of_nat n)).
Proof.
  revert start chunk_id. induction n as [|n IH]; intros start chunk_id.
  - simpl. do 2 f_equal; lia.
  - change (windows (S (S n)) self text metadata start chunk_id)
      with (window self text metadata start chunk_id
              :: windows (S n) self text metadata (start + stride) (chunk_id + 1)).
    rewrite last_cons, IH. simpl. do 2 f_equal; lia.
Qed.

Lemma window_span_recorded (start chunk_id : Z) :
  span_recorded self text (window self text metadata start chunk_id).
Proof.
  exists start, (start + chunk_size self). simpl.
  rewrite lookup_insert_ne by discriminate.
  rewrite !lookup_insert_eq. rewrite py_slice_min. auto.
Qed.

(** Whatever the configuration, a chunk that the loop appends records
    its own span. *)
Lemma chunk_loop_span_recorded (fuel : nat) :
  forall (chunks : list Chunk) (start chunk_id : Z) (r : list Chunk),
    Forall (span_recorded self text) chunks ->
    chunk_loop fuel self text metadata chunks start chunk_id = Ok r ->
    Forall (span_recorded self text) r.
Proof.
  induction fuel as [|fuel IH]; intros chunks start chunk_id r Hall.
  - discriminate.
  - simpl. destruct (start <? len text).
    + apply IH. apply Forall_app. split; [exact Hall|].
      constructor; [|constructor]. apply window_span_recorded.
    + intros [= <-]. exact Hall.
Qed.

Lemma chunk_text_span_any_config (fuel : nat) (chunks : list Chunk) :
  chunk_text fuel self text metadata = Ok chunks ->
  Forall (span_recorded self text) chunks.
Proof. apply chunk_loop_span_recorded. constructor. Qed.

Lemma windows_span_recorded (n : nat) (start chunk_id : Z) :
  Forall (span_recorded self text) (windows n self text metadata start chunk_id).
Proof.
  revert start chunk_id. induction n as [|n IH]; intros; simpl; constructor.
  - apply window_span_recorded.
  - apply IH.
Qed.

(** The spans of the windows from [start] on tile the rest of the text. *)
Lemma windows_reconstruct (n : nat) :
  0 <= chunk_overlap self -> 0 < stride ->
  forall (start chunk_id : Z),
    0 <= start < len text ->
    n = iterations self text start ->
    non_overlapping_concat stride
      (DocumentProcessor.text <$> windows n self text metadata start chunk_id)
    = substring (Z.to_nat start) (String.length text - Z.to_nat start) text.
Proof.
  intros Ho Hs. induction n as [|n IH]; intros start chunk_id Hstart Hn.
  - rewrite iterations_step in Hn by lia. discriminate.
  - rewrite iterations_step in Hn by lia. injection Hn as Hn.
    destruct (Z.lt_ge_cases (start + stride) (len text)) as [Hlt|Hge].
    + pose proof (iterations_step (start + stride) Hs Hlt) as Hnext.
      specialize (IH (start + stride) (chunk_id + 1) ltac:(lia) Hn).
      rewrite Hn, Hnext in *.
      cbn [windows fmap list_fmap non_overlapping_concat] in IH |- *.
      cbn [windows fmap list_fmap non_overlapping_concat window DocumentProcessor.text].
      cbn [window DocumentProcessor.text] in IH.
      rewrite IH.
      rewrite py_slice_prefix by lia.
      rewrite Z2Nat.inj_add by lia.
      apply substring_split.
    + rewrite Hn, (iterations_done (start + stride) Hs) by lia.
      cbn [windows fmap list_fmap non_overlapping_concat window DocumentProcessor.text].
      apply py_slice_to_end; lia.
Qed.

End Chunking.

Section ChunkText.
Import DocumentProcessor Spec.

Lemma chunk_text_windows (self : DocumentProcessor.t) (text : string)
    (metadata : gmap string pyval) (fuel : nat) :
  0 < chunk_size self - chunk_overlap self ->
  (Z.to_nat (len text) < fuel)%nat ->
  chunk_text fuel self text metadata
  = Ok (windows (iterations self text 0) self text metadata 0 0).
Proof.
  intros Hs Hfuel. unfold chunk_text.
  rewrite chunk_loop_unroll; [reflexivity|exact Hs|].
  pose proof (iterations_bound self text Hs). lia.
Qed.

(** C1. With [0 <= chunk_overlap < chunk_size], [chunk_text] returns (for
    any fuel above the length of the text) exactly
    [ceil(L / (chunk_size - chunk_overlap))] chunks (the least number [n]
    of strides that cover [L]), and the first
    [chunk_size - chunk_overlap] characters of every chunk but the last,
    followed by the whole last chunk, spell the original text. *)
Theorem chunk_text_count_and_reconstruction
    (self : DocumentProcessor.t) (text : string) (metadata : gmap string pyval) :
  0 <= chunk_overlap self < chunk_size self ->
  exists chunks : list Chunk,
    (forall fuel, (Z.to_nat (len text) < fuel)%nat ->
                  chunk_text fuel self text metadata = Ok chunks)
    /\ Z.of_nat (length chunks)
       = ceil_div (len text) (chunk_size self - chunk_overlap self)
    /\ (chunk_size self - chunk_overlap self) * (Z.of_nat (length chunks) - 1)
       < len text
       <= (chunk_size self - chunk_overlap self) * Z.of_nat (length chunks)
    /\ non_overlapping_concat (chunk_size self - chunk_overlap self)
         (DocumentProcessor.text <$> chunks)
       = text.
Proof.
  intros Hcfg.
  assert (Hs : 0 < chunk_size self - chunk_overlap self) by lia.
  assert (Hcount : Z.of_nat (length (windows (iterations self text 0) self text
                                       metadata 0 0))
                   = ceil_div (len text) (chunk_size self - chunk_overlap self)).
  { rewrite length_windows. unfold iterations. rewrite Z.sub_0_r.
    pose proof (ceil_div_spec (len text) _ Hs).
    pose proof (len_nonneg text).
    rewrite Z2Nat.id; [reflexivity|nia]. }
  exists (windows (iterations self text 0) self text metadata 0 0).
  split; [|split; [|split]].
  - intros fuel Hfuel. apply chunk_text_windows; assumption.
  - exact Hcount.
  - rewrite Hcount. apply ceil_div_spec. exact Hs.
  - destruct (Z.eq_dec (len text) 0) as [Hz|Hnz].
    + rewrite iterations_done by lia.
      rewrite (len_empty text Hz). reflexivity.
    + pose proof (len_nonneg text).
      rewrite (windows_reconstruct self text metadata _ (proj1 Hcfg) Hs 0 0)
        by (try reflexivity; lia).
      change (Z.to_nat 0) with 0%nat. rewrite Nat.sub_0_r.
      apply substring_all. lia.
Qed.

Lemma chunk_text_count_and_reconstruction_witness :
  exists chunks : list Chunk,
    chunk_text 9 Demo.small "abcdefgh" ∅ = Ok chunks
    /\ Z.of_nat (length chunks) = ceil_div 8 3
    /\ non_overlapping_concat 3 (DocumentProcessor.text <$> chunks) = "abcdefgh".
Proof.
  destruct (chunk_text_count_and_reconstruction Demo.small "abcdefgh" ∅)
    as (chunks & Hrun & Hcount & _ & Hcat).
  - simpl. lia.
  - exists chunks. split; [|split].
    + apply Hrun. vm_compute. lia.
    + exact Hcount.
    + exact Hcat.
Defined.

(** C2. When [chunk_overlap >= chunk_size] and the text is not empty,
    [chunk_text] neither returns nor raises, whatever fuel it is given:
    it does not terminate. When [0 <= chunk_overlap < chunk_size] it
    returns for every text, as soon as the fuel exceeds the length of
    the text. *)
Theorem chunk_text_termination
    (self : DocumentProcessor.t) (text : string) (metadata : gmap string pyval) :
  (chunk_size self <= chunk_overlap self -> text <> "" ->
   forall fuel, chunk_text fuel self text metadata = OutOfFuel)
  /\ (0 <= chunk_overlap self < chunk_size self ->
      exists chunks : list Chunk,
        forall fuel, (Z.to_nat (len text) < fuel)%nat ->
                     chunk_text fuel self text metadata = Ok chunks).
Proof.
  split.
  - intros Hcfg Hne fuel. unfold chunk_text.
    apply chunk_loop_diverges; [lia| |lia].
    pose proof (len_nonneg text).
    destruct (Z.eq_dec (len text) 0) as [Hz|]; [|lia].
    elim Hne. apply len_empty, Hz.
  - intros Hcfg.
    exists (windows (iterations self text 0) self text metadata 0 0).
    intros fuel Hfuel. apply chunk_text_windows; [lia|exact Hfuel].
Qed.

Lemma chunk_text_termination_witness :
  (forall fuel,
     chunk_text fuel
       {| knowledge_dir := "/k"; chunk_size := 3; chunk_overlap := 3 |}
       "abc" ∅ = OutOfFuel)
  /\ (exists chunks : list Chunk,
        chunk_text 9 Demo.small "abcdefgh" ∅ = Ok chunks).
Proof.
  split.
  - apply (proj1 (chunk_text_termination
                    {| knowledge_dir := "/k"; chunk_size := 3; chunk_overlap := 3 |}
                    "abc" ∅)).
    + simpl. lia.
    + discriminate.
  - destruct (proj2 (chunk_text_termination Demo.small "abcdefgh" ∅))
      as [chunks Hrun].
    + simpl. lia.
    + exists chunks. apply Hrun. vm_compute. lia.
Defined.

(** C10. Every chunk that [chunk_text] returns, under any
    configuration, records [end_char = start_char + chunk_size] and holds
    [text[start_char : min(end_char, len(text))]]. With
    [0 <= chunk_overlap < chunk_size] the call returns, and when the
    length of the text is not a multiple of the stride the [end_char] of
    the last chunk is greater than the length of the text: it is not
    clamped. *)
Theorem chunk_text_span_metadata
    (self : DocumentProcessor.t) (text : string) (metadata : gmap string pyval) :
  (forall fuel chunks,
     chunk_text fuel self text metadata = Ok chunks ->
     Forall (span_recorded self text) chunks)
  /\ (0 <= chunk_overlap self < chunk_size self ->
      exists chunks : list Chunk,
        (forall fuel, (Z.to_nat (len text) < fuel)%nat ->
                      chunk_text fuel self text metadata = Ok chunks)
        /\ (len text mod (chunk_size self - chunk_overlap self) <> 0 ->
            exists (c : Chunk) (end_char : Z),
              last chunks = Some c
              /\ DocumentProcessor.metadata c !! "end_char" = Some (VInt end_char)
              /\ len text < end_char)).
Proof.
  split; [apply chunk_text_span_any_config|].
  intros Hcfg.
  assert (Hs : 0 < chunk_size self - chunk_overlap self) by lia.
  exists (windows (iterations self text 0) self text metadata 0 0).
  split.
  - intros fuel Hfuel. apply chunk_text_windows; assumption.
  - intros Hmod. pose proof (len_nonneg text) as Hlen.
    assert (Hpos : 0 < len text).
    { destruct (Z.eq_dec (len text) 0) as [Hz|]; [|lia].
      rewrite Hz, Z.mod_0_l in Hmod by lia. congruence. }
    pose proof (ceil_div_spec (len text) _ Hs) as Hq.
    pose proof (ceil_div_pos (len text) _ Hs Hpos) as Hq0.
    unfold iterations. rewrite Z.sub_0_r.
    set (q := ceil_div (len text) (chunk_size self - chunk_overlap self)) in *.
    replace (Z.to_nat q) with (S (Z.to_nat (q - 1))) by lia.
    rewrite last_windows.
    eexists _, _. split; [reflexivity|]. split.
    + simpl. apply lookup_insert_eq.
    + rewrite Z2Nat.id by lia.
      assert (len text <> (chunk_size self - chunk_overlap self) * q).
      { intros Heq. apply Hmod. rewrite Heq, Z.mul_comm. apply Z.mod_mul. lia. }
      nia.
Qed.

Lemma chunk_text_span_metadata_witness :
  exists chunks : list Chunk,
    chunk_text 9 Demo.small "abcdefgh" ∅ = Ok chunks
    /\ Forall (span_recorded Demo.small "abcdefgh") chunks
    /\ exists (c : Chunk) (end_char : Z),
         last chunks = Some c
         /\ DocumentProcessor.metadata c !! "end_char" = Some (VInt end_char)
         /\ 8 < end_char.
Proof.
  destruct (chunk_text_span_metadata Demo.small "abcdefgh" ∅) as [Hany Hcfg].
  destruct Hcfg as (chunks & Hrun & Hlast).
  - simpl. lia.
  - assert (Hrun9 : chunk_text 9 Demo.small "abcdefgh" ∅ = Ok chunks).
    { apply Hrun. vm_compute. lia. }
    exists chunks. split; [exact Hrun9|]. split.
    + exact (Hany 9%nat chunks Hrun9).
    + apply Hlast. vm_compute. discriminate.
Defined.

End ChunkText.

(** ** Running monadic code *)

(** Unfolds one layer of the monad so that a call can be replaced by what
    it is known to return. *)
Ltac unfold_run :=
  unfold Run.getitem0, mbind, M_bind, mret, M_ret, Run.bind, Run.ret, Run.raise,
    Run.lift, Run.try_except, Run.emit, Run.store_read, Run.store_update,
    Run.of_external in *.

Section Upper.
Context {U : Unicode}.

(** The upper-case mapping of a character is never empty. *)
Lemma upper_char_cons (c : ascii) :
  exists h t, upper_char c = String h t.
Proof.
  unfold upper_char. destruct (nat_of_ascii c <? 128)%nat; eauto.
Qed.

Lemma upper_cons (c : ascii) (s : string) :
  exists h t, upper (String c s) = String h t.
Proof.
  cbn [upper]. destruct (upper_char_cons c) as (h & t & ->).
  exists h, (t +:+ upper s). reflexivity.
Qed.

Lemma upper_empty (s : string) : upper s = "" <-> s = "".
Proof.
  destruct s as [|c s]; [split; reflexivity|].
  destruct (upper_cons c s) as (h & t & ->). split; discriminate.
Qed.

Lemma truthy_upper (s : string) : truthy (upper s) = truthy s.
Proof.
  destruct s as [|c s]; [reflexivity|].
  destruct (upper_cons c s) as (h & t & ->). reflexivity.
Qed.

Lemma truthy_false (s : string) : truthy s = false <-> s = "".
Proof. destruct s; simpl; split; congruence. Qed.

Lemma truthy_true (s : string) : truthy s = true <-> s <> "".
Proof. destruct s; simpl; split; congruence. Qed.

End Upper.

(** ** The query handler *)

Section Handler.
Import MCPServer.
Context {F : Floats} {Sv : Services}.
Variable config : Config.t.

(** C3. When the [ticker] or the [query] argument is missing or empty,
    the handler returns the literal error text and leaves the world as
    it found it: no call reached the embedding model, the vector store
    or the language model. The tool call carries that text as an
    ordinary text content; no exception leaves it. *)
Theorem handle_stock_query_missing_argument
    (self : TickerAIMCPServer) (arguments : gmap string string) (w : World) :
  arguments !! "ticker" = None \/ arguments !! "ticker" = Some ""
  \/ arguments !! "query" = None \/ arguments !! "query" = Some "" ->
  _handle_stock_query config self arguments w
  = (Ok "Error: Both ticker and query are required", w)
  /\ forall fuel,
       call_tool config fuel self "query_stock" arguments w
       = (Ok [ {| type := "text";
                  text := "Error: Both ticker and query are required" |} ], w).
Proof.
  intros Hmissing.
  assert (Hguard :
            negb (truthy (upper (default "" (arguments !! "ticker"))))
            || negb (truthy (default "" (arguments !! "query"))) = true).
  { rewrite truthy_upper.
    destruct Hmissing as [H|[H|[H|H]]]; rewrite H; simpl;
      [reflexivity|reflexivity|apply orb_true_r|apply orb_true_r]. }
  assert (Hhandle : _handle_stock_query config self arguments w
                    = (Ok "Error: Both ticker and query are required", w)).
  { unfold _handle_stock_query. rewrite Hguard. reflexivity. }
  split; [exact Hhandle|].
  intros fuel. unfold call_tool.
  change (String.eqb "query_stock" "query_stock") with true. cbv iota.
  unfold_run. rewrite Hhandle. reflexivity.
Qed.

End Handler.

(** ** Embedding failures and the prompt sent to the model *)

Section Query.
Import VectorStore Spec.
Context {F : Floats} {Sv : Services}.
Variable config : Config.t.

(** An exception of the embedding model, or an empty vector, ends as
    the empty list. *)
Lemma generate_embedding_failure (text : string) (w : World) :
  (exists e, model_encode text = inl e) \/ model_encode text = inr [] ->
  EmbeddingGenerator.generate_embedding text w
  = (Ok [], after w [EmbedOne text]).
Proof.
  intros Hfail. unfold EmbeddingGenerator.generate_embedding. unfold_run.
  simpl. destruct Hfail as [[e He]|He]; rewrite He; reflexivity.
Qed.

(** C7. When embedding the query fails (the model raises, or yields an
    empty vector), no exception propagates: [generate_embedding] returns
    the empty list, [query] returns empty documents, metadatas and
    distances, and [get_context_for_query] returns "No relevant context
    found."; the only outside call made is the one to the embedding
    model. *)
Theorem query_embedding_failure
    (self : VectorStore.t) (query_text : string) (n_results : option Z)
    (ticker : option string) (w : World) :
  (exists e, model_encode query_text = inl e) \/ model_encode query_text = inr [] ->
  EmbeddingGenerator.generate_embedding query_text w
  = (Ok [], after w [EmbedOne query_text])
  /\ query config self query_text n_results w
     = (Ok {| Chroma.documents := []; Chroma.metadatas := [];
              Chroma.distances := [] |},
        after w [EmbedOne query_text])
  /\ get_context_for_query config self query_text ticker w
     = (Ok "No relevant context found.", after w [EmbedOne query_text]).
Proof.
  intros Hfail.
  pose proof (generate_embedding_failure query_text w Hfail) as Hemb.
  assert (Hquery : forall n,
             query config self query_text n w
             = (Ok {| Chroma.documents := []; Chroma.metadatas := [];
                      Chroma.distances := [] |},
                after w [EmbedOne query_text])).
  { intros n. unfold query. unfold mbind, M_bind, Run.bind.
    rewrite Hemb. reflexivity. }
  split; [exact Hemb|]. split; [apply Hquery|].
  unfold get_context_for_query. unfold mbind, M_bind, Run.bind.
  rewrite Hquery. reflexivity.
Qed.

End Query.

Section Ollama.
Import LLMProvider Spec.
Context {F : Floats} {Sv : Services}.
Variable config : Config.t.

Lemma ollama_provider_generate_sends (self : OllamaProvider)
    (prompt full_prompt : string) (system_prompt : option string)
    (temperature : option float) (max_tokens : option Z) (w : World) :
  full_prompt
  = match system_prompt with
    | Some sp => if truthy sp then sp +:+ nl +:+ nl +:+ prompt else prompt
    | None => prompt
    end ->
  let t := default (Config.LLM_TEMPERATURE config) temperature in
  let n := default (Config.LLM_MAX_TOKENS config) max_tokens in
  ollama_provider_generate config self prompt system_prompt temperature max_tokens w
  = (ollama_outcome self full_prompt t n,
     after w [LLMGenerate (ollama_model self) full_prompt t n]).
Proof.
  intros -> t n. unfold ollama_provider_generate, ollama_call, ollama_outcome.
  unfold_run. simpl. fold t n.
  destruct (ollama_generate _ _ t n); reflexivity.
Qed.

(** C8. With a non-empty system prompt, the one request that
    [OllamaProvider.generate] sends carries the single string
    [system_prompt + "\n\n" + prompt]; with no system prompt it carries
    the prompt unchanged. *)
Theorem ollama_generate_full_prompt (self : OllamaProvider) (prompt : string)
    (temperature : option float) (max_tokens : option Z) (w : World) :
  let t := default (Config.LLM_TEMPERATURE config) temperature in
  let n := default (Config.LLM_MAX_TOKENS config) max_tokens in
  (forall system_prompt : string,
     system_prompt <> "" ->
     ollama_provider_generate config self prompt (Some system_prompt)
       temperature max_tokens w
     = (ollama_outcome self (system_prompt +:+ nl +:+ nl +:+ prompt) t n,
        after w [LLMGenerate (ollama_model self)
                   (system_prompt +:+ nl +:+ nl +:+ prompt) t n]))
  /\ ollama_provider_generate config self prompt None temperature max_tokens w
     = (ollama_outcome self prompt t n,
        after w [LLMGenerate (ollama_model self) prompt t n]).
Proof.
  intros t n. split.
  - intros system_prompt Hne. apply ollama_provider_generate_sends.
    apply truthy_true in Hne. rewrite Hne. reflexivity.
  - apply ollama_provider_generate_sends. reflexivity.
Qed.

End Ollama.

(** ** Ingestion *)

Section ChromaAdd.
Import Chroma.
Context {F : Floats}.

Lemma str_in_elem_of (x : string) (xs : list string) :
  str_in x xs = true <-> x ∈ xs.
Proof.
  unfold str_in. induction xs as [|y xs IH]; simpl.
  - split; [discriminate|]. intros H. inversion H.
  - rewrite orb_true_iff, IH, elem_of_cons, String.eqb_eq. reflexivity.
Qed.

Lemma distinct_NoDup (ids : list string) : distinct ids = true <-> NoDup ids.
Proof.
  induction ids as [|i ids IH]; simpl.
  - split; [constructor|reflexivity].
  - rewrite andb_true_iff, negb_true_iff, IH, NoDup_cons.
    rewrite <- not_true_iff_false, str_in_elem_of. reflexivity.
Qed.

(** The ids [doc_0], [doc_1], ... never repeat. *)
Lemma doc_ids_distinct {A} (chunks : list A) :
  distinct (imap (fun i _ => "doc_" +:+ str_of_nat i) chunks) = true.
Proof.
  apply distinct_NoDup.
  rewrite (imap_seq_0 chunks (fun i => "doc_" +:+ str_of_nat i)).
  apply NoDup_fmap_2; [|apply NoDup_seq].
  intros i j Hij. apply (inj (String.app "doc_")) in Hij.
  apply (inj pretty) in Hij. exact Hij.
Qed.

Lemma build_records_spec (ids : list string) :
  forall (embeddings : list (list float)) (documents : list string)
         (metadatas : list (gmap string pyval)),
    length documents = length ids ->
    length embeddings = length ids ->
    length metadatas = length ids ->
    length (build_records ids embeddings documents metadatas) = length ids
    /\ rec_id <$> build_records ids embeddings documents metadatas = ids
    /\ rec_document <$> build_records ids embeddings documents metadatas
       = documents.
Proof.
  induction ids as [|i ids IH]; intros [|e es] [|d ds] [|m ms] Hd He Hm;
    try discriminate.
  - repeat split.
  - cbn [length] in Hd, He, Hm.
    destruct (IH es ds ms) as (Hl & Hi & Hdoc); [congruence..|].
    cbn [build_records]. rewrite !fmap_cons. cbn [length rec_id rec_document].
    rewrite Hl, Hi, Hdoc. repeat split.
Qed.

Lemma filter_fresh_nil (records : list VRecord) :
  filter (fun r => negb (str_in (rec_id r) []) = true) records = records.
Proof.
  induction records as [|r records IH]; [reflexivity|].
  rewrite filter_cons_True by reflexivity. rewrite IH. reflexivity.
Qed.

(** Adding well-formed parallel lists to an empty collection stores
    exactly the records built from them. *)
Lemma add_to_empty (max_batch : nat) (name : string) (documents : list string)
    (embeddings : list (list float)) (metadatas : list (gmap string pyval))
    (ids : list string) (client : gmap string (list VRecord)) :
  client !! name = Some [] ->
  length documents = length ids ->
  length embeddings = length ids ->
  length metadatas = length ids ->
  distinct ids = true ->
  (length ids <= max_batch)%nat ->
  add max_batch name documents embeddings metadatas ids client
  = inr (<[name := build_records ids embeddings documents metadatas]> client).
Proof.
  intros Hc Hd He Hm Hdist Hmax. unfold add.
  rewrite Hc, Hd, He, Hm, !Nat.eqb_refl, Hdist. cbn [andb negb].
  apply Nat.ltb_ge in Hmax. rewrite Hmax. cbn [fmap list_fmap].
  rewrite filter_fresh_nil. reflexivity.
Qed.

(** More well-formed records than the client takes in one call are
    refused, and nothing is stored. *)
Lemma add_over_batch_limit (max_batch : nat) (name : string)
    (documents : list string)
    (embeddings : list (list float)) (metadatas : list (gmap string pyval))
    (ids : list string) (client : gmap string (list VRecord))
    (records : list VRecord) :
  client !! name = Some records ->
  length documents = length ids ->
  length embeddings = length ids ->
  length metadatas = length ids ->
  distinct ids = true ->
  (max_batch < length ids)%nat ->
  add max_batch name documents embeddings metadatas ids client
  = inl (Exception "ValueError" "batch size exceeds maximum batch size").
Proof.
  intros Hc Hd He Hm Hdist Hmax. unfold add.
  rewrite Hc, Hd, He, Hm, !Nat.eqb_refl, Hdist. cbn [andb negb].
  apply Nat.ltb_lt in Hmax. rewrite Hmax. reflexivity.
Qed.

End ChromaAdd.

Section Ingest.
Import VectorStore Spec.
Context {F : Floats} {Sv : Services}.
Variable config : Config.t.

Lemma length_pos {A} (l : list A) : l <> [] -> 0 < Z.of_nat (length l).
Proof. destruct l; [congruence|]. simpl. lia. Qed.

(** C5. When the collection already holds a record, [ingest_documents]
    without [force_refresh] returns after counting: the collections and
    the knowledge directory are as before (nothing added, nothing
    deleted) and the count is the only outside call. Running it again
    on the unchanged state is therefore again a no-op. *)
Theorem ingest_skips_populated_collection
    (fuel : nat) (self : VectorStore.t) (w : World)
    (records : list Chroma.VRecord) :
  client w !! collection_name self = Some records ->
  records <> [] ->
  exists w' : World,
    ingest_documents config fuel self false w = (Ok tt, w')
    /\ client w' = client w
    /\ knowledge w' = knowledge w
    /\ trace w' = trace w ++ [StoreCount (collection_name self)].
Proof.
  intros Hc Hne. exists (after w [StoreCount (collection_name self)]).
  split; [|repeat split].
  unfold ingest_documents. unfold_run. unfold Chroma.count.
  rewrite Hc. cbn [knowledge client trace negb andb].
  rewrite (proj2 (Z.ltb_lt 0 _) (length_pos records Hne)). reflexivity.
Qed.

(** Two ingestions in a row without [force_refresh]: whatever the first
    one stored, the second one stores nothing more. *)
Corollary ingest_twice_no_duplicates
    (fuel fuel' : nat) (self : VectorStore.t) (w w1 : World)
    (records : list Chroma.VRecord) :
  ingest_documents config fuel self false w = (Ok tt, w1) ->
  client w1 !! collection_name self = Some records ->
  records <> [] ->
  fst (ingest_documents config fuel' self false w1) = Ok tt
  /\ client (snd (ingest_documents config fuel' self false w1)) = client w1.
Proof.
  intros _ Hc Hne.
  assert (Hskip : exists w2,
             ingest_documents config fuel' self false w1 = (Ok tt, w2)
             /\ client w2 = client w1).
  { unfold ingest_documents. unfold_run. unfold Chroma.count.
    rewrite Hc. cbn [knowledge client trace negb andb].
    rewrite (proj2 (Z.ltb_lt 0 _) (length_pos records Hne)).
    exists (after w1 [StoreCount (collection_name self)]).
    split; reflexivity. }
  destruct Hskip as (w2 & -> & Hclient). split; [reflexivity|exact Hclient].
Qed.

(** [reset_collection] always leaves the collection empty. *)
Lemma reset_collection_spec (self : VectorStore.t) (w : World) :
  reset_collection self w
  = (Ok tt,
     {| knowledge := knowledge w;
        client := <[collection_name self := []]> (client w);
        trace := trace w ++ [StoreDelete (collection_name self);
                             StoreCreate (collection_name self)] |}).
Proof.
  unfold reset_collection. unfold_run.
  unfold Chroma.delete_collection, Chroma.create_collection.
  destruct (client w !! collection_name self) as [records|] eqn:Hc; simpl.
  - rewrite lookup_delete_eq. rewrite insert_delete_eq.
    rewrite <- app_assoc. reflexivity.
  - rewrite Hc. rewrite <- app_assoc. reflexivity.
Qed.

(** What a forced [ingest_documents] does up to the call of [add]: the
    collection is emptied, the documents are processed and embedded. *)
Lemma ingest_forced_until_add
    (fuel : nat) (self : VectorStore.t) (w : World)
    (c : DocumentProcessor.Chunk) (chunks : list DocumentProcessor.Chunk)
    (e : list float) (embeddings : list (list float)) :
  DocumentProcessor.process_documents fuel config
    (DocumentProcessor.init config) (knowledge w) = Ok (c :: chunks) ->
  model_encode_batch (DocumentProcessor.text <$> c :: chunks)
  = inr (e :: embeddings) ->
  ingest_documents config fuel self true w
  = store_update
      (StoreAdd (collection_name self)
         (imap (fun i _ => "doc_" +:+ str_of_nat i) (c :: chunks)))
      (Chroma.add max_batch_size (collection_name self)
         (DocumentProcessor.text <$> c :: chunks) (e :: embeddings)
         (DocumentProcessor.metadata <$> c :: chunks)
         (imap (fun i _ => "doc_" +:+ str_of_nat i) (c :: chunks)))
      {| knowledge := knowledge w;
         client := <[collection_name self := []]> (client w);
         trace := trace w ++ [StoreDelete (collection_name self);
                              StoreCreate (collection_name self);
                              StoreCount (collection_name self);
                              EmbedBatch (DocumentProcessor.text <$> c :: chunks)] |}.
Proof.
  intros Hproc Henc.
  unfold ingest_documents. unfold mbind, M_bind, Run.bind.
  rewrite reset_collection_spec.
  unfold store_read at 1. unfold Chroma.count at 1. cbn [client knowledge trace].
  rewrite lookup_insert_eq. cbn [of_external length Z.of_nat].
  rewrite andb_false_r. cbv beta iota.
  unfold run_process_documents. cbn [knowledge]. rewrite Hproc.
  unfold EmbeddingGenerator.generate_embeddings.
  unfold mbind, M_bind, mret, M_ret, Run.bind, Run.ret, Run.lift,
    Run.try_except, Run.emit, Run.of_external.
  cbn [client knowledge trace]. rewrite Henc.
  rewrite <- !app_assoc. reflexivity.
Qed.

(** When the chunks are more than the client takes in one call, the
    forced [ingest_documents] raises what [add] raises, after the reset:
    the collection is left empty. *)
Lemma ingest_forced_over_batch_limit
    (fuel : nat) (self : VectorStore.t) (w : World)
    (chunks : list DocumentProcessor.Chunk) (embeddings : list (list float)) :
  DocumentProcessor.process_documents fuel config
    (DocumentProcessor.init config) (knowledge w) = Ok chunks ->
  model_encode_batch (DocumentProcessor.text <$> chunks) = inr embeddings ->
  length embeddings = length chunks ->
  (max_batch_size < length chunks)%nat ->
  exists w' : World,
    ingest_documents config fuel self true w
    = (Raise (Exception "ValueError" "batch size exceeds maximum batch size"), w')
    /\ client w' = <[collection_name self := []]> (client w).
Proof.
  intros Hproc Henc Hlen Hmax.
  destruct chunks as [|c chunks]; [cbn [length] in Hmax; lia|].
  destruct embeddings as [|e embeddings]; [discriminate|].
  rewrite (ingest_forced_until_add fuel self w c chunks e embeddings Hproc Henc).
  unfold store_update. cbn [client knowledge trace].
  assert (Hids : length (imap (fun i (_ : DocumentProcessor.Chunk) =>
                                 "doc_" +:+ str_of_nat i) (c :: chunks))
                 = length (c :: chunks)) by apply length_imap.
  rewrite (add_over_batch_limit max_batch_size (collection_name self) _ _ _ _ _ []).
  - eexists. split; reflexivity.
  - apply lookup_insert_eq.
  - rewrite length_fmap. congruence.
  - congruence.
  - rewrite length_fmap. congruence.
  - apply doc_ids_distinct.
  - rewrite Hids. exact Hmax.
Qed.

(** C6. As amended: whatever the collection held, [ingest_documents]
    with [force_refresh], when the documents are processed into
    [chunks], the embedding model returns one vector per chunk and the
    chunks are no more than the client takes in one call of [add],
    returns and leaves a collection of exactly [length chunks] records,
    whose documents are the texts of the chunks and whose ids are
    [doc_0], [doc_1], ...: nothing stored before survives. *)
Theorem ingest_force_refresh_replaces
    (fuel : nat) (self : VectorStore.t) (w : World)
    (chunks : list DocumentProcessor.Chunk) :
  DocumentProcessor.process_documents fuel config
    (DocumentProcessor.init config) (knowledge w) = Ok chunks ->
  (chunks <> [] ->
   exists embeddings,
     model_encode_batch (DocumentProcessor.text <$> chunks) = inr embeddings
     /\ length embeddings = length chunks) ->
  (length chunks <= max_batch_size)%nat ->
  exists (w' : World) (records' : list Chroma.VRecord),
    ingest_documents config fuel self true w = (Ok tt, w')
    /\ client w' !! collection_name self = Some records'
    /\ Chroma.count (collection_name self) (client w')
       = inr (Z.of_nat (length chunks))
    /\ length records' = length chunks
    /\ Chroma.rec_document <$> records' = DocumentProcessor.text <$> chunks
    /\ Chroma.rec_id <$> records'
       = imap (fun i _ => "doc_" +:+ str_of_nat i) chunks.
Proof.
  intros Hproc Hemb Hmax.
  unfold ingest_documents. unfold mbind, M_bind, Run.bind.
  rewrite reset_collection_spec.
  unfold store_read at 1. unfold Chroma.count at 1. cbn [client knowledge trace].
  rewrite lookup_insert_eq. cbn [of_external length Z.of_nat].
  rewrite andb_false_r. cbv beta iota.
  unfold run_process_documents. cbn [knowledge]. rewrite Hproc.
  destruct chunks as [|c chunks].
  - eexists _, []. split; [reflexivity|]. cbn [client]. unfold Chroma.count.
    rewrite lookup_insert_eq. repeat split.
  - destruct Hemb as (embeddings & Henc & Hlen); [discriminate|].
    set (cs := c :: chunks) in *.
    unfold EmbeddingGenerator.generate_embeddings. unfold_run.
    cbn [client knowledge trace]. rewrite Henc.
    destruct embeddings as [|e embeddings]; [discriminate|].
    set (es := e :: embeddings) in *.
    set (ids := imap (fun i _ => "doc_" +:+ str_of_nat i) cs).
    assert (Hids : length ids = length cs) by apply length_imap.
    rewrite (add_to_empty _ _ _ es _ ids).
    + destruct (build_records_spec ids es (DocumentProcessor.text <$> cs)
                  (DocumentProcessor.metadata <$> cs))
        as (Hl & Hi & Hd); rewrite ?length_fmap; try congruence.
      eexists _, _. split; [reflexivity|]. cbn [client]. unfold Chroma.count.
      rewrite lookup_insert_eq. split; [reflexivity|].
      rewrite Hl, Hi, Hd, Hids. repeat split.
    + apply lookup_insert_eq.
    + rewrite length_fmap. congruence.
    + congruence.
    + rewrite length_fmap. congruence.
    + apply doc_ids_distinct.
    + rewrite Hids. exact Hmax.
Qed.

End Ingest.

(** ** Case-insensitive comparison *)

Section CaseInsensitive.
Import Spec.
Context {U : Unicode}.

Lemma nat_of_upper_ascii (c : ascii) :
  nat_of_ascii (upper_ascii c)
  = if ((97 <=? nat_of_ascii c)%nat && (nat_of_ascii c <=? 122)%nat)%bool
    then (nat_of_ascii c - 32)%nat else nat_of_ascii c.
Proof.
  unfold upper_ascii.
  destruct ((97 <=? nat_of_ascii c)%nat && (nat_of_ascii c <=? 122)%nat)%bool eqn:Hl;
    [|reflexivity].
  apply nat_ascii_embedding.
  apply andb_true_iff in Hl as [_ H%Nat.leb_le]. lia.
Qed.

Lemma ascii_eqb_nat (a b : ascii) :
  Ascii.eqb a b = (nat_of_ascii a =? nat_of_ascii b)%nat.
Proof.
  destruct (Ascii.eqb_spec a b) as [->|Hne].
  - symmetry. apply Nat.eqb_refl.
  - symmetry. apply Nat.eqb_neq. intros Heq. apply Hne.
    rewrite <- (ascii_nat_embedding a), <- (ascii_nat_embedding b), Heq.
    reflexivity.
Qed.

(** On ASCII, two characters have the same upper case exactly when they
    are the same letter up to case. *)
Lemma upper_ascii_same_letter (a b : ascii) :
  Ascii.eqb (upper_ascii a) (upper_ascii b) = same_letter a b.
Proof.
  rewrite ascii_eqb_nat, !nat_of_upper_ascii. unfold same_letter.
  set (x := nat_of_ascii a). set (y := nat_of_ascii b).
  destruct (Nat.leb_spec 97 x), (Nat.leb_spec x 122),
           (Nat.leb_spec 97 y), (Nat.leb_spec y 122); cbn [andb orb];
    rewrite ?orb_false_r;
    repeat match goal with
           | |- context [(?n =? ?m)%nat] => destruct (Nat.eqb_spec n m)
           end; cbn [orb]; try reflexivity; lia.
Qed.

(** Upper-casing an ASCII character gives an ASCII character, and a
    character beyond ASCII is not an ASCII letter. *)
Lemma upper_ascii_range (c : ascii) :
  (nat_of_ascii (upper_ascii c) <? 128)%nat = (nat_of_ascii c <? 128)%nat.
Proof.
  rewrite nat_of_upper_ascii.
  destruct (Nat.leb_spec 97 (nat_of_ascii c)), (Nat.leb_spec (nat_of_ascii c) 122);
    cbn [andb]; try reflexivity.
  destruct (Nat.ltb_spec (nat_of_ascii c - 32) 128),
           (Nat.ltb_spec (nat_of_ascii c) 128); try reflexivity; lia.
Qed.

Lemma upper_ascii_beyond (c : ascii) :
  (nat_of_ascii c <? 128)%nat = false -> upper_ascii c = c.
Proof.
  intros Hc%Nat.ltb_ge. unfold upper_ascii.
  destruct (Nat.leb_spec 97 (nat_of_ascii c)), (Nat.leb_spec (nat_of_ascii c) 122);
    cbn [andb]; try reflexivity. lia.
Qed.

(** Two characters that are the same letter up to case have the same
    upper-case mapping, whatever the table says beyond ASCII. *)
Lemma same_letter_upper_char (a b : ascii) :
  same_letter a b = true -> upper_char a = upper_char b.
Proof.
  rewrite <- upper_ascii_same_letter. intros Hab%Ascii.eqb_eq.
  unfold upper_char.
  pose proof (upper_ascii_range a) as Ha. pose proof (upper_ascii_range b) as Hb.
  rewrite Hab, Hb in Ha.
  destruct (nat_of_ascii b <? 128)%nat eqn:Hbr; rewrite <- Ha.
  - rewrite Hab. reflexivity.
  - assert (a = b) as ->; [|reflexivity].
    rewrite <- (upper_ascii_beyond a), <- (upper_ascii_beyond b) by congruence.
    exact Hab.
Qed.

(** Strings that are equal up to the case of the letters a-z match
    case-insensitively. *)
Lemma ci_equal_upper_eq (s t : string) :
  ci_equal s t = true -> upper s = upper t.
Proof.
  revert t. induction s as [|a s IH]; intros [|b t]; simpl; try congruence.
  intros [Hab Hst]%andb_true_iff.
  rewrite (same_letter_upper_char a b Hab), (IH t Hst). reflexivity.
Qed.

Lemma ci_equal_ci_match (s t : string) :
  ci_equal s t = true -> ci_match s t = true.
Proof.
  intros Hci. unfold ci_match. rewrite (ci_equal_upper_eq s t Hci).
  apply String.eqb_refl.
Qed.

(** On ASCII text, matching case-insensitively is being equal up to the
    case of the letters: the comparison [a.upper() != b.upper()] of the
    source is then the negation of that equality. *)
Lemma ci_match_ascii (s t : string) :
  ascii_text s = true -> ascii_text t = true ->
  ci_match s t = ci_equal s t.
Proof.
  unfold ci_match. revert t.
  induction s as [|a s IH]; intros [|b t]; cbn [ascii_text upper ci_equal].
  - reflexivity.
  - intros _ _. destruct (upper_char_cons b) as (h & r & ->). reflexivity.
  - intros _ _. destruct (upper_char_cons a) as (h & r & ->). reflexivity.
  - intros [Ha Hs]%andb_true_iff [Hb Ht]%andb_true_iff.
    unfold upper_char. rewrite Ha, Hb. rewrite !append_cons.
    change ("" +:+ upper s) with (upper s). change ("" +:+ upper t) with (upper t).
    cbn [String.eqb]. rewrite upper_ascii_same_letter, (IH t Hs Ht).
    destruct (same_letter a b); reflexivity.
Qed.

Lemma ci_match_refl (s : string) : ci_match s s = true.
Proof. apply String.eqb_refl. Qed.

Lemma ci_match_sym (s t : string) : ci_match s t = ci_match t s.
Proof. apply String.eqb_sym. Qed.

Lemma ci_match_trans (s t u : string) :
  ci_match s t = true -> ci_match t u = true -> ci_match s u = true.
Proof.
  unfold ci_match. intros Hst%String.eqb_eq Htu%String.eqb_eq.
  rewrite Hst, Htu. apply String.eqb_refl.
Qed.

Lemma ci_equal_refl (s : string) : ci_equal s s = true.
Proof.
  induction s as [|a s IH]; [reflexivity|]. cbn [ci_equal].
  rewrite IH, andb_true_r. unfold same_letter. rewrite Nat.eqb_refl. reflexivity.
Qed.

End CaseInsensitive.

(** ** The context filter *)

Section ContextFilter.
Import VectorStore Spec.
Context {F : Floats} {Sv : Services}.
Variable config : Config.t.

#[local] Abbreviation item := (string * (gmap string pyval * float))%type.

Lemma context_of_kept_eq (ticker : string) (items : list (nat * item)) :
  context_of_kept ticker items
  = join nl (mjoin (block_of <$> filter (kept ticker) items)).
Proof. reflexivity. Qed.

(** With a non-empty ticker and a string (or no) ['ticker'] field, the
    test of the loop is the exclusion of the specification. *)
Lemma ticker_mismatch_excluded (ticker : string) (md : gmap string pyval) :
  ticker <> "" ->
  (forall v, md !! "ticker" = Some v -> exists s, v = VStr s) ->
  ticker_mismatch (Some ticker) md = Ok (excluded ticker md).
Proof.
  intros Hne Hstr. unfold ticker_mismatch, excluded.
  apply truthy_true in Hne. rewrite Hne.
  destruct (md !! "ticker") as [[v|z]|] eqn:Hmd; try reflexivity.
  - destruct (Hstr _ eq_refl) as [s Hs]. discriminate.
Qed.

(** Without a ticker (or with an empty one) nothing is skipped. *)
Lemma ticker_mismatch_no_ticker (ticker : option string) (md : gmap string pyval) :
  truthy_opt ticker = false -> ticker_mismatch ticker md = Ok false.
Proof.
  destruct ticker as [tk|]; simpl; [|reflexivity]. intros ->. reflexivity.
Qed.

(** The loop appends the blocks of the results that are kept, each
    under the position it has among all results. *)
Lemma context_loop_kept (ticker : string) (items : list item) :
  ticker <> "" ->
  (forall it v, it ∈ items -> fst (snd it) !! "ticker" = Some v ->
                exists s, v = VStr s) ->
  forall (i : nat) (context_parts : list string),
    context_loop (Some ticker) i items context_parts
    = Ok (context_parts
            ++ mjoin (block_of
                        <$> filter (kept ticker)
                              (imap (fun j x => ((i + j)%nat, x)) items))).
Proof.
  intros Hne. induction items as [|[doc [md dist]] items IH];
    intros Hstr i context_parts.
  - simpl. rewrite app_nil_r. reflexivity.
  - cbn [context_loop].
    rewrite (ticker_mismatch_excluded ticker md Hne)
      by (intros v Hv; apply (Hstr (doc, (md, dist)) v); [left|exact Hv]).
    rewrite imap_cons.
    assert (Hshift : imap ((fun j x => ((i + j)%nat, x)) ∘ S) items
                     = imap (fun j (x : item) => ((S i + j)%nat, x)) items).
    { apply imap_ext. intros j x _. simpl. f_equal. lia. }
    rewrite Hshift.
    assert (Hrest : forall it v, it ∈ items -> fst (snd it) !! "ticker" = Some v ->
                                 exists s, v = VStr s).
    { intros it v Hin. apply Hstr. right. exact Hin. }
    destruct (excluded ticker md) eqn:Hex.
    + rewrite filter_cons_False
        by (unfold kept; cbn [fst snd]; rewrite Hex; discriminate).
      apply IH. exact Hrest.
    + rewrite filter_cons_True by (unfold kept; cbn [fst snd]; exact Hex).
      rewrite IH by exact Hrest.
      rewrite fmap_cons. cbn [mjoin list_join block_of].
      rewrite Nat.add_0_r, <- app_assoc. reflexivity.
Qed.

Lemma zipped_ticker_fields (docs : list string)
    (mds : list (gmap string pyval)) (dists : list float) :
  ticker_fields_are_str mds ->
  forall (it : item) v, it ∈ zip docs (zip mds dists) ->
                        fst (snd it) !! "ticker" = Some v ->
                        exists s, v = VStr s.
Proof.
  intros Hstr [doc [md dist]] v Hin Hv. cbn [fst snd] in Hv.
  apply elem_of_zip_r, elem_of_zip_l in Hin. exact (Hstr md v Hin Hv).
Qed.

(** [get_context_for_query] once the search has returned results. *)
Lemma get_context_for_query_results (self : VectorStore.t)
    (query_text ticker : string) (w w' : World) (results : Chroma.QueryResult)
    (doc : string) (docs : list string) (mds : list (gmap string pyval))
    (dists : list float) rd rm rdist :
  ticker <> "" ->
  query config self query_text None w = (Ok results, w') ->
  Chroma.documents results = (doc :: docs) :: rd ->
  Chroma.metadatas results = mds :: rm ->
  Chroma.distances results = dists :: rdist ->
  ticker_fields_are_str mds ->
  get_context_for_query config self query_text (Some ticker) w
  = (Ok (context_of_kept ticker (enumerate_results (doc :: docs) mds dists)), w').
Proof.
  intros Hne Hquery Hdocs Hmds Hdists Hstr.
  unfold get_context_for_query. unfold mbind, M_bind, Run.bind.
  rewrite Hquery, Hdocs, Hmds, Hdists. unfold_run.
  rewrite (context_loop_kept ticker _ Hne
             (zipped_ticker_fields (doc :: docs) mds dists Hstr) 0 []).
  reflexivity.
Qed.

(** C4. As amended: when every ['ticker'] field among the search results
    holds a string, then for a non-empty ticker the context that
    [get_context_for_query] formats is made of exactly the search
    results that are not excluded, in order and under their original
    positions; a result is excluded exactly when its metadata has a
    ['ticker'] field whose value does not match the ticker
    case-insensitively (the two differ once both are in upper case), so
    a result without that field is always included. *)
Theorem context_filter_by_ticker (self : VectorStore.t)
    (query_text ticker : string) (w w' : World) (results : Chroma.QueryResult)
    (docs : list string) (mds : list (gmap string pyval))
    (dists : list float) rd rm rdist :
  ticker <> "" ->
  query config self query_text None w = (Ok results, w') ->
  Chroma.documents results = docs :: rd ->
  docs <> [] ->
  Chroma.metadatas results = mds :: rm ->
  Chroma.distances results = dists :: rdist ->
  ticker_fields_are_str mds ->
  get_context_for_query config self query_text (Some ticker) w
  = (Ok (join nl
           (mjoin (block_of
                     <$> filter (kept ticker) (enumerate_results docs mds dists)))),
     w')
  /\ forall it : nat * item,
       it ∈ enumerate_results docs mds dists ->
       (it ∈ filter (kept ticker) (enumerate_results docs mds dists)
        <-> ~ exists v, fst (snd (snd it)) !! "ticker" = Some (VStr v)
                        /\ ci_match v ticker = false)
       /\ (fst (snd (snd it)) !! "ticker" = None ->
           it ∈ filter (kept ticker) (enumerate_results docs mds dists)).
Proof.
  intros Hne Hquery Hdocs Hnonempty Hmds Hdists Hstr. split.
  - destruct docs as [|doc docs]; [congruence|].
    rewrite <- context_of_kept_eq.
    eapply get_context_for_query_results; eassumption.
  - intros [i [doc [md dist]]] Hin. cbn [fst snd].
    assert (Hmd : forall v, md !! "ticker" = Some v -> exists s, v = VStr s).
    { intros v Hv. unfold enumerate_results in Hin.
      apply elem_of_lookup_imap in Hin as (j & x & Heq & Hx).
      injection Heq as _ <-.
      apply list_elem_of_lookup_2 in Hx.
      exact (zipped_ticker_fields docs mds dists Hstr _ v Hx Hv). }
    rewrite list_elem_of_filter. unfold kept, excluded. cbn [fst snd].
    split.
    + split.
      * intros [Hex _] (v & Hv & Hci). rewrite Hv, Hci in Hex. discriminate.
      * intros Hno. split; [|exact Hin].
        destruct (md !! "ticker") as [[v|z]|] eqn:Hv; [| |reflexivity].
        -- destruct (ci_match v ticker) eqn:Hci; [reflexivity|].
           elim Hno. exists v. split; [reflexivity|exact Hci].
        -- destruct (Hmd _ eq_refl) as [s Hs]. discriminate.
    + intros Hnone. rewrite Hnone. split; [reflexivity|exact Hin].
Qed.

End ContextFilter.

Section EmptyContext.
Import VectorStore Spec.
Context {F : Floats} {Sv : Services}.
Variable config : Config.t.

#[local] Abbreviation item := (string * (gmap string pyval * float))%type.

(** Whatever the ticker, what the loop appends is a sequence of
    blocks. *)
Lemma context_loop_blocks (ticker : option string) (items : list item) :
  forall (i : nat) (context_parts parts : list string),
    context_loop ticker i items context_parts = Ok parts ->
    exists its : list (nat * item),
      parts = context_parts ++ mjoin (block_of <$> its).
Proof.
  induction items as [|[doc [md dist]] items IH]; intros i context_parts parts.
  - simpl. intros [= <-]. exists []. simpl. rewrite app_nil_r. reflexivity.
  - cbn [context_loop]. destruct (ticker_mismatch ticker md) as [[|]| |];
      try discriminate.
    + apply IH.
    + intros Hloop. apply IH in Hloop as [its ->].
      exists ((i, (doc, (md, dist))) :: its).
      rewrite fmap_cons. cbn [mjoin list_join block_of].
      rewrite <- app_assoc. reflexivity.
Qed.

(** A formatted context is empty or begins with a dash. *)
Lemma join_blocks_head (its : list (nat * item)) :
  join nl (mjoin (block_of <$> its)) = ""
  \/ exists rest, join nl (mjoin (block_of <$> its)) = String "-"%char rest.
Proof.
  destruct its as [|[i [doc [md dist]]] its]; [left; reflexivity|].
  right. eexists. reflexivity.
Qed.

Lemma filter_kept_all_excluded (ticker : string) (items : list (nat * item)) :
  (forall it, it ∈ items -> excluded ticker (fst (snd (snd it))) = true) ->
  filter (kept ticker) items = [].
Proof.
  induction items as [|it items IH]; intros Hall; [reflexivity|].
  rewrite filter_cons_False.
  - apply IH. intros it' Hin. apply Hall. right. exact Hin.
  - unfold kept. rewrite (Hall it) by left. discriminate.
Qed.

(** C9. When the search returns at least one result and the ticker
    filter excludes them all, [get_context_for_query] returns the empty
    string. The text "No relevant context found." is returned only when
    the search itself came back without documents. *)
Theorem context_empty_when_all_excluded (self : VectorStore.t)
    (query_text : string) (w : World) :
  (forall (ticker : string) (w' : World) (results : Chroma.QueryResult)
          (docs : list string) (mds : list (gmap string pyval))
          (dists : list float) rd rm rdist,
     ticker <> "" ->
     query config self query_text None w = (Ok results, w') ->
     Chroma.documents results = docs :: rd ->
     docs <> [] ->
     Chroma.metadatas results = mds :: rm ->
     Chroma.distances results = dists :: rdist ->
     (forall md, md ∈ mds ->
                 exists v, md !! "ticker" = Some (VStr v)
                           /\ ci_match v ticker = false) ->
     get_context_for_query config self query_text (Some ticker) w = (Ok "", w'))
  /\ (forall (ticker : option string) (w' : World),
        get_context_for_query config self query_text ticker w
        = (Ok "No relevant context found.", w') ->
        exists results : Chroma.QueryResult,
          query config self query_text None w = (Ok results, w')
          /\ (Chroma.documents results = []
              \/ exists rd, Chroma.documents results = [] :: rd)).
Proof.
  split.
  - intros ticker w' results docs mds dists rd rm rdist
      Hne Hquery Hdocs Hnonempty Hmds Hdists Hall.
    destruct docs as [|doc docs]; [congruence|].
    assert (Hstr : ticker_fields_are_str mds).
    { intros md v Hin Hv. destruct (Hall md Hin) as (s & Hs & _).
      exists s. congruence. }
    rewrite (get_context_for_query_results config self query_text ticker w w'
               results doc docs mds dists rd rm rdist) by assumption.
    unfold context_of_kept. rewrite filter_kept_all_excluded; [reflexivity|].
    intros [i [d [md dist]]] Hin. cbn [fst snd].
    unfold enumerate_results in Hin.
    apply elem_of_lookup_imap in Hin as (j & x & Heq & Hx).
    injection Heq as _ <-. apply list_elem_of_lookup_2 in Hx.
    apply elem_of_zip_r, elem_of_zip_l in Hx.
    destruct (Hall md Hx) as (v & Hv & Hci).
    unfold excluded. rewrite Hv, Hci. reflexivity.
  - intros ticker w'. unfold get_context_for_query.
    unfold mbind, M_bind, Run.bind.
    destruct (query config self query_text None w) as [[results| |] w1];
      try discriminate.
    destruct (Chroma.documents results) as [|[|doc docs] rd] eqn:Hdocs.
    + intros [= <-]. exists results. split; [reflexivity|]. left. exact Hdocs.
    + intros [= <-]. exists results. split; [reflexivity|]. right. eauto.
    + unfold_run.
      destruct (Chroma.metadatas results) as [|mds rm]; [discriminate|].
      destruct (Chroma.distances results) as [|dists rdist]; [discriminate|].
      destruct (context_loop ticker 0 (zip (doc :: docs) (zip mds dists)) [])
        as [parts| |] eqn:Hloop; try discriminate.
      apply context_loop_blocks in Hloop as [its ->].
      rewrite app_nil_l.
      destruct (join_blocks_head its) as [->|[rest ->]]; discriminate.
Qed.

End EmptyContext.

(** ** Outside calls are recorded *)

Section Grows.
Import VectorStore LLMProvider MCPServer Spec.
Context {F : Floats} {Sv : Services}.
Variable config : Config.t.

Lemma grows_ret {A} (a : A) : grows (mret a).
Proof. intros w. exists []. simpl. rewrite app_nil_r. reflexivity. Qed.

Lemma grows_raise {A} (e : exn) : grows (Run.raise (A := A) e).
Proof. intros w. exists []. simpl. rewrite app_nil_r. reflexivity. Qed.

Lemma grows_lift {A} (r : result A) : grows (lift r).
Proof. intros w. exists []. simpl. rewrite app_nil_r. reflexivity. Qed.

Lemma grows_emit (ev : Event) : grows (emit ev).
Proof. intros w. exists [ev]. reflexivity. Qed.

Lemma grows_store_read {A} (ev : Event)
    (op : gmap string (list Chroma.VRecord) -> external A) :
  grows (store_read ev op).
Proof. intros w. exists [ev]. reflexivity. Qed.

Lemma grows_getitem0 {A} (xs : list A) : grows (getitem0 xs).
Proof. destruct xs; [apply grows_raise|apply grows_ret]. Qed.

Lemma grows_bind {A B} (m : M A) (f : A -> M B) :
  grows m -> (forall a, grows (f a)) -> grows (m ≫= f).
Proof.
  intros Hm Hf w. unfold mbind, M_bind, Run.bind.
  destruct (Hm w) as [evs Hevs]. destruct (m w) as [[a|e|] w1]; simpl in *.
  - destruct (Hf a w1) as [evs' Hevs']. exists (evs ++ evs').
    rewrite Hevs', Hevs, app_assoc. reflexivity.
  - exists evs. exact Hevs.
  - exists evs. exact Hevs.
Qed.

Lemma grows_try_except {A} (m : M A) (handler : exn -> M A) :
  grows m -> (forall e, grows (handler e)) -> grows (try_except m handler).
Proof.
  intros Hm Hh w. unfold try_except.
  destruct (Hm w) as [evs Hevs]. destruct (m w) as [[a|e|] w1]; simpl in *.
  - exists evs. exact Hevs.
  - destruct (Hh e w1) as [evs' Hevs']. exists (evs ++ evs').
    rewrite Hevs', Hevs, app_assoc. reflexivity.
  - exists evs. exact Hevs.
Qed.

Lemma grows_generate (provider : Provider) (prompt : string)
    (system_prompt : option string) (temperature : option float)
    (max_tokens : option Z) :
  grows (generate (BaseLLMProvider := any_provider config) provider prompt
           system_prompt temperature max_tokens).
Proof.
  destruct provider as [o|o]; simpl.
  - unfold ollama_provider_generate, ollama_call.
    apply grows_try_except; [|intros e; apply grows_raise].
    apply grows_bind; [apply grows_emit|intros _; apply grows_lift].
  - apply grows_raise.
Qed.

Lemma grows_generate_ai_response (self : TickerAIMCPServer)
    (ticker query context user_context : string) :
  grows (_generate_ai_response config self ticker query context user_context).
Proof.
  unfold _generate_ai_response.
  apply grows_try_except; [apply grows_generate|intros e; apply grows_ret].
Qed.

(** Sequencing is associative. *)
Lemma bind_assoc_at {A B C} (m : M A) (f : A -> M B) (g : B -> M C) (w : World) :
  ((m ≫= f) ≫= g) w = (m ≫= (fun a => f a ≫= g)) w.
Proof.
  unfold mbind, M_bind, Run.bind. destruct (m w) as [[a|e|] w1]; reflexivity.
Qed.

(** Embedding a text always returns, after exactly one recorded call. *)
Lemma generate_embedding_returns (text : string) (w : World) :
  exists v, EmbeddingGenerator.generate_embedding text w
            = (Ok v, after w [EmbedOne text]).
Proof.
  unfold EmbeddingGenerator.generate_embedding. unfold_run. simpl.
  destruct (model_encode text) as [e|v]; eexists; reflexivity.
Qed.

Lemma get_context_for_query_embeds_first (self : VectorStore.t)
    (query_text : string) (ticker : option string) (w : World) :
  exists evs,
    trace (snd (get_context_for_query config self query_text ticker w))
    = trace w ++ EmbedOne query_text :: evs.
Proof.
  destruct (generate_embedding_returns query_text w) as [v Hv].
  set (rest := fun results : Chroma.QueryResult =>
         match Chroma.documents results with
         | [] => mret "No relevant context found."
         | [] :: _ => mret "No relevant context found."
         | docs :: _ =>
             mds ← getitem0 (Chroma.metadatas results);
             dists ← getitem0 (Chroma.distances results);
             context_parts ← lift (context_loop ticker 0 (zip docs (zip mds dists)) []);
             mret (join nl context_parts)
         end).
  assert (Hrest : forall results, grows (rest results)).
  { intros results. unfold rest.
    destruct (Chroma.documents results) as [|[|doc docs] rd];
      try apply grows_ret.
    apply grows_bind; [apply grows_getitem0|intros mds].
    apply grows_bind; [apply grows_getitem0|intros dists].
    apply grows_bind; [apply grows_lift|intros parts]. apply grows_ret. }
  set (after_embedding := fun query_embedding : list float =>
         match query_embedding with
         | [] => mret no_results
         | _ :: _ =>
             results ← collection_query self [query_embedding]
                         (default (Config.TOP_K_RESULTS config) None);
             getitem0 (Chroma.documents results);;
             mret results
         end).
  assert (Hafter : forall e, grows (after_embedding e ≫= rest)).
  { intros e. apply grows_bind; [|exact Hrest]. unfold after_embedding.
    destruct e; [apply grows_ret|].
    apply grows_bind; [apply grows_store_read|intros results].
    apply grows_bind; [apply grows_getitem0|intros _]. apply grows_ret. }
  destruct (Hafter v (after w [EmbedOne query_text])) as [evs Hevs].
  exists evs.
  change (get_context_for_query config self query_text ticker w)
    with (((EmbeddingGenerator.generate_embedding query_text ≫= after_embedding)
             ≫= rest) w).
  rewrite bind_assoc_at. unfold mbind at 1, M_bind at 1, Run.bind at 1.
  rewrite Hv, Hevs. simpl. rewrite <- app_assoc. reflexivity.
Qed.

(** With both arguments present the handler does call out: the first
    thing it does is embed the search string "TICKER query". *)
Lemma handle_stock_query_embeds_first (self : TickerAIMCPServer)
    (arguments : gmap string string) (ticker query : string) (w : World) :
  arguments !! "ticker" = Some ticker -> ticker <> "" ->
  arguments !! "query" = Some query -> query <> "" ->
  exists evs,
    trace (snd (_handle_stock_query config self arguments w))
    = trace w ++ EmbedOne (upper ticker +:+ " " +:+ query) :: evs.
Proof.
  intros Ht Htne Hq Hqne. unfold _handle_stock_query.
  rewrite Ht, Hq. cbn [default from_option id]. rewrite truthy_upper.
  apply truthy_true in Htne, Hqne. rewrite Htne, Hqne. cbn [negb orb].
  unfold mbind at 1, M_bind at 1, Run.bind at 1.
  destruct (get_context_for_query_embeds_first (vector_store self)
              (upper ticker +:+ " " +:+ query) (Some (upper ticker)) w)
    as [evs Hevs].
  destruct (get_context_for_query config (vector_store self) _ _ w)
    as [[context|e|] w1]; cbn [snd] in Hevs |- *.
  - assert (Hg : grows (_generate_ai_response config self (upper ticker) query
                          context (default "" (arguments !! "context"))
                        ≫= (fun response => mret response))).
    { apply grows_bind; [apply grows_generate_ai_response|intros r; apply grows_ret]. }
    destruct (Hg w1) as [evs' Hevs']. exists (evs ++ evs').
    rewrite Hevs', Hevs, <- app_assoc. reflexivity.
  - exists evs. exact Hevs.
  - exists evs. exact Hevs.
Qed.

End Grows.

(** * Further properties of the code *)

(** ** The shape of the chunks *)

Section ChunkShape.
Import DocumentProcessor Spec Aux.
Variable self : DocumentProcessor.t.
Variable text : string.
Variable metadata : gmap string pyval.

#[local] Abbreviation stride := (chunk_size self - chunk_overlap self).

Lemma windows_lookup (n : nat) :
  forall (k : nat) (start chunk_id : Z),
    (k < n)%nat ->
    windows n self text metadata start chunk_id !! k
    = Some (window self text metadata (start + Z.of_nat k * stride)
              (chunk_id + Z.of_nat k)).
Proof.
  induction n as [|n IH]; intros k start chunk_id Hk; [lia|].
  destruct k as [|k].
  - simpl. do 2 f_equal; lia.
  - cbn [windows]. rewrite lookup_cons_ne_0 by lia. cbn [Nat.pred].
    rewrite IH by lia. do 2 f_equal; lia.
Qed.

Lemma len_py_slice (s : string) (lo hi : Z) :
  0 <= lo <= hi ->
  len (py_slice s lo hi) = Z.min hi (len s) - Z.min lo (len s).
Proof.
  intros H. unfold py_slice, clamp_index.
  destruct (Z.ltb_spec lo 0), (Z.ltb_spec hi 0); try lia.
  unfold len at 1. rewrite length_substring. unfold len. lia.
Qed.

(** The loop only ever appends to the chunks it was given. *)
Lemma chunk_loop_extends (fuel : nat) :
  forall (chunks : list Chunk) (start chunk_id : Z) (r : list Chunk),
    chunk_loop fuel self text metadata chunks start chunk_id = Ok r ->
    exists cs, r = chunks ++ cs.
Proof.
  induction fuel as [|fuel IH]; intros chunks start chunk_id r; [discriminate|].
  simpl. destruct (start <? len text).
  - intros Hr. apply IH in Hr as [cs ->]. rewrite <- app_assoc. eauto.
  - intros [= <-]. exists []. rewrite app_nil_r. reflexivity.
Qed.

(** X1. [chunk_text] returns no chunk exactly for the empty text: on the
    empty text it returns the empty list under any configuration, and
    whenever it returns on a non-empty text the list is not empty. *)
Theorem chunk_text_empty_iff (fuel : nat) :
  (text = "" -> chunk_text (S fuel) self text metadata = Ok [])
  /\ (forall chunks,
        chunk_text fuel self text metadata = Ok chunks ->
        (chunks = [] <-> text = "")).
Proof.
  split.
  - intros ->. reflexivity.
  - intros chunks Hrun. destruct fuel as [|fuel']; [discriminate|].
    unfold chunk_text in Hrun. cbn [chunk_loop] in Hrun.
    destruct (Z.ltb_spec 0 (len text)) as [Hlt|Hge].
    + apply chunk_loop_extends in Hrun as [cs ->]. split.
      * intros Hnil. destruct cs; discriminate.
      * intros ->. unfold len in Hlt. simpl in Hlt. lia.
    + injection Hrun as <-. split; [|reflexivity]. intros _.
      apply len_empty. pose proof (len_nonneg text). lia.
Qed.

(** The chunks that [chunk_text] returns under a valid configuration. *)
Lemma chunk_text_returns_windows :
  0 <= chunk_overlap self < chunk_size self ->
  forall fuel, (Z.to_nat (len text) < fuel)%nat ->
    chunk_text fuel self text metadata
    = Ok (windows (iterations self text 0) self text metadata 0 0).
Proof. intros Hcfg fuel Hfuel. apply chunk_text_windows; [lia|exact Hfuel]. Qed.

Lemma iterations_covers (k : nat) :
  0 < stride ->
  ((k < iterations self text 0)%nat <-> Z.of_nat k * stride < len text).
Proof.
  intros Hs. unfold iterations. rewrite Z.sub_0_r.
  pose proof (ceil_div_spec (len text) stride Hs).
  pose proof (len_nonneg text). split; intros Hk; nia.
Qed.

(** X2. With [0 <= chunk_overlap < chunk_size], the chunk at position
    [k] of the returned list has [chunk_id = k] and
    [start_char = k * (chunk_size - chunk_overlap)], starts inside the
    text, and holds [text[start_char : start_char + chunk_size]]. *)
Theorem chunk_text_ids_and_offsets :
  0 <= chunk_overlap self < chunk_size self ->
  exists chunks : list Chunk,
    (forall fuel, (Z.to_nat (len text) < fuel)%nat ->
                  chunk_text fuel self text metadata = Ok chunks)
    /\ forall (k : nat) (c : Chunk),
         chunks !! k = Some c ->
         DocumentProcessor.metadata c !! "chunk_id" = Some (VInt (Z.of_nat k))
         /\ DocumentProcessor.metadata c !! "start_char"
            = Some (VInt (Z.of_nat k * stride))
         /\ Z.of_nat k * stride < len text
         /\ DocumentProcessor.text c
            = py_slice text (Z.of_nat k * stride)
                (Z.of_nat k * stride + chunk_size self).
Proof.
  intros Hcfg. assert (Hs : 0 < stride) by lia.
  exists (windows (iterations self text 0) self text metadata 0 0).
  split; [apply chunk_text_returns_windows; exact Hcfg|].
  intros k c Hk.
  assert (Hlt : (k < iterations self text 0)%nat).
  { apply lookup_lt_Some in Hk. rewrite length_windows in Hk. exact Hk. }
  rewrite windows_lookup in Hk by exact Hlt. injection Hk as <-.
  cbn [window DocumentProcessor.metadata DocumentProcessor.text].
  rewrite !Z.add_0_l.
  rewrite lookup_insert_ne by discriminate.
  rewrite lookup_insert_ne by discriminate.
  rewrite lookup_insert_eq.
  rewrite lookup_insert_ne by discriminate.
  rewrite lookup_insert_eq.
  repeat split. apply iterations_covers; assumption.
Qed.

Lemma chunk_loop_carries (fuel : nat) :
  forall (chunks : list Chunk) (start chunk_id : Z) (r : list Chunk),
    Forall (carries metadata) chunks ->
    chunk_loop fuel self text metadata chunks start chunk_id = Ok r ->
    Forall (carries metadata) r.
Proof.
  induction fuel as [|fuel IH]; intros chunks start chunk_id r Hacc;
    [discriminate|].
  cbn [chunk_loop]. destruct (start <? len text).
  - apply IH. apply Forall_app. split; [exact Hacc|].
    constructor; [|constructor]. unfold carries.
    cbn [DocumentProcessor.metadata]. split.
    + intros key Hkey. unfold positional, str_in in Hkey. cbn [existsb] in Hkey.
      rewrite !orb_false_iff in Hkey. destruct Hkey as (H1 & H2 & H3 & _).
      apply String.eqb_neq in H1, H2, H3.
      rewrite !lookup_insert_ne by congruence. reflexivity.
    + intros key Hkey. unfold positional, str_in in Hkey. cbn [existsb] in Hkey.
      rewrite !orb_true_iff in Hkey.
      destruct Hkey as [H|[H|[H|H]]]; try discriminate;
        apply String.eqb_eq in H; subst key.
      * rewrite !lookup_insert_ne by discriminate.
        rewrite lookup_insert_eq. eauto.
      * rewrite lookup_insert_ne by discriminate.
        rewrite lookup_insert_eq. eauto.
      * rewrite lookup_insert_eq. eauto.
  - intros [= <-]. exact Hacc.
Qed.

(** X3. Whatever the configuration, every chunk that [chunk_text]
    returns carries the caller's metadata unchanged under every key other
    than [chunk_id], [start_char] and [end_char], and integers under
    those three, whatever the caller had stored there. *)
Theorem chunk_text_keeps_metadata (fuel : nat) (chunks : list Chunk) :
  chunk_text fuel self text metadata = Ok chunks ->
  Forall (carries metadata) chunks.
Proof. apply chunk_loop_carries. constructor. Qed.

Lemma substring_of_substring_at (s : string) :
  forall n m i k : nat,
    (i + k <= m)%nat ->
    substring i k (substring n m s) = substring (n + i) k s.
Proof.
  induction s as [|c s IH]; intros n m i k Hk.
  - destruct n, m, i, k; reflexivity.
  - destruct n as [|n]; [|cbn [substring Nat.add]; apply IH; exact Hk].
    destruct m as [|m].
    + assert (i = 0%nat) by lia. assert (k = 0%nat) by lia. subst. reflexivity.
    + destruct i as [|i].
      * destruct k as [|k]; [reflexivity|]. cbn [substring Nat.add]. f_equal.
        apply (IH 0%nat m 0%nat k). lia.
      * cbn [substring Nat.add]. apply (IH 0%nat m i k). lia.
Qed.

Lemma py_slice_as_substring (s : string) (lo hi : Z) :
  0 <= lo <= hi ->
  py_slice s lo hi
  = substring (Z.to_nat (Z.min lo (len s)))
      (Z.to_nat (Z.min hi (len s) - Z.min lo (len s))) s.
Proof.
  intros H. unfold py_slice, clamp_index.
  destruct (Z.ltb_spec lo 0), (Z.ltb_spec hi 0); try lia. reflexivity.
Qed.

(** X4. With [0 <= chunk_overlap < chunk_size], the chunk at position
    [k] has [min(chunk_size, len(text) - k * stride)] characters: no chunk
    is empty and none is longer than [chunk_size]. *)
Theorem chunk_text_lengths :
  0 <= chunk_overlap self < chunk_size self ->
  exists chunks : list Chunk,
    (forall fuel, (Z.to_nat (len text) < fuel)%nat ->
                  chunk_text fuel self text metadata = Ok chunks)
    /\ forall (k : nat) (c : Chunk),
         chunks !! k = Some c ->
         len (DocumentProcessor.text c)
         = Z.min (chunk_size self) (len text - Z.of_nat k * stride)
         /\ 0 < len (DocumentProcessor.text c) <= chunk_size self.
Proof.
  intros Hcfg. assert (Hs : 0 < stride) by lia.
  exists (windows (iterations self text 0) self text metadata 0 0).
  split; [apply chunk_text_returns_windows; exact Hcfg|].
  intros k c Hk.
  assert (Hlt : (k < iterations self text 0)%nat).
  { apply lookup_lt_Some in Hk. rewrite length_windows in Hk. exact Hk. }
  rewrite windows_lookup in Hk by exact Hlt. injection Hk as <-.
  apply iterations_covers in Hlt; [|exact Hs].
  cbn [window DocumentProcessor.text]. rewrite Z.add_0_l.
  rewrite len_py_slice by nia. lia.
Qed.

(** X5. With [0 <= chunk_overlap < chunk_size], two consecutive chunks
    share their overlap: what follows the first
    [chunk_size - chunk_overlap] characters of a chunk is the beginning
    of the next chunk, and for a chunk of full length these are exactly
    [chunk_overlap] characters. *)
Theorem chunk_text_overlap_shared :
  0 <= chunk_overlap self < chunk_size self ->
  exists chunks : list Chunk,
    (forall fuel, (Z.to_nat (len text) < fuel)%nat ->
                  chunk_text fuel self text metadata = Ok chunks)
    /\ forall (k : nat) (c c' : Chunk),
         chunks !! k = Some c ->
         chunks !! S k = Some c' ->
         py_slice (DocumentProcessor.text c) stride (len (DocumentProcessor.text c))
         = py_slice (DocumentProcessor.text c') 0
             (len (DocumentProcessor.text c) - stride)
         /\ (len (DocumentProcessor.text c) = chunk_size self ->
             len (py_slice (DocumentProcessor.text c) stride
                    (len (DocumentProcessor.text c)))
             = chunk_overlap self).
Proof.
  intros Hcfg. assert (Hs : 0 < stride) by lia.
  exists (windows (iterations self text 0) self text metadata 0 0).
  split; [apply chunk_text_returns_windows; exact Hcfg|].
  intros k c c' Hk Hk'.
  assert (Hlt' : (S k < iterations self text 0)%nat).
  { apply lookup_lt_Some in Hk'. rewrite length_windows in Hk'. exact Hk'. }
  rewrite windows_lookup in Hk by lia. injection Hk as <-.
  rewrite windows_lookup in Hk' by lia. injection Hk' as <-.
  apply iterations_covers in Hlt'; [|exact Hs].
  cbn [window DocumentProcessor.text]. rewrite !Z.add_0_l.
  pose proof (len_nonneg text) as HL.
  set (a := Z.of_nat k * stride) in *.
  replace (Z.of_nat (S k) * stride) with (a + stride) in * by (unfold a; lia).
  assert (Ha : 0 <= a) by (unfold a; nia).
  assert (Hlen : len (py_slice text a (a + chunk_size self))
                 = Z.min (a + chunk_size self) (len text) - a).
  { rewrite len_py_slice by lia. lia. }
  assert (Hlen' : len (py_slice text (a + stride) (a + stride + chunk_size self))
                  = Z.min (a + stride + chunk_size self) (len text) - (a + stride)).
  { rewrite len_py_slice by lia. lia. }
  split.
  - rewrite (py_slice_as_substring (py_slice text a (a + chunk_size self)))
      by (rewrite Hlen; lia).
    rewrite (py_slice_as_substring
               (py_slice text (a + stride) (a + stride + chunk_size self)))
      by (rewrite Hlen; lia).
    rewrite Hlen, Hlen'.
    rewrite (py_slice_as_substring text a) by lia.
    rewrite (py_slice_as_substring text (a + stride)) by lia.
    rewrite substring_of_substring_at by lia.
    rewrite substring_of_substring_at by lia.
    f_equal; lia.
  - intros Hfull. rewrite len_py_slice by (rewrite Hlen; lia). lia.
Qed.

End ChunkShape.

(** ** Processing the knowledge directory *)

Section ProcessDocuments.
Import DocumentProcessor Spec Aux.
Context {F : Floats}.
Variable config : Config.t.
Variable self : DocumentProcessor.t.

#[local] Abbreviation supported := (Config.SUPPORTED_FILE_TYPES config).

Lemma process_loop_app (fuel : nat) (sup : list string)
    (files1 files2 : list FileEntry) :
  forall all_chunks,
    process_loop fuel self sup (files1 ++ files2) all_chunks
    = match process_loop fuel self sup files1 all_chunks with
      | Ok r => process_loop fuel self sup files2 r
      | Raise e => Raise e
      | OutOfFuel => OutOfFuel
      end.
Proof.
  induction files1 as [|f files1 IH]; intros all_chunks; [reflexivity|].
  cbn [app process_loop].
  destruct (path_is_file f && str_in (path_suffix f) sup); [|apply IH].
  destruct (negb (truthy (read_document f))); [apply IH|].
  destruct (chunk_text fuel self (read_document f) _); [apply IH|reflexivity..].
Qed.

Lemma process_loop_skip (fuel : nat) (sup : list string) (f : FileEntry)
    (rest : list FileEntry) (all_chunks : list Chunk) :
  eligible sup f = false ->
  process_loop fuel self sup (f :: rest) all_chunks
  = process_loop fuel self sup rest all_chunks.
Proof.
  unfold eligible. intros He. cbn [process_loop].
  destruct (path_is_file f && str_in (path_suffix f) sup); [|reflexivity].
  cbn [andb] in He. rewrite He. reflexivity.
Qed.

Lemma process_loop_take (fuel : nat) (sup : list string) (f : FileEntry)
    (rest : list FileEntry) (all_chunks : list Chunk) :
  eligible sup f = true ->
  process_loop fuel self sup (f :: rest) all_chunks
  = match chunk_text fuel self (read_document f) (file_metadata f) with
    | Ok chunks => process_loop fuel self sup rest (all_chunks ++ chunks)
    | Raise e => Raise e
    | OutOfFuel => OutOfFuel
    end.
Proof.
  unfold eligible. intros He. cbn [process_loop].
  apply andb_true_iff in He as [-> ->]. reflexivity.
Qed.

Lemma process_loop_skip_middle (fuel : nat) (sup : list string)
    (before after_ : list FileEntry) (f : FileEntry) (all_chunks : list Chunk) :
  eligible sup f = false ->
  process_loop fuel self sup (before ++ f :: after_) all_chunks
  = process_loop fuel self sup (before ++ after_) all_chunks.
Proof.
  intros He. rewrite !process_loop_app.
  destruct (process_loop fuel self sup before all_chunks); try reflexivity.
  apply process_loop_skip. exact He.
Qed.

(** X6. A path that is not a regular file, or whose suffix is not in
    [SUPPORTED_FILE_TYPES], or from which nothing could be read (the file
    is empty, or opening it raised) does not change the outcome of
    [process_documents] and does not stop it: the directory is processed
    as if the path were not there. *)
Theorem process_documents_skips (fuel : nat)
    (before after_ : list FileEntry) (f : FileEntry) :
  path_is_file f = false
  \/ str_in (path_suffix f) supported = false
  \/ read_document f = ""
  \/ (str_in (lower (path_suffix f)) [".txt"; ".md"] = true
      /\ exists e, open_read f = inl e) ->
  process_documents fuel config self (Some (before ++ f :: after_))
  = process_documents fuel config self (Some (before ++ after_)).
Proof.
  intros Hwhy. unfold process_documents. apply process_loop_skip_middle.
  unfold eligible. destruct Hwhy as [->|[->|[->|[Hsuf [e He]]]]].
  - reflexivity.
  - apply andb_false_iff. left. apply andb_false_r.
  - apply andb_false_r.
  - unfold read_document, read_text_file. rewrite Hsuf, He. apply andb_false_r.
Qed.

Lemma lower_fixed_supported (s : string) :
  str_in s [".txt"; ".md"; ".pdf"; ".json"] = true -> lower s = s.
Proof.
  unfold str_in. cbn [existsb]. rewrite !orb_true_iff.
  intros [H|[H|[H|[H|H]]]]; try discriminate;
    apply String.eqb_eq in H; subst s; reflexivity.
Qed.

(** X7. With the supported suffixes of [config.py], a file whose suffix
    is not in lower case (".TXT", ".Pdf") is left out by
    [process_documents], although [read_document], which lower-cases the
    suffix, would read it. *)
Theorem process_documents_suffix_case (fuel : nat)
    (before after_ : list FileEntry) (f : FileEntry) :
  supported = [".txt"; ".md"; ".pdf"; ".json"] ->
  lower (path_suffix f) <> path_suffix f ->
  process_documents fuel config self (Some (before ++ f :: after_))
  = process_documents fuel config self (Some (before ++ after_)).
Proof.
  intros Hsup Hcase. unfold process_documents. apply process_loop_skip_middle.
  unfold eligible. rewrite Hsup.
  destruct (str_in (path_suffix f) [".txt"; ".md"; ".pdf"; ".json"]) eqn:Hin.
  - elim Hcase. apply lower_fixed_supported. exact Hin.
  - rewrite andb_false_r. reflexivity.
Qed.

Lemma len_append (a b : string) : len (a +:+ b) = len a + len b.
Proof.
  unfold len. induction a as [|c a IH].
  - change ("" +:+ b) with b. cbn [String.length]. lia.
  - rewrite append_cons. cbn [String.length]. lia.
Qed.

Lemma len_read_pages (pages : list string) :
  forall acc : string,
    len (foldl (fun text page => text +:+ page +:+ nl) acc pages)
    = len acc + total_len pages + Z.of_nat (length pages).
Proof.
  induction pages as [|p pages IH]; intros acc; cbn [foldl total_len foldr length].
  - lia.
  - rewrite IH, !len_append. change (len nl) with 1.
    fold (total_len pages). lia.
Qed.

(** X8. For a PDF that can be read, [read_pdf_file] returns as many
    characters as the pages hold plus one line feed per page. A PDF with
    at least one page therefore never reads as empty, even when no page
    has any text, and a PDF without pages reads as the empty string. *)
Theorem read_pdf_file_length (f : FileEntry) (pages : list string) :
  pdf_pages f = inr pages ->
  len (read_pdf_file f) = total_len pages + Z.of_nat (length pages)
  /\ (pages <> [] -> truthy (read_pdf_file f) = true)
  /\ (pages = [] -> read_pdf_file f = "").
Proof.
  intros Hpages. unfold read_pdf_file. rewrite Hpages.
  assert (Hlen := len_read_pages pages ""). change (len "") with 0 in Hlen.
  split; [lia|]. split.
  - intros Hne. apply truthy_true. intros Hempty. rewrite Hempty in Hlen.
    change (len "") with 0 in Hlen.
    assert (0 <= total_len pages).
    { clear. induction pages as [|p pages IH]; cbn [total_len foldr]; [lia|].
      fold (total_len pages). pose proof (len_nonneg p). lia. }
    destruct pages; [congruence|]. cbn [length] in Hlen. lia.
  - intros ->. reflexivity.
Qed.

Lemma file_metadata_keys (f : FileEntry) :
  file_metadata f !! "filename" = Some (VStr (path_name f))
  /\ file_metadata f !! "filepath" = Some (VStr (path_str f))
  /\ file_metadata f !! "file_type" = Some (VStr (path_suffix f))
  /\ file_metadata f !! "relative_path" = Some (VStr (path_relative f)).
Proof.
  unfold file_metadata.
  rewrite !lookup_insert_ne by discriminate. rewrite lookup_insert_eq.
  rewrite !lookup_insert_ne by discriminate. rewrite lookup_insert_eq.
  rewrite lookup_insert_ne by discriminate. rewrite !lookup_insert_eq.
  auto.
Qed.

Lemma chunk_text_comes_from (fuel : nat) (f : FileEntry) (chunks : list Chunk) :
  chunk_text fuel self (read_document f) (file_metadata f) = Ok chunks ->
  Forall (comes_from self f) chunks.
Proof.
  intros Hrun.
  pose proof (chunk_loop_carries self _ _ fuel [] 0 0 chunks
                (Forall_nil_2 _) Hrun) as Hcar.
  pose proof (chunk_text_span_any_config self _ _ fuel chunks Hrun) as Hspan.
  destruct (file_metadata_keys f) as (K1 & K2 & K3 & K4).
  rewrite Forall_forall in Hcar, Hspan. apply Forall_forall. intros c Hin.
  destruct (Hcar c Hin) as [Hkeep _]. unfold comes_from.
  rewrite !Hkeep by reflexivity. repeat split; try assumption.
  apply Hspan. exact Hin.
Qed.

Lemma process_loop_comes_from (fuel : nat) (sup : list string)
    (files : list FileEntry) :
  forall (all_files : list FileEntry) (all_chunks r : list Chunk),
    (forall f, f ∈ files -> f ∈ all_files) ->
    Forall (fun c => exists f, f ∈ all_files /\ eligible sup f = true
                               /\ comes_from self f c) all_chunks ->
    process_loop fuel self sup files all_chunks = Ok r ->
    Forall (fun c => exists f, f ∈ all_files /\ eligible sup f = true
                               /\ comes_from self f c) r.
Proof.
  induction files as [|f files IH]; intros all_files all_chunks r Hsub Hacc.
  - intros [= <-]. exact Hacc.
  - assert (Hrest : forall g, g ∈ files -> g ∈ all_files).
    { intros g Hg. apply Hsub. right. exact Hg. }
    destruct (eligible sup f) eqn:He.
    + rewrite process_loop_take by exact He.
      destruct (chunk_text fuel self (read_document f) (file_metadata f))
        as [chunks| |] eqn:Hrun; try discriminate.
      apply IH; [exact Hrest|]. apply Forall_app. split; [exact Hacc|].
      apply chunk_text_comes_from in Hrun.
      eapply Forall_impl; [exact Hrun|]. intros c Hc. exists f.
      split; [apply Hsub; left|]. auto.
    + rewrite process_loop_skip by exact He. apply IH; assumption.
Qed.

(** X9. Whatever the configuration, every chunk that [process_documents]
    returns comes from one file of the directory that is a regular file
    with a supported suffix and some content: the chunk has the
    [filename], [filepath], [file_type] and [relative_path] of that file
    and records a span of the content read from it. *)
Theorem process_documents_provenance (fuel : nat) (files : list FileEntry)
    (chunks : list Chunk) :
  process_documents fuel config self (Some files) = Ok chunks ->
  forall c, c ∈ chunks ->
    exists f, f ∈ files /\ eligible supported f = true /\ comes_from self f c.
Proof.
  unfold process_documents. intros Hrun c Hin.
  pose proof (process_loop_comes_from fuel supported files files [] chunks
                (fun f H => H) (Forall_nil_2 _) Hrun) as Hall.
  rewrite Forall_forall in Hall. exact (Hall c Hin).
Qed.

Lemma process_loop_file_chunks (fuel : nat) (sup : list string)
    (files : list FileEntry) :
  0 <= chunk_overlap self < chunk_size self ->
  (forall f, f ∈ files -> eligible sup f = true ->
             (Z.to_nat (len (read_document f)) < fuel)%nat) ->
  forall all_chunks,
    process_loop fuel self sup files all_chunks
    = Ok (all_chunks
            ++ mjoin (file_chunks self <$> filter (fun f => eligible sup f = true) files)).
Proof.
  intros Hcfg. induction files as [|f files IH]; intros Hfuel all_chunks.
  - simpl. rewrite app_nil_r. reflexivity.
  - assert (Hrest : forall g, g ∈ files -> eligible sup g = true ->
                              (Z.to_nat (len (read_document g)) < fuel)%nat).
    { intros g Hg. apply Hfuel. right. exact Hg. }
    destruct (eligible sup f) eqn:He.
    + rewrite process_loop_take by exact He.
      rewrite chunk_text_windows
        by first [lia | apply Hfuel; [left|exact He]].
      rewrite IH by exact Hrest.
      rewrite filter_cons_True by exact He.
      rewrite fmap_cons. cbn [mjoin list_join]. rewrite <- app_assoc. reflexivity.
    + rewrite process_loop_skip by exact He.
      rewrite filter_cons_False by (rewrite He; discriminate).
      apply IH. exact Hrest.
Qed.

(** X10. With [0 <= chunk_overlap < chunk_size] and fuel above the
    length of every content read, [process_documents] returns, in
    directory order, the chunks of each regular file with a supported
    suffix and some content, each list being what [chunk_text] returns for
    that content with the metadata of the file; a missing directory gives
    no chunk. *)
Theorem process_documents_concat (fuel : nat) (files : list FileEntry) :
  0 <= chunk_overlap self < chunk_size self ->
  (forall f, f ∈ files -> eligible supported f = true ->
             (Z.to_nat (len (read_document f)) < fuel)%nat) ->
  process_documents fuel config self (Some files)
  = Ok (mjoin (file_chunks self
                 <$> filter (fun f => eligible supported f = true) files))
  /\ (forall f, f ∈ files -> eligible supported f = true ->
                chunk_text fuel self (read_document f) (file_metadata f)
                = Ok (file_chunks self f))
  /\ process_documents fuel config self None = Ok [].
Proof.
  intros Hcfg Hfuel. split; [|split].
  - unfold process_documents.
    rewrite (process_loop_file_chunks fuel supported files Hcfg Hfuel []).
    reflexivity.
  - intros f Hin He. apply chunk_text_windows; [lia|]. apply Hfuel; assumption.
  - reflexivity.
Qed.

End ProcessDocuments.

(** ** The vector store *)

Section StoreLifecycle.
Import VectorStore Spec Aux.
Context {F : Floats} {Sv : Services}.
Variable config : Config.t.

(** X11. [VectorStore.__init__] loads the embedding model, opens the
    ChromaDB client and gets or creates the collection, in that order.
    What the model loader or the client constructor raises leaves
    [__init__], and no collection has been looked up or created by then.
    Once both have succeeded [__init__] returns: it leaves a collection
    under the configured name holding the records that were already
    there (none if it had to create it), touches no other collection, and
    [get_collection_stats] then reports the configured name, that number
    of records and the configured path. *)
Theorem init_gets_or_creates (w : World) :
  let self := {| chroma_dir := Config.CHROMA_DB_DIR config;
                 collection_name := Config.CHROMA_COLLECTION_NAME config |} in
  (forall e : exn,
     load_model (Config.EMBEDDING_MODEL config) = inl e ->
     VectorStore.init config w
     = (Raise e, after w [LoadModel (Config.EMBEDDING_MODEL config)]))
  /\ (forall e : exn,
        load_model (Config.EMBEDDING_MODEL config) = inr tt ->
        open_client (Config.CHROMA_DB_DIR config) = inl e ->
        VectorStore.init config w
        = (Raise e, after w [LoadModel (Config.EMBEDDING_MODEL config);
                             OpenClient (Config.CHROMA_DB_DIR config)]))
  /\ (load_model (Config.EMBEDDING_MODEL config) = inr tt ->
      open_client (Config.CHROMA_DB_DIR config) = inr tt ->
      exists w' : World,
        VectorStore.init config w = (Ok self, w')
        /\ client w' !! collection_name self
           = Some (default [] (client w !! collection_name self))
        /\ (forall other, other <> collection_name self ->
                          client w' !! other = client w !! other)
        /\ knowledge w' = knowledge w
        /\ fst (get_collection_stats self w')
           = Ok {| stats_collection_name := Config.CHROMA_COLLECTION_NAME config;
                   stats_document_count :=
                     Z.of_nat (length (default [] (client w !! collection_name self)));
                   stats_db_path := Config.CHROMA_DB_DIR config |}).
Proof.
  intros self. unfold VectorStore.init, EmbeddingGenerator.init,
    _get_or_create_collection.
  fold self. unfold_run. unfold after.
  cbn [client knowledge trace chroma_dir self].
  split; [|split].
  - intros e ->. reflexivity.
  - intros e -> ->. rewrite <- app_assoc. reflexivity.
  - intros -> ->. unfold Chroma.get_collection, Chroma.create_collection.
    cbn [client knowledge trace].
    destruct (client w !! collection_name self) as [records|] eqn:Hc.
    + eexists. split; [reflexivity|]. cbn [client knowledge default from_option id].
      split; [exact Hc|]. split; [reflexivity|]. split; [reflexivity|].
      unfold get_collection_stats. unfold_run. unfold Chroma.count.
      cbn [client]. rewrite Hc. reflexivity.
    + cbn [client knowledge trace].
      eexists. split; [reflexivity|]. cbn [client knowledge default from_option id].
      split; [apply lookup_insert_eq|].
      split; [intros other Hne; apply lookup_insert_ne; congruence|].
      split; [reflexivity|].
      unfold get_collection_stats. unfold_run. unfold Chroma.count.
      cbn [client]. rewrite lookup_insert_eq. reflexivity.
Qed.

(** X12. [reset_collection] never raises, whether or not the collection
    exists; afterwards the collection exists and is empty, and every
    other collection of the client is as before. *)
Theorem reset_collection_only_named (self : VectorStore.t) (w : World) :
  exists w' : World,
    reset_collection self w = (Ok tt, w')
    /\ client w' !! collection_name self = Some []
    /\ (forall other, other <> collection_name self ->
                      client w' !! other = client w !! other)
    /\ knowledge w' = knowledge w.
Proof.
  rewrite reset_collection_spec. eexists. split; [reflexivity|].
  cbn [client knowledge]. split; [apply lookup_insert_eq|].
  split; [|reflexivity]. intros other Hne. apply lookup_insert_ne. congruence.
Qed.

(** What [ingest_documents] does once the count has come back as zero
    or the refresh was forced. *)
Lemma ingest_into_empty (fuel : nat) (self : VectorStore.t) (w : World)
    (chunks : list DocumentProcessor.Chunk)
    (embeddings : list (list float)) :
  client w !! collection_name self = Some [] ->
  DocumentProcessor.process_documents fuel config
    (DocumentProcessor.init config) (knowledge w) = Ok chunks ->
  chunks <> [] ->
  model_encode_batch (DocumentProcessor.text <$> chunks) = inr embeddings ->
  length embeddings = length chunks ->
  (length chunks <= max_batch_size)%nat ->
  let ids := imap (fun i _ => "doc_" +:+ str_of_nat i) chunks in
  ingest_documents config fuel self false w
  = (Ok tt,
     {| knowledge := knowledge w;
        client := <[collection_name self :=
                      Chroma.build_records ids embeddings
                        (DocumentProcessor.text <$> chunks)
                        (DocumentProcessor.metadata <$> chunks)]> (client w);
        trace := trace w ++ [StoreCount (collection_name self);
                             EmbedBatch (DocumentProcessor.text <$> chunks);
                             StoreAdd (collection_name self) ids] |}).
Proof.
  intros Hc Hproc Hne Henc Hlen Hmax ids.
  unfold ingest_documents. unfold mbind, M_bind, Run.bind.
  unfold mret at 1, M_ret at 1, Run.ret at 1.
  unfold store_read at 1. unfold Chroma.count at 1. rewrite Hc.
  cbn [of_external length Z.of_nat]. rewrite andb_false_l. cbv beta iota.
  unfold run_process_documents. cbn [knowledge]. rewrite Hproc.
  destruct chunks as [|c chunks]; [congruence|].
  set (cs := c :: chunks) in *.
  unfold EmbeddingGenerator.generate_embeddings. unfold_run.
  cbn [client knowledge trace]. rewrite Henc.
  destruct embeddings as [|e embeddings]; [discriminate|].
  set (es := e :: embeddings) in *.
  assert (Hids : length ids = length cs) by apply length_imap.
  fold ids.
  rewrite (add_to_empty _ _ _ es _ ids); rewrite ?length_fmap; try congruence.
  - cbn [client knowledge trace]. rewrite <- !app_assoc. reflexivity.
  - cbn [client]. exact Hc.
  - apply doc_ids_distinct.
Qed.

(** X13. On an empty collection, [ingest_documents] without
    [force_refresh] (when the documents are processed into a non-empty
    list of chunks, the model returns one vector per chunk and the
    chunks are no more than the client takes in one call of [add])
    stores exactly one record per chunk, with the texts of the chunks as
    documents, and leaves the other collections alone; calling it again
    then stores nothing more. *)
Theorem ingest_first_time_then_idle (fuel : nat) (self : VectorStore.t)
    (w : World) (chunks : list DocumentProcessor.Chunk)
    (embeddings : list (list float)) :
  client w !! collection_name self = Some [] ->
  DocumentProcessor.process_documents fuel config
    (DocumentProcessor.init config) (knowledge w) = Ok chunks ->
  chunks <> [] ->
  model_encode_batch (DocumentProcessor.text <$> chunks) = inr embeddings ->
  length embeddings = length chunks ->
  (length chunks <= max_batch_size)%nat ->
  exists (w' : World) (records' : list Chroma.VRecord),
    ingest_documents config fuel self false w = (Ok tt, w')
    /\ client w' !! collection_name self = Some records'
    /\ length records' = length chunks
    /\ Chroma.rec_document <$> records' = DocumentProcessor.text <$> chunks
    /\ (forall other, other <> collection_name self ->
                      client w' !! other = client w !! other)
    /\ fst (ingest_documents config fuel self false w') = Ok tt
    /\ client (snd (ingest_documents config fuel self false w')) = client w'.
Proof.
  intros Hc Hproc Hne Henc Hlen Hmax.
  rewrite (ingest_into_empty fuel self w chunks embeddings) by assumption.
  set (ids := imap (fun i _ => "doc_" +:+ str_of_nat i) chunks).
  assert (Hids : length ids = length chunks) by apply length_imap.
  destruct (build_records_spec ids embeddings
              (DocumentProcessor.text <$> chunks)
              (DocumentProcessor.metadata <$> chunks))
    as (Hl & _ & Hd); rewrite ?length_fmap; try congruence.
  eexists _, _. split; [reflexivity|]. cbn [client].
  split; [apply lookup_insert_eq|]. split; [congruence|]. split; [exact Hd|].
  split; [intros other Ho; apply lookup_insert_ne; congruence|].
  assert (Hfull : Chroma.build_records ids embeddings
                    (DocumentProcessor.text <$> chunks)
                    (DocumentProcessor.metadata <$> chunks) <> []).
  { intros Hnil. rewrite Hnil in Hl. cbn [length] in Hl.
    destruct chunks; [congruence|]. cbn [length] in Hids. lia. }
  unfold ingest_documents. unfold_run. unfold Chroma.count.
  cbn [client knowledge trace]. rewrite lookup_insert_eq.
  cbn [negb andb]. rewrite (proj2 (Z.ltb_lt 0 _) (length_pos _ Hfull)).
  split; reflexivity.
Qed.

Lemma ingest_forced_nothing_stored (fuel : nat) (self : VectorStore.t)
    (w : World) (chunks : list DocumentProcessor.Chunk) :
  DocumentProcessor.process_documents fuel config
    (DocumentProcessor.init config) (knowledge w) = Ok chunks ->
  chunks = []
  \/ (exists e, model_encode_batch (DocumentProcessor.text <$> chunks) = inl e)
  \/ model_encode_batch (DocumentProcessor.text <$> chunks) = inr [] ->
  exists w' : World,
    ingest_documents config fuel self true w = (Ok tt, w')
    /\ client w' !! collection_name self = Some []
    /\ (forall other, other <> collection_name self ->
                      client w' !! other = client w !! other).
Proof.
  intros Hproc Hfail.
  unfold ingest_documents. unfold mbind, M_bind, Run.bind.
  rewrite reset_collection_spec.
  unfold store_read at 1. unfold Chroma.count at 1. cbn [client knowledge trace].
  rewrite lookup_insert_eq. cbn [of_external length Z.of_nat].
  rewrite andb_false_r. cbv beta iota.
  unfold run_process_documents. cbn [knowledge]. rewrite Hproc.
  assert (Hother : forall other : string, other <> collection_name self ->
            <[collection_name self := []]> (client w) !! other = client w !! other).
  { intros other Ho. apply lookup_insert_ne. congruence. }
  destruct chunks as [|c chunks].
  - eexists. split; [reflexivity|]. cbn [client].
    split; [apply lookup_insert_eq|exact Hother].
  - destruct Hfail as [Hnil|[[e He]|He]]; [discriminate| |];
      unfold EmbeddingGenerator.generate_embeddings; unfold_run;
      cbn [client knowledge trace]; rewrite He;
      (eexists; split; [reflexivity|]; cbn [client];
       split; [apply lookup_insert_eq|exact Hother]).
Qed.

(** X14. A forced refresh that cannot ingest anything still succeeds
    and leaves the collection empty: when there are no chunks, or the
    embedding model raises or returns nothing, [ingest_documents] with
    [force_refresh] returns normally and every record stored before is
    gone. *)
Theorem refresh_without_embeddings_empties (fuel : nat) (self : VectorStore.t)
    (w : World) (chunks : list DocumentProcessor.Chunk) :
  DocumentProcessor.process_documents fuel config
    (DocumentProcessor.init config) (knowledge w) = Ok chunks ->
  chunks = []
  \/ (exists e, model_encode_batch (DocumentProcessor.text <$> chunks) = inl e)
  \/ model_encode_batch (DocumentProcessor.text <$> chunks) = inr [] ->
  exists w' : World,
    ingest_documents config fuel self true w = (Ok tt, w')
    /\ client w' !! collection_name self = Some []
    /\ (forall other, other <> collection_name self ->
                      client w' !! other = client w !! other).
Proof. apply ingest_forced_nothing_stored. Qed.

Lemma process_loop_diverges (fuel : nat) (self : DocumentProcessor.t)
    (sup : list string) (files : list DocumentProcessor.FileEntry) :
  DocumentProcessor.chunk_size self <= DocumentProcessor.chunk_overlap self ->
  (exists f, f ∈ files /\ eligible sup f = true) ->
  forall all_chunks,
    DocumentProcessor.process_loop fuel self sup files all_chunks = OutOfFuel.
Proof.
  intros Hcfg. induction files as [|f files IH]; intros [g [Hin Hg]] all_chunks.
  - inversion Hin.
  - assert (Hdiv : forall h, eligible sup h = true ->
               DocumentProcessor.chunk_text fuel self
                 (DocumentProcessor.read_document h) (file_metadata h) = OutOfFuel).
    { intros h Hh. unfold DocumentProcessor.chunk_text.
      apply chunk_loop_diverges; [lia| |lia].
      unfold eligible in Hh. apply andb_true_iff in Hh as [_ Hh].
      destruct (DocumentProcessor.read_document h); [discriminate|].
      unfold len. simpl. lia. }
    destruct (eligible sup f) eqn:He.
    + rewrite process_loop_take by exact He. rewrite Hdiv by exact He. reflexivity.
    + rewrite process_loop_skip by exact He. apply IH.
      apply elem_of_cons in Hin as [->|Hin]; [congruence|]. eauto.
Qed.

(** X15. With [CHUNK_OVERLAP >= CHUNK_SIZE] in the configuration and at
    least one file to chunk, a forced [ingest_documents] never returns,
    whatever the fuel, and by then the collection has already been
    emptied. *)
Theorem refresh_diverges_after_reset (self : VectorStore.t) (w : World)
    (files : list DocumentProcessor.FileEntry) :
  Config.CHUNK_SIZE config <= Config.CHUNK_OVERLAP config ->
  knowledge w = Some files ->
  (exists f, f ∈ files /\ eligible (Config.SUPPORTED_FILE_TYPES config) f = true) ->
  forall fuel,
    fst (ingest_documents config fuel self true w) = OutOfFuel
    /\ client (snd (ingest_documents config fuel self true w))
         !! collection_name self = Some [].
Proof.
  intros Hcfg Hk Hfile fuel.
  assert (Hrun : exists w' : World,
             ingest_documents config fuel self true w = (OutOfFuel, w')
             /\ client w' !! collection_name self = Some []).
  { unfold ingest_documents. unfold mbind, M_bind, Run.bind.
    rewrite reset_collection_spec.
    unfold store_read at 1. unfold Chroma.count at 1. cbn [client knowledge trace].
    rewrite lookup_insert_eq. cbn [of_external length Z.of_nat].
    rewrite andb_false_r. cbv beta iota.
    unfold run_process_documents. cbn [knowledge]. rewrite Hk.
    unfold DocumentProcessor.process_documents.
    rewrite process_loop_diverges; [|exact Hcfg|exact Hfile].
    eexists. split; [reflexivity|]. cbn [client]. apply lookup_insert_eq. }
  destruct Hrun as (w' & -> & Hempty). split; [reflexivity|exact Hempty].
Qed.

End StoreLifecycle.

(** ** Searching and formatting the context *)

Section ContextEdges.
Import VectorStore Spec Aux.
Context {F : Floats} {Sv : Services}.
Variable config : Config.t.

#[local] Abbreviation item := (string * (gmap string pyval * float))%type.

(** X16. When the embedding model returns a non-empty vector and the
    collection exists, [query] makes exactly two outside calls (the
    embedding, then one search with that single vector and [n_results],
    or [TOP_K_RESULTS] when none is given) and returns one list of
    documents, one of metadatas and one of distances, read off the same
    hits of the search and so of equal lengths; the collections are
    unchanged. *)
Theorem query_returns_hits (self : VectorStore.t) (query_text : string)
    (n_results : option Z) (w : World) (e : list float)
    (records : list Chroma.VRecord) :
  model_encode query_text = inr e ->
  e <> [] ->
  client w !! collection_name self = Some records ->
  let k := default (Config.TOP_K_RESULTS config) n_results in
  let hits := nearest records e k in
  exists results : Chroma.QueryResult,
    query config self query_text n_results w
    = (Ok results,
       after w [EmbedOne query_text; StoreQuery (collection_name self) [e] k])
    /\ Chroma.documents results = [(Chroma.rec_document ∘ fst) <$> hits]
    /\ Chroma.metadatas results = [(Chroma.rec_metadata ∘ fst) <$> hits]
    /\ Chroma.distances results = [snd <$> hits].
Proof.
  intros Henc Hne Hc k hits. eexists. split.
  - unfold query. unfold mbind, M_bind, Run.bind.
    unfold EmbeddingGenerator.generate_embedding. unfold_run.
    cbn [client knowledge trace]. rewrite Henc.
    destruct e as [|x e]; [congruence|].
    unfold collection_query. unfold_run. cbn [client knowledge trace].
    rewrite Hc. cbn [fmap list_fmap Chroma.documents].
    unfold after. rewrite <- app_assoc. reflexivity.
  - cbn [Chroma.documents Chroma.metadatas Chroma.distances].
    repeat split.
Qed.

Lemma context_loop_all (ticker : option string) (items : list item) :
  truthy_opt ticker = false ->
  forall (i : nat) (context_parts : list string),
    context_loop ticker i items context_parts
    = Ok (context_parts
            ++ mjoin (block_of <$> imap (fun j x => ((i + j)%nat, x)) items)).
Proof.
  intros Hno. induction items as [|[doc [md dist]] items IH];
    intros i context_parts.
  - simpl. rewrite app_nil_r. reflexivity.
  - cbn [context_loop]. rewrite ticker_mismatch_no_ticker by exact Hno.
    rewrite imap_cons, IH.
    assert (Hshift : imap ((fun j x => ((i + j)%nat, x)) ∘ S) items
                     = imap (fun j (x : item) => ((S i + j)%nat, x)) items).
    { apply imap_ext. intros j x _. simpl. f_equal. lia. }
    rewrite Hshift, fmap_cons. cbn [mjoin list_join block_of].
    rewrite Nat.add_0_r, <- app_assoc. reflexivity.
Qed.

(** X17. Without a ticker ([None] or the empty string) nothing is
    filtered: [get_context_for_query] formats every result of the search,
    whatever the ['ticker'] fields of the metadata hold. *)
Theorem context_without_ticker (self : VectorStore.t)
    (query_text : string) (ticker : option string) (w w' : World)
    (results : Chroma.QueryResult)
    (docs : list string) (mds : list (gmap string pyval))
    (dists : list float) rd rm rdist :
  ticker = None \/ ticker = Some "" ->
  query config self query_text None w = (Ok results, w') ->
  Chroma.documents results = docs :: rd ->
  docs <> [] ->
  Chroma.metadatas results = mds :: rm ->
  Chroma.distances results = dists :: rdist ->
  get_context_for_query config self query_text ticker w
  = (Ok (join nl (mjoin (block_of <$> enumerate_results docs mds dists))), w').
Proof.
  intros Hno Hquery Hdocs Hnonempty Hmds Hdists.
  assert (Hfalse : truthy_opt ticker = false)
    by (destruct Hno as [->| ->]; reflexivity).
  destruct docs as [|doc docs]; [congruence|].
  unfold get_context_for_query. unfold mbind, M_bind, Run.bind.
  rewrite Hquery, Hdocs, Hmds, Hdists. unfold_run.
  rewrite (context_loop_all ticker _ Hfalse 0 []). reflexivity.
Qed.

Lemma context_loop_int_ticker (ticker : string) (items : list item) :
  ticker <> "" ->
  (exists it z, it ∈ items /\ fst (snd it) !! "ticker" = Some (VInt z)) ->
  forall (i : nat) (context_parts : list string),
    context_loop (Some ticker) i items context_parts
    = Raise (Exception "AttributeError" "'int' object has no attribute 'upper'").
Proof.
  intros Hne. apply truthy_true in Hne.
  induction items as [|[doc [md dist]] items IH];
    intros (it & z & Hin & Hz) i context_parts.
  - inversion Hin.
  - cbn [context_loop]. unfold ticker_mismatch. rewrite Hne.
    destruct (md !! "ticker") as [[s|z']|] eqn:Hmd.
    + assert (Hrest : exists it z, it ∈ items
                                   /\ fst (snd it) !! "ticker" = Some (VInt z)).
      { apply elem_of_cons in Hin as [->|Hin]; [|eauto].
        cbn [fst snd] in Hz. congruence. }
      destruct (negb (String.eqb (upper s) (upper ticker))); apply IH; exact Hrest.
    + reflexivity.
    + apply IH. apply elem_of_cons in Hin as [->|Hin]; [|eauto].
      cbn [fst snd] in Hz. congruence.
Qed.

(** X18. With a non-empty ticker, a search result whose ['ticker'] field
    holds an integer makes [get_context_for_query] raise
    [AttributeError]: no context is returned, not even for the results
    that come before it. *)
Theorem context_int_ticker_raises (self : VectorStore.t)
    (query_text ticker : string) (w w' : World) (results : Chroma.QueryResult)
    (docs : list string) (mds : list (gmap string pyval))
    (dists : list float) rd rm rdist
    (j : nat) (doc : string) (md : gmap string pyval) (dist : float) (z : Z) :
  ticker <> "" ->
  query config self query_text None w = (Ok results, w') ->
  Chroma.documents results = docs :: rd ->
  Chroma.metadatas results = mds :: rm ->
  Chroma.distances results = dists :: rdist ->
  docs !! j = Some doc -> mds !! j = Some md -> dists !! j = Some dist ->
  md !! "ticker" = Some (VInt z) ->
  get_context_for_query config self query_text (Some ticker) w
  = (Raise (Exception "AttributeError" "'int' object has no attribute 'upper'"),
     w').
Proof.
  intros Hne Hquery Hdocs Hmds Hdists Hd Hm Hdist Hz.
  unfold get_context_for_query. unfold mbind, M_bind, Run.bind.
  rewrite Hquery, Hdocs.
  destruct docs as [|d0 docs]; [discriminate|].
  rewrite Hmds, Hdists. unfold_run.
  rewrite (context_loop_int_ticker ticker _ Hne); [reflexivity|].
  exists (doc, (md, dist)), z. split; [|exact Hz].
  apply (list_elem_of_lookup_2 _ j). apply lookup_zip_Some. split; [exact Hd|].
  apply lookup_zip_Some. split; assumption.
Qed.

End ContextEdges.

(** ** The language model and the tool calls *)

Section Containment.
Import Aux.

Lemma append_assoc (a b c : string) : (a +:+ b) +:+ c = a +:+ (b +:+ c).
Proof.
  induction a as [|x a IH]; [reflexivity|].
  rewrite !append_cons, IH. reflexivity.
Qed.

Lemma append_empty_r (a : string) : a +:+ "" = a.
Proof. induction a as [|x a IH]; [reflexivity|]. rewrite append_cons, IH. reflexivity. Qed.

Lemma contains_refl (s : string) : contains s s.
Proof. exists "", "". rewrite append_empty_r. reflexivity. Qed.

Lemma contains_here3 (a b c rest : string) :
  contains (a +:+ b +:+ c +:+ rest) (a +:+ b +:+ c).
Proof. exists "", rest. rewrite !append_assoc. reflexivity. Qed.

Lemma contains_app_r (a b sub : string) : contains b sub -> contains (a +:+ b) sub.
Proof.
  intros (pre & post & ->). exists (a +:+ pre), post.
  rewrite append_assoc. reflexivity.
Qed.

Lemma contains_app_l (a b sub : string) : contains a sub -> contains (a +:+ b) sub.
Proof.
  intros (pre & post & ->). exists pre, (post +:+ b).
  rewrite !append_assoc. reflexivity.
Qed.

End Containment.

Section Answers.
Import VectorStore LLMProvider MCPServer Spec Aux.
Context {F : Floats} {Sv : Services}.
Variable config : Config.t.

Lemma generate_ai_response_ollama_shape (vs : VectorStore.t) (o : OllamaProvider)
    (ticker query context user_context : string) (w : World) :
  let self := {| vector_store := vs; llm_provider := UseOllama o |} in
  let t := Config.LLM_TEMPERATURE config in
  let n := Config.LLM_MAX_TOKENS config in
  exists (prompt answer : string),
    _generate_ai_response config self ticker query context user_context w
    = (Ok answer, after w [LLMGenerate (ollama_model o) prompt t n])
    /\ (forall response,
          ollama_generate (ollama_model o) prompt t n = inr response ->
          answer = response)
    /\ (forall e,
          ollama_generate (ollama_model o) prompt t n = inl e ->
          answer
          = "Error generating response: Error: " +:+ exn_msg e +:+ nl +:+ nl
            +:+ "Make sure Ollama is running: ollama serve" +:+ nl
            +:+ "And model '" +:+ ollama_model o +:+ "' is installed: "
            +:+ "ollama pull " +:+ ollama_model o)
    /\ (exists rest,
          prompt = "You are a knowledgeable financial analyst AI assistant "
                   +:+ rest)
    /\ contains prompt ("Stock Ticker: " +:+ ticker +:+ nl)
    /\ contains prompt ("User Question: " +:+ query +:+ nl)
    /\ contains prompt ("Relevant Context from Knowledge Base:" +:+ nl
                        +:+ context +:+ nl)
    /\ (user_context <> "" ->
        contains prompt ("Additional User Context: " +:+ user_context)).
Proof.
  intros self t n.
  assert (Hrun : exists system_prompt user_prompt : string,
    (exists rest, system_prompt
                  = "You are a knowledgeable financial analyst AI assistant "
                    +:+ rest)
    /\ (exists tail_,
          user_prompt
          = (if truthy user_context
             then ("Stock Ticker: " +:+ ticker +:+ nl
                   +:+ "User Question: " +:+ query +:+ nl +:+ nl
                   +:+ "Relevant Context from Knowledge Base:" +:+ nl
                   +:+ context +:+ nl)
                  +:+ nl +:+ nl +:+ "Additional User Context: " +:+ user_context
             else "Stock Ticker: " +:+ ticker +:+ nl
                  +:+ "User Question: " +:+ query +:+ nl +:+ nl
                  +:+ "Relevant Context from Knowledge Base:" +:+ nl
                  +:+ context +:+ nl)
            +:+ tail_)
    /\ _generate_ai_response config self ticker query context user_context w
       = (match ollama_generate (ollama_model o)
                  (system_prompt +:+ nl +:+ nl +:+ user_prompt) t n with
          | inr response => Ok response
          | inl e =>
              Ok ("Error generating response: Error: " +:+ exn_msg e +:+ nl +:+ nl
                  +:+ "Make sure Ollama is running: ollama serve" +:+ nl
                  +:+ "And model '" +:+ ollama_model o +:+ "' is installed: "
                  +:+ "ollama pull " +:+ ollama_model o)
          end,
          after w [LLMGenerate (ollama_model o)
                     (system_prompt +:+ nl +:+ nl +:+ user_prompt) t n])).
  { unfold _generate_ai_response.
    cbn [llm_provider self generate configured_provider any_provider
         ollama_provider].
    match goal with
    | |- context [ollama_provider_generate config o ?up (Some ?sp) _ _] =>
        exists sp, up
    end.
    split; [eexists; reflexivity|].
    split; [eexists; reflexivity|].
    unfold try_except.
    match goal with
    | |- context [ollama_provider_generate config o ?up (Some ?sp) _ _] =>
        rewrite (ollama_provider_generate_sends config o up
                   (sp +:+ nl +:+ nl +:+ up) (Some sp)) by reflexivity
    end.
    cbn [default from_option id]. fold t n. unfold ollama_outcome.
    destruct (ollama_generate _ _ t n); reflexivity. }
  destruct Hrun as (system_prompt & user_prompt & Hsys & [tail_ Huser] & Hrun).
  exists (system_prompt +:+ nl +:+ nl +:+ user_prompt).
  destruct (ollama_generate (ollama_model o)
              (system_prompt +:+ nl +:+ nl +:+ user_prompt) t n)
    as [e|response] eqn:Hgen;
    eexists; (split; [exact Hrun|]);
    (split; [intros r [= <-] || (intros r; discriminate); reflexivity|]);
    (split; [intros e' [= <-] || (intros e'; discriminate); reflexivity|]);
    (split; [destruct Hsys as [rest ->]; eexists; apply append_assoc|]);
    rewrite Huser; clear Hrun Huser;
    (assert (Hbase : forall sub,
               contains ("Stock Ticker: " +:+ ticker +:+ nl
                         +:+ "User Question: " +:+ query +:+ nl +:+ nl
                         +:+ "Relevant Context from Knowledge Base:" +:+ nl
                         +:+ context +:+ nl) sub ->
               contains (system_prompt +:+ nl +:+ nl
                         +:+ (if truthy user_context
                              then ("Stock Ticker: " +:+ ticker +:+ nl
                                    +:+ "User Question: " +:+ query +:+ nl +:+ nl
                                    +:+ "Relevant Context from Knowledge Base:"
                                    +:+ nl +:+ context +:+ nl)
                                   +:+ nl +:+ nl +:+ "Additional User Context: "
                                   +:+ user_context
                              else "Stock Ticker: " +:+ ticker +:+ nl
                                   +:+ "User Question: " +:+ query +:+ nl +:+ nl
                                   +:+ "Relevant Context from Knowledge Base:"
                                   +:+ nl +:+ context +:+ nl)
                             +:+ tail_) sub)
      by (intros sub Hsub; do 3 apply contains_app_r; apply contains_app_l;
          destruct (truthy user_context); [apply contains_app_l|]; exact Hsub));
    (split; [apply Hbase, contains_here3|]);
    (split; [apply Hbase; do 3 apply contains_app_r; apply contains_here3|]);
    (split; [apply Hbase; do 7 apply contains_app_r; apply contains_refl|]);
    intros Hctx; apply truthy_true in Hctx; rewrite Hctx;
    do 3 apply contains_app_r; apply contains_app_l;
    do 3 apply contains_app_r; apply contains_refl.
Qed.

(** X19. With the Ollama provider, [_generate_ai_response] never raises
    and sends exactly one request, with the temperature and the token
    limit of the configuration. Its prompt starts with the system
    guidance and contains the ticker line, the question, the retrieved
    context and, when it is not empty, the user's additional context.
    The answer of the model is returned verbatim; if the request fails
    with message [m], the text returned is "Error generating response:
    Error: m", followed by the hint to start Ollama and pull the model. *)
Theorem generate_ai_response_ollama (vs : VectorStore.t) (o : OllamaProvider)
    (ticker query context user_context : string) (w : World) :
  let self := {| vector_store := vs; llm_provider := UseOllama o |} in
  let t := Config.LLM_TEMPERATURE config in
  let n := Config.LLM_MAX_TOKENS config in
  exists (prompt answer : string),
    _generate_ai_response config self ticker query context user_context w
    = (Ok answer, after w [LLMGenerate (ollama_model o) prompt t n])
    /\ (forall response,
          ollama_generate (ollama_model o) prompt t n = inr response ->
          answer = response)
    /\ (forall e,
          ollama_generate (ollama_model o) prompt t n = inl e ->
          answer
          = "Error generating response: Error: " +:+ exn_msg e +:+ nl +:+ nl
            +:+ "Make sure Ollama is running: ollama serve" +:+ nl
            +:+ "And model '" +:+ ollama_model o +:+ "' is installed: "
            +:+ "ollama pull " +:+ ollama_model o)
    /\ (exists rest,
          prompt = "You are a knowledgeable financial analyst AI assistant "
                   +:+ rest)
    /\ contains prompt ("Stock Ticker: " +:+ ticker +:+ nl)
    /\ contains prompt ("User Question: " +:+ query +:+ nl)
    /\ contains prompt ("Relevant Context from Knowledge Base:" +:+ nl
                        +:+ context +:+ nl)
    /\ (user_context <> "" ->
        contains prompt ("Additional User Context: " +:+ user_context)).
Proof. apply generate_ai_response_ollama_shape. Qed.

(** X20. With the OpenAI provider, which is a placeholder, a stock query
    with both arguments present still searches the vector store, but no
    request is ever sent to a language model: whenever the context is
    retrieved, the handler returns, as an ordinary answer and without any
    further outside call, "Error generating response: OpenAI provider
    not yet implemented. Install openai package and implement this
    method.". *)
Theorem handle_stock_query_openai (vs : VectorStore.t) (o : OpenAIProvider)
    (arguments : gmap string string) (ticker query context : string)
    (w w1 : World) :
  arguments !! "ticker" = Some ticker -> ticker <> "" ->
  arguments !! "query" = Some query -> query <> "" ->
  get_context_for_query config vs (upper ticker +:+ " " +:+ query)
    (Some (upper ticker)) w = (Ok context, w1) ->
  _handle_stock_query config
    {| vector_store := vs; llm_provider := UseOpenAI o |} arguments w
  = (Ok ("Error generating response: OpenAI provider not yet implemented. "
         +:+ "Install openai package and implement this method."), w1).
Proof.
  intros Ht Htne Hq Hqne Hctx. unfold _handle_stock_query.
  rewrite Ht, Hq. cbn [default from_option id]. rewrite truthy_upper.
  apply truthy_true in Htne, Hqne. rewrite Htne, Hqne. cbn [negb orb].
  unfold mbind at 1, M_bind at 1, Run.bind at 1. cbn [vector_store].
  rewrite Hctx. reflexivity.
Qed.

(** X21. The ticker argument is case-insensitive: two requests whose
    tickers are equal up to case, and whose other arguments are the same,
    make [_handle_stock_query] do and return exactly the same. *)
Theorem handle_stock_query_ticker_case (self : TickerAIMCPServer)
    (arguments : gmap string string) (ticker1 ticker2 : string) (w : World) :
  ci_equal ticker1 ticker2 = true ->
  _handle_stock_query config self (<["ticker" := ticker1]> arguments) w
  = _handle_stock_query config self (<["ticker" := ticker2]> arguments) w.
Proof.
  intros Hci. apply ci_equal_upper_eq in Hci.
  unfold _handle_stock_query.
  rewrite !lookup_insert_eq. rewrite !lookup_insert_ne by discriminate.
  cbn [default from_option id]. rewrite Hci. reflexivity.
Qed.

(** X22. With the Ollama provider and both arguments present, once the
    context for the search string "TICKER query" (the ticker in upper
    case) has been retrieved, [_handle_stock_query] sends one request to
    the model and returns its answer verbatim. The prompt of that request
    contains the upper-cased ticker, the question as it was asked and the
    retrieved context. *)
Theorem handle_stock_query_ollama (vs : VectorStore.t) (o : OllamaProvider)
    (arguments : gmap string string) (ticker query context : string)
    (w w1 : World) :
  arguments !! "ticker" = Some ticker -> ticker <> "" ->
  arguments !! "query" = Some query -> query <> "" ->
  get_context_for_query config vs (upper ticker +:+ " " +:+ query)
    (Some (upper ticker)) w = (Ok context, w1) ->
  exists (prompt answer : string),
    _handle_stock_query config
      {| vector_store := vs; llm_provider := UseOllama o |} arguments w
    = (Ok answer,
       after w1 [LLMGenerate (ollama_model o) prompt
                   (Config.LLM_TEMPERATURE config) (Config.LLM_MAX_TOKENS config)])
    /\ (forall response,
          ollama_generate (ollama_model o) prompt
            (Config.LLM_TEMPERATURE config) (Config.LLM_MAX_TOKENS config)
          = inr response ->
          answer = response)
    /\ contains prompt ("Stock Ticker: " +:+ upper ticker +:+ nl)
    /\ contains prompt ("User Question: " +:+ query +:+ nl)
    /\ contains prompt ("Relevant Context from Knowledge Base:" +:+ nl
                        +:+ context +:+ nl).
Proof.
  intros Ht Htne Hq Hqne Hctx.
  destruct (generate_ai_response_ollama_shape vs o (upper ticker) query context
              (default "" (arguments !! "context")) w1)
    as (prompt & answer & Hrun & Hok & _ & _ & Hticker & Hquery & Hcontext & _).
  exists prompt, answer. split; [|auto].
  unfold _handle_stock_query.
  rewrite Ht, Hq. cbn [default from_option id]. rewrite truthy_upper.
  apply truthy_true in Htne, Hqne. rewrite Htne, Hqne. cbn [negb orb].
  unfold mbind at 1, M_bind at 1, Run.bind at 1. cbn [vector_store].
  rewrite Hctx. unfold mbind, M_bind, Run.bind. rewrite Hrun. reflexivity.
Qed.

End Answers.

(** ** Tool calls always answer *)

Section ToolCalls.
Import VectorStore LLMProvider MCPServer Spec Aux.
Context {F : Floats} {Sv : Services}.
Variable config : Config.t.

Lemma finishes_ret {A} (a : A) : finishes (mret a).
Proof. intros w. discriminate. Qed.

Lemma finishes_raise {A} (e : exn) : finishes (Run.raise (A := A) e).
Proof. intros w. discriminate. Qed.

Lemma finishes_external {A} (x : external A) : finishes (lift (of_external x)).
Proof. intros w. destruct x; discriminate. Qed.

Lemma finishes_emit (ev : Event) : finishes (emit ev).
Proof. intros w. discriminate. Qed.

Lemma finishes_store_read {A} (ev : Event)
    (op : gmap string (list Chroma.VRecord) -> external A) :
  finishes (store_read ev op).
Proof. intros w. unfold store_read. simpl. destruct (op (client w)); discriminate. Qed.

Lemma finishes_getitem0 {A} (xs : list A) : finishes (getitem0 xs).
Proof. destruct xs; [apply finishes_raise|apply finishes_ret]. Qed.

Lemma finishes_bind {A B} (m : M A) (f : A -> M B) :
  finishes m -> (forall a, finishes (f a)) -> finishes (m ≫= f).
Proof.
  intros Hm Hf w. unfold mbind, M_bind, Run.bind.
  specialize (Hm w). destruct (m w) as [[a|e|] w1]; simpl in *.
  - apply Hf.
  - discriminate.
  - congruence.
Qed.

Lemma finishes_try_except {A} (m : M A) (handler : exn -> M A) :
  finishes m -> (forall e, finishes (handler e)) -> finishes (try_except m handler).
Proof.
  intros Hm Hh w. unfold try_except.
  specialize (Hm w). destruct (m w) as [[a|e|] w1]; simpl in *.
  - discriminate.
  - apply Hh.
  - congruence.
Qed.

Lemma context_loop_finishes (ticker : option string)
    (items : list (string * (gmap string pyval * float))) :
  forall (i : nat) (context_parts : list string),
    context_loop ticker i items context_parts <> OutOfFuel.
Proof.
  induction items as [|[doc [md dist]] items IH]; intros i context_parts;
    [discriminate|].
  cbn [context_loop].
  assert (Hm : ticker_mismatch ticker md <> OutOfFuel).
  { unfold ticker_mismatch. destruct ticker as [tk|]; [|discriminate].
    destruct (truthy tk); [|discriminate].
    destruct (md !! "ticker") as [[s|z]|]; discriminate. }
  destruct (ticker_mismatch ticker md) as [[|]|e|]; try apply IH;
    [discriminate|congruence].
Qed.

Lemma finishes_get_context_for_query (self : VectorStore.t)
    (query_text : string) (ticker : option string) :
  finishes (get_context_for_query config self query_text ticker).
Proof.
  unfold get_context_for_query. apply finishes_bind.
  - unfold query. apply finishes_bind.
    + unfold EmbeddingGenerator.generate_embedding.
      apply finishes_try_except; [|intros e; apply finishes_ret].
      apply finishes_bind; [apply finishes_emit|intros _; apply finishes_external].
    + intros [|x e]; [apply finishes_ret|].
      apply finishes_bind; [apply finishes_store_read|intros results].
      apply finishes_bind; [apply finishes_getitem0|intros _; apply finishes_ret].
  - intros results.
    destruct (Chroma.documents results) as [|[|doc docs] rd];
      try apply finishes_ret.
    apply finishes_bind; [apply finishes_getitem0|intros mds].
    apply finishes_bind; [apply finishes_getitem0|intros dists].
    apply finishes_bind; [|intros parts; apply finishes_ret].
    intros w. apply context_loop_finishes.
Qed.

Lemma finishes_generate_ai_response (self : TickerAIMCPServer)
    (ticker query context user_context : string) :
  finishes (_generate_ai_response config self ticker query context user_context).
Proof.
  unfold _generate_ai_response.
  apply finishes_try_except; [|intros e; apply finishes_ret].
  destruct (llm_provider self) as [o|o]; simpl.
  - unfold ollama_provider_generate, ollama_call.
    apply finishes_try_except; [|intros e; apply finishes_raise].
    apply finishes_bind; [apply finishes_emit|intros _; apply finishes_external].
  - apply finishes_raise.
Qed.

Lemma finishes_handle_stock_query (self : TickerAIMCPServer)
    (arguments : gmap string string) :
  finishes (_handle_stock_query config self arguments).
Proof.
  unfold _handle_stock_query.
  destruct (negb _ || negb _); [apply finishes_ret|].
  apply finishes_bind; [apply finishes_get_context_for_query|intros context].
  apply finishes_bind; [apply finishes_generate_ai_response|intros r].
  apply finishes_ret.
Qed.

(** A branch of [call_tool]: run [m], wrap what it returns as a text,
    and turn an exception into an error text. *)
Lemma wrapped_reply {A} (m : M A) (f : A -> string) (w : World) :
  text_reply (fst (try_except
                     (x ← m;
                      mret [ {| MCPServer.type := "text"; MCPServer.text := f x |} ])
                     (fun e => mret [ {| MCPServer.type := "text";
                                         MCPServer.text := "Error: " +:+ exn_msg e |} ])
                     w))
  \/ fst (m w) = OutOfFuel.
Proof.
  unfold try_except, mbind, M_bind, Run.bind.
  destruct (m w) as [[a|e|] w1]; simpl.
  - left. eexists. reflexivity.
  - left. eexists. reflexivity.
  - right. reflexivity.
Qed.

(** X23. A tool call never raises. It answers with exactly one content
    of type "text" (the result, or "Error: " followed by the message of
    the exception raised while handling it), unless it never returns,
    which only [refresh_knowledge_base] can do; a tool name that is not
    one of the three answers "Unknown tool: " and the name, without
    touching anything. *)
Theorem call_tool_always_text (fuel : nat) (self : TickerAIMCPServer)
    (name : string) (arguments : gmap string string) (w : World) :
  (text_reply (fst (call_tool config fuel self name arguments w))
   \/ (name = "refresh_knowledge_base"
       /\ fst (call_tool config fuel self name arguments w) = OutOfFuel))
  /\ (name <> "query_stock" -> name <> "get_vector_store_stats" ->
      name <> "refresh_knowledge_base" ->
      call_tool config fuel self name arguments w
      = (Ok [ {| MCPServer.type := "text";
                 MCPServer.text := "Unknown tool: " +:+ name |} ], w)).
Proof.
  split.
  - unfold call_tool.
    destruct (String.eqb_spec name "query_stock") as [->|H1].
    { destruct (wrapped_reply (_handle_stock_query config self arguments)
                  (fun r => r) w) as [Hr|Hr]; [left; exact Hr|].
      elim (finishes_handle_stock_query self arguments w Hr). }
    destruct (String.eqb_spec name "get_vector_store_stats") as [->|H2].
    { destruct (wrapped_reply (get_collection_stats (vector_store self))
                  stats_json w) as [Hr|Hr]; [left; exact Hr|].
      assert (Hfin : finishes (get_collection_stats (vector_store self))).
      { unfold get_collection_stats.
        apply finishes_bind; [apply finishes_store_read|intros c].
        apply finishes_ret. }
      elim (Hfin w Hr). }
    destruct (String.eqb_spec name "refresh_knowledge_base") as [->|H3].
    { destruct (wrapped_reply
                  (ingest_documents config fuel (vector_store self) true)
                  (fun _ => "Knowledge base refreshed successfully") w)
        as [Hr|Hr]; [left; exact Hr|].
      right. split; [reflexivity|].
      unfold try_except, mbind, M_bind, Run.bind.
      destruct (ingest_documents config fuel (vector_store self) true w)
        as [[a|e|] w1]; simpl in *; congruence. }
    left. eexists. reflexivity.
  - intros H1 H2 H3. unfold call_tool.
    apply String.eqb_neq in H1, H2, H3. rewrite H1, H2, H3. reflexivity.
Qed.

End ToolCalls.

(** ** The client in front of the server *)

Section Client.
Import VectorStore MCPServer MCPClient Spec Aux.
Context {F : Floats} {Sv : Services}.
Variable config : Config.t.

Lemma served_query_stock (fuel : nat) (server : TickerAIMCPServer)
    (s : ClientSession) (arguments : gmap string string) (w : World) :
  served_by config fuel server s ->
  (r ← session_call_tool s "query_stock" arguments;
   match content r with
   | c :: _ => mret (MCPServer.text c)
   | [] => mret "No response received from server"
   end) w
  = match _handle_stock_query config server arguments w with
    | (Ok answer, w') => (Ok answer, w')
    | (Raise e, w') => (Ok ("Error: " +:+ exn_msg e), w')
    | (OutOfFuel, w') => (OutOfFuel, w')
    end.
Proof.
  intros Hserved. unfold mbind at 1, M_bind at 1, Run.bind at 1.
  rewrite Hserved. unfold call_tool.
  change (String.eqb "query_stock" "query_stock") with true. cbv iota.
  unfold_run. destruct (_handle_stock_query config server arguments w)
    as [[answer|e|] w']; reflexivity.
Qed.

(** X24. Without a session, [query_stock] raises [RuntimeError] and
    calls nothing. Through a session served by the server it never
    raises: it sends the ticker and the query, and the context only when
    it is given and not empty, and returns the text of the handler, or
    "Error: " and the message when the handler raised. With an empty
    ticker or query it returns "Error: Both ticker and query are
    required" and nothing else happened. *)
Theorem client_query_stock (fuel : nat) (server : TickerAIMCPServer)
    (cl : TickerAIMCPClient) (ticker query : string) (context : option string)
    (w : World) :
  (session cl = None ->
   query_stock cl ticker query context w
   = (Raise (Exception "RuntimeError"
               "Not connected to server. Call connect() first."), w))
  /\ (forall s, session cl = Some s -> served_by config fuel server s ->
      let arguments : gmap string string :=
        match context with
        | Some c => if truthy c
                    then <["context" := c]>
                           (<["query" := query]> (<["ticker" := ticker]> ∅))
                    else <["query" := query]> (<["ticker" := ticker]> ∅)
        | None => <["query" := query]> (<["ticker" := ticker]> ∅)
        end in
      exists answer : string,
        query_stock cl ticker query context w
        = (Ok answer, snd (_handle_stock_query config server arguments w))
        /\ (forall r, fst (_handle_stock_query config server arguments w) = Ok r ->
                      answer = r)
        /\ (forall e, fst (_handle_stock_query config server arguments w) = Raise e ->
                      answer = "Error: " +:+ exn_msg e)
        /\ (ticker = "" \/ query = "" ->
            answer = "Error: Both ticker and query are required"
            /\ snd (_handle_stock_query config server arguments w) = w)).
Proof.
  split.
  - intros Hs. unfold query_stock. rewrite Hs. reflexivity.
  - intros s Hs Hserved arguments. unfold query_stock. rewrite Hs.
    fold arguments. rewrite (served_query_stock fuel server s arguments w Hserved).
    pose proof (finishes_handle_stock_query config server arguments w) as Hfin.
    assert (Hneed : ticker = "" \/ query = "" ->
              _handle_stock_query config server arguments w
              = (Ok "Error: Both ticker and query are required", w)).
    { intros Hempty. unfold _handle_stock_query.
      assert (Ht : arguments !! "ticker" = Some ticker).
      { unfold arguments. destruct context as [c|]; [destruct (truthy c)|];
          rewrite ?lookup_insert_ne by discriminate; apply lookup_insert_eq. }
      assert (Hq : arguments !! "query" = Some query).
      { unfold arguments. destruct context as [c|]; [destruct (truthy c)|];
          rewrite ?lookup_insert_ne by discriminate; apply lookup_insert_eq. }
      rewrite Ht, Hq. cbn [default from_option id]. rewrite truthy_upper.
      destruct Hempty as [-> | ->]; cbn [truthy negb orb];
        rewrite ?orb_true_r; reflexivity. }
    destruct (_handle_stock_query config server arguments w)
      as [[answer|e|] w'] eqn:Hh; cbn [fst snd] in *.
    + exists answer. split; [reflexivity|]. split; [congruence|].
      split; [discriminate|]. intros Hempty. specialize (Hneed Hempty).
      injection Hneed as <- <-. split; reflexivity.
    + exists ("Error: " +:+ exn_msg e). split; [reflexivity|].
      split; [discriminate|]. split; [congruence|].
      intros Hempty. specialize (Hneed Hempty). discriminate.
    + congruence.
Qed.

(** X25. Through a session served by the server, a refresh that could
    not ingest anything (no chunks, or the embedding model raised or
    returned nothing) is reported to the client as "Knowledge base
    refreshed successfully", and the collection is left empty. *)
Theorem client_refresh_reports_success (fuel : nat) (server : TickerAIMCPServer)
    (cl : TickerAIMCPClient) (s : ClientSession) (w : World)
    (chunks : list DocumentProcessor.Chunk) :
  session cl = Some s ->
  served_by config fuel server s ->
  DocumentProcessor.process_documents fuel config
    (DocumentProcessor.init config) (knowledge w) = Ok chunks ->
  chunks = []
  \/ (exists e, model_encode_batch (DocumentProcessor.text <$> chunks) = inl e)
  \/ model_encode_batch (DocumentProcessor.text <$> chunks) = inr [] ->
  exists w' : World,
    refresh_knowledge_base cl w
    = (Ok "Knowledge base refreshed successfully", w')
    /\ client w' !! collection_name (vector_store server) = Some [].
Proof.
  intros Hs Hserved Hproc Hfail.
  destruct (ingest_forced_nothing_stored config fuel (vector_store server) w
              chunks Hproc Hfail) as (w' & Hrun & Hempty & _).
  exists w'. split; [|exact Hempty].
  unfold refresh_knowledge_base. rewrite Hs.
  unfold mbind at 1, M_bind at 1, Run.bind at 1. rewrite Hserved.
  unfold call_tool.
  change (String.eqb "refresh_knowledge_base" "query_stock") with false.
  change (String.eqb "refresh_knowledge_base" "get_vector_store_stats") with false.
  change (String.eqb "refresh_knowledge_base" "refresh_knowledge_base") with true.
  cbv iota. unfold_run. rewrite Hrun. reflexivity.
Qed.

End Client.

(** ** The properties at work on the small concrete world *)

Import Demo.

Lemma handle_stock_query_missing_argument_witness :
  MCPServer.call_tool Demo.config 0 Demo.server "query_stock"
    {["ticker" := "AAPL"]} Demo.world
  = (Ok [ {| MCPServer.type := "text";
             MCPServer.text := "Error: Both ticker and query are required" |} ],
     Demo.world).
Proof.
  destruct (handle_stock_query_missing_argument Demo.config Demo.server
              {["ticker" := "AAPL"]} Demo.world) as [_ Htool].
  - right. right. left. reflexivity.
  - exact (Htool 0%nat).
Defined.

Lemma query_embedding_failure_witness :
  VectorStore.get_context_for_query config store "" (Some "AAPL") world
  = (Ok "No relevant context found.", Spec.after world [EmbedOne ""]).
Proof.
  apply (query_embedding_failure config store "" None (Some "AAPL") world).
  left. eexists. reflexivity.
Defined.

Lemma ollama_generate_full_prompt_witness :
  snd (LLMProvider.ollama_provider_generate config
         (LLMProvider.ollama_init config None None) "hi" (Some "sys") None None world)
  = Spec.after world
      [LLMGenerate "llama3.2" ("sys" +:+ nl +:+ nl +:+ "hi") 70 1000].
Proof.
  rewrite (proj1 (ollama_generate_full_prompt config
                    (LLMProvider.ollama_init config None None) "hi" None None world)
             "sys").
  - reflexivity.
  - discriminate.
Defined.

Lemma ingest_skips_populated_collection_witness :
  exists w' : World,
    VectorStore.ingest_documents config 5 store false world = (Ok tt, w')
    /\ client w' = client world
    /\ knowledge w' = knowledge world
    /\ trace w' = [StoreCount "stock_documents"].
Proof.
  apply (ingest_skips_populated_collection config 5 store world records).
  - reflexivity.
  - discriminate.
Defined.

Lemma ingest_force_refresh_replaces_witness :
  exists (w' : World) (records' : list Chroma.VRecord),
    VectorStore.ingest_documents config 5 store true world = (Ok tt, w')
    /\ client w' !! "stock_documents" = Some records'
    /\ Chroma.count "stock_documents" (client w') = inr 1
    /\ length records' = 1%nat
    /\ Chroma.rec_document <$> records' = ["AAPL revenue grew 5%."]
    /\ Chroma.rec_id <$> records' = ["doc_0"].
Proof.
  refine (ingest_force_refresh_replaces config 5 store world
            [Spec.window (DocumentProcessor.init config) "AAPL revenue grew 5%."
               (<["relative_path" := VStr "aapl.txt"]>
                  (<["file_type" := VStr ".txt"]>
                     (<["filepath" := VStr "/srv/tickerai/knowledge/aapl.txt"]>
                        (<["filename" := VStr "aapl.txt"]> ∅)))) 0 0] _ _ _).
  - reflexivity.
  - intros _. eexists. split; reflexivity.
  - apply Nat.leb_le. vm_compute. reflexivity.
Defined.

(** A knowledge directory of 5462 notes gives 5462 chunks, one more than
    the client takes in one call of [add] (5461): the documents are
    processed and embedded, yet the forced [ingest_documents] raises and
    the collection, emptied by the reset, holds no record at all. *)
Lemma ingest_force_refresh_over_batch_limit :
  exists (chunks : list DocumentProcessor.Chunk) (embeddings : list (list float))
         (e : exn) (w' : World),
    DocumentProcessor.process_documents 30 config
      (DocumentProcessor.init config) (knowledge Cases.crowded_world) = Ok chunks
    /\ model_encode_batch (DocumentProcessor.text <$> chunks) = inr embeddings
    /\ length embeddings = length chunks
    /\ Z.of_nat (length chunks) = 5462
    /\ VectorStore.ingest_documents config 30 store true Cases.crowded_world
       = (Raise e, w')
    /\ Chroma.count "stock_documents" (client w') = inr 0.
Proof.
  assert (Hcount :
            match DocumentProcessor.process_documents 30 config
                    (DocumentProcessor.init config) (knowledge Cases.crowded_world)
            with
            | Ok chunks => Z.of_nat (length chunks)
            | _ => -1
            end = 5462) by (vm_compute; reflexivity).
  destruct (DocumentProcessor.process_documents 30 config
              (DocumentProcessor.init config) (knowledge Cases.crowded_world))
    as [chunks| |] eqn:Hproc; [|discriminate Hcount|discriminate Hcount].
  assert (Henc : model_encode_batch (DocumentProcessor.text <$> chunks)
                 = inr ((fun s => [len s]) <$> (DocumentProcessor.text <$> chunks)))
    by reflexivity.
  assert (Hlen : length ((fun s => [len s]) <$> (DocumentProcessor.text <$> chunks))
                 = length chunks) by (rewrite !length_fmap; reflexivity).
  destruct (ingest_forced_over_batch_limit config 30 store Cases.crowded_world
              chunks _ Hproc Henc Hlen) as (w' & Hrun & Hclient).
  { change max_batch_size with (Z.to_nat 5461). lia. }
  exists chunks, ((fun s => [len s]) <$> (DocumentProcessor.text <$> chunks)),
    (Exception "ValueError" "batch size exceeds maximum batch size"), w'.
  split; [reflexivity|]. split; [exact Henc|]. split; [exact Hlen|].
  split; [exact Hcount|]. split; [exact Hrun|].
  rewrite Hclient. unfold Chroma.count. rewrite lookup_insert_eq. reflexivity.
Qed.

(** Membership in a literal list, one element at a time. *)
Ltac each_member H :=
  repeat (apply elem_of_cons in H as [->|H]); [..|inversion H].

Lemma context_filter_by_ticker_witness :
  VectorStore.get_context_for_query config store "AAPL growth" (Some "AAPL") world
  = (Ok (join nl
           [ "--- Context 1 (Relevance: 0.75) ---";
             "Source: aapl.txt";
             "Content: AAPL revenue grew 5%.";
             "";
             "--- Context 3 (Relevance: 0.75) ---";
             "Source: notes.md";
             "Content: Markets were flat.";
             "" ]),
     Spec.after world [EmbedOne "AAPL growth"; StoreQuery "stock_documents" [[11]] 5]).
Proof.
  refine (proj1 (context_filter_by_ticker config store "AAPL growth" "AAPL" world
                   (Spec.after world
                      [EmbedOne "AAPL growth"; StoreQuery "stock_documents" [[11]] 5])
                   {| Chroma.documents := [Chroma.rec_document <$> records];
                      Chroma.metadatas := [Chroma.rec_metadata <$> records];
                      Chroma.distances := [[25; 25; 25]] |}
                   (Chroma.rec_document <$> records)
                   (Chroma.rec_metadata <$> records)
                   [25; 25; 25] [] [] [] _ _ _ _ _ _ _)).
  - discriminate.
  - reflexivity.
  - reflexivity.
  - discriminate.
  - reflexivity.
  - reflexivity.
  - intros md v Hin Hv. each_member Hin; vm_compute in Hv;
      first [discriminate | injection Hv as <-; eexists; reflexivity].
Defined.

(** A search that returns a record tagged aapl and a record whose
    ['ticker'] field is the integer 7: asked for AAPL,
    [get_context_for_query] raises instead of returning the context made
    of the results that are kept, so the first result, which matches, is
    not included. *)
Lemma context_filter_int_ticker_raises :
  exists w' : World,
    VectorStore.query config store "AAPL growth" None Cases.int_ticker_world
    = (Ok {| Chroma.documents := [["AAPL revenue grew 5%."; "Ticker seven."]];
             Chroma.metadatas :=
               [[<["ticker" := VStr "aapl"]> {["filename" := VStr "aapl.txt"]};
                 <["ticker" := VInt 7]> {["filename" := VStr "seven.txt"]}]];
             Chroma.distances := [[25; 25]] |}, w')
    /\ VectorStore.get_context_for_query config store "AAPL growth" (Some "AAPL")
         Cases.int_ticker_world
       = (Raise (Exception "AttributeError" "'int' object has no attribute 'upper'"),
          w')
    /\ fst (VectorStore.get_context_for_query config store "AAPL growth"
              (Some "AAPL") Cases.int_ticker_world)
       <> Ok (join nl
                (mjoin (Spec.block_of
                          <$> filter (Spec.kept "AAPL")
                                (Spec.enumerate_results
                                   ["AAPL revenue grew 5%."; "Ticker seven."]
                                   [<["ticker" := VStr "aapl"]>
                                      {["filename" := VStr "aapl.txt"]};
                                    <["ticker" := VInt 7]>
                                      {["filename" := VStr "seven.txt"]}]
                                   [25; 25])))).
Proof.
  eexists. split; [reflexivity|]. split; [reflexivity|]. discriminate.
Qed.

(** Beyond ASCII the comparison follows the case mapping: asked for the
    capital E-acute, a record tagged with the small one is kept, and the
    record tagged aapl is not. *)
Lemma context_keeps_accented_ticker :
  fst (VectorStore.get_context_for_query config store "sales"
         (Some (String (ascii_of_nat 201) "")) Cases.accent_world)
  = Ok (join nl
          [ "--- Context 1 (Relevance: 0.75) ---";
            "Source: hermes.txt";
            "Content: Hermes sales rose.";
            "" ]).
Proof. reflexivity. Qed.

Lemma context_empty_when_all_excluded_witness :
  VectorStore.get_context_for_query config store "growth" (Some "MSFT") tagged_world
  = (Ok "",
     Spec.after tagged_world [EmbedOne "growth"; StoreQuery "stock_documents" [[6]] 5])
  /\ exists results : Chroma.QueryResult,
       VectorStore.query config store "" None world
       = (Ok results, Spec.after world [EmbedOne ""])
       /\ (Chroma.documents results = []
           \/ exists rd, Chroma.documents results = [] :: rd).
Proof.
  split.
  - refine (proj1 (context_empty_when_all_excluded config store "growth" tagged_world)
              "MSFT" _
              {| Chroma.documents := [Chroma.rec_document <$> take 2 records];
                 Chroma.metadatas := [Chroma.rec_metadata <$> take 2 records];
                 Chroma.distances := [[25; 25]] |}
              (Chroma.rec_document <$> take 2 records)
              (Chroma.rec_metadata <$> take 2 records)
              [25; 25] [] [] [] _ _ _ _ _ _ _).
    + discriminate.
    + reflexivity.
    + reflexivity.
    + discriminate.
    + reflexivity.
    + reflexivity.
    + intros md Hin. each_member Hin; eexists; split; reflexivity.
  - apply (proj2 (context_empty_when_all_excluded config store "" world) (Some "AAPL")).
    reflexivity.
Defined.

(** ** The further properties at work *)

Lemma chunk_text_empty_iff_witness :
  DocumentProcessor.chunk_text 1 small "" ∅ = Ok []
  /\ forall chunks,
       DocumentProcessor.chunk_text 9 small "abcdefgh" ∅ = Ok chunks ->
       chunks <> [].
Proof.
  split.
  - apply (proj1 (chunk_text_empty_iff small "" ∅ 0)). reflexivity.
  - intros chunks Hrun Hnil.
    apply (proj2 (chunk_text_empty_iff small "abcdefgh" ∅ 9) chunks Hrun) in Hnil.
    discriminate.
Defined.

Lemma chunk_text_ids_and_offsets_witness :
  exists chunks : list DocumentProcessor.Chunk,
    DocumentProcessor.chunk_text 9 small "abcdefgh" ∅ = Ok chunks
    /\ forall (k : nat) (c : DocumentProcessor.Chunk),
         chunks !! k = Some c ->
         DocumentProcessor.metadata c !! "chunk_id" = Some (VInt (Z.of_nat k))
         /\ DocumentProcessor.metadata c !! "start_char"
            = Some (VInt (Z.of_nat k * 3)).
Proof.
  destruct (chunk_text_ids_and_offsets small "abcdefgh" ∅) as (chunks & Hrun & Hall).
  - simpl. lia.
  - exists chunks. split; [apply Hrun; vm_compute; lia|].
    intros k c Hk. destruct (Hall k c Hk) as (Hid & Hstart & _).
    split; [exact Hid|exact Hstart].
Defined.

Lemma chunk_text_keeps_metadata_witness :
  Forall (Aux.carries {["filename" := VStr "abc.txt"]})
    (Spec.windows 3 small "abcdefgh" {["filename" := VStr "abc.txt"]} 0 0).
Proof.
  apply (chunk_text_keeps_metadata small "abcdefgh"
           {["filename" := VStr "abc.txt"]} 9).
  reflexivity.
Defined.

Lemma chunk_text_lengths_witness :
  exists chunks : list DocumentProcessor.Chunk,
    DocumentProcessor.chunk_text 9 small "abcdefgh" ∅ = Ok chunks
    /\ forall (k : nat) (c : DocumentProcessor.Chunk),
         chunks !! k = Some c ->
         0 < len (DocumentProcessor.text c) <= 4.
Proof.
  destruct (chunk_text_lengths small "abcdefgh" ∅) as (chunks & Hrun & Hall).
  - simpl. lia.
  - exists chunks. split; [apply Hrun; vm_compute; lia|].
    intros k c Hk. exact (proj2 (Hall k c Hk)).
Defined.

Lemma chunk_text_overlap_shared_witness :
  exists chunks : list DocumentProcessor.Chunk,
    DocumentProcessor.chunk_text 9 small "abcdefgh" ∅ = Ok chunks
    /\ forall (k : nat) (c c' : DocumentProcessor.Chunk),
         chunks !! k = Some c ->
         chunks !! S k = Some c' ->
         py_slice (DocumentProcessor.text c) 3 (len (DocumentProcessor.text c))
         = py_slice (DocumentProcessor.text c') 0
             (len (DocumentProcessor.text c) - 3).
Proof.
  destruct (chunk_text_overlap_shared small "abcdefgh" ∅) as (chunks & Hrun & Hall).
  - simpl. lia.
  - exists chunks. split; [apply Hrun; vm_compute; lia|].
    intros k c c' Hk Hk'. exact (proj1 (Hall k c c' Hk Hk')).
Defined.

Lemma process_documents_skips_witness :
  DocumentProcessor.process_documents 30 config small
    (Some [Cases.alphabet; Cases.subdirectory; Cases.unreadable_file])
  = DocumentProcessor.process_documents 30 config small
      (Some [Cases.alphabet; Cases.subdirectory]).
Proof.
  apply (process_documents_skips config small 30
           [Cases.alphabet; Cases.subdirectory] [] Cases.unreadable_file).
  right. right. right. split; [reflexivity|]. eexists. reflexivity.
Defined.

Lemma process_documents_suffix_case_witness :
  DocumentProcessor.process_documents 30 config small
    (Some [Cases.upper_case_file; Cases.alphabet])
  = DocumentProcessor.process_documents 30 config small (Some [Cases.alphabet])
  /\ DocumentProcessor.read_document Cases.upper_case_file = "Markets were flat.".
Proof.
  split; [|reflexivity].
  apply (process_documents_suffix_case config small 30 [] [Cases.alphabet]
           Cases.upper_case_file).
  - reflexivity.
  - discriminate.
Defined.

Lemma read_pdf_file_length_witness :
  len (DocumentProcessor.read_pdf_file Cases.scanned_pdf) = 2
  /\ truthy (DocumentProcessor.read_pdf_file Cases.scanned_pdf) = true.
Proof.
  destruct (read_pdf_file_length Cases.scanned_pdf [""; ""]) as (Hlen & Hne & _).
  - reflexivity.
  - split; [exact Hlen|]. apply Hne. discriminate.
Defined.

Lemma process_documents_provenance_witness :
  Forall (fun c =>
            exists f, f ∈ [Cases.subdirectory; Cases.alphabet]
                      /\ Aux.eligible (Config.SUPPORTED_FILE_TYPES config) f = true
                      /\ Aux.comes_from small f c)
         (Aux.file_chunks small Cases.alphabet).
Proof.
  rewrite Forall_forall.
  apply (process_documents_provenance config small 30
           [Cases.subdirectory; Cases.alphabet]).
  reflexivity.
Defined.

Lemma process_documents_concat_witness :
  DocumentProcessor.process_documents 30 config small
    (Some [Cases.subdirectory; Cases.alphabet; Cases.scanned_pdf])
  = Ok (Aux.file_chunks small Cases.alphabet
          ++ Aux.file_chunks small Cases.scanned_pdf).
Proof.
  destruct (process_documents_concat config small 30
              [Cases.subdirectory; Cases.alphabet; Cases.scanned_pdf])
    as (Hrun & _).
  - simpl. lia.
  - intros f Hin _. each_member Hin; vm_compute; lia.
  - rewrite Hrun. vm_compute. reflexivity.
Defined.

Lemma init_gets_or_creates_witness :
  (exists w' : World,
     VectorStore.init config Cases.fresh_world = (Ok store, w')
     /\ client w' !! "stock_documents" = Some []
     /\ fst (VectorStore.get_collection_stats store w')
        = Ok {| VectorStore.stats_collection_name := "stock_documents";
                VectorStore.stats_document_count := 0;
                VectorStore.stats_db_path := "/srv/tickerai/chroma_db" |})
  /\ VectorStore.init (Sv := Cases.model_missing) config Cases.fresh_world
     = (Raise (Exception "OSError" "model not found"),
        Spec.after Cases.fresh_world [LoadModel "all-MiniLM-L6-v2"])
  /\ VectorStore.init (Sv := Cases.store_locked) config Cases.fresh_world
     = (Raise (Exception "PermissionError" "permission denied"),
        Spec.after Cases.fresh_world
          [LoadModel "all-MiniLM-L6-v2"; OpenClient "/srv/tickerai/chroma_db"]).
Proof.
  split; [|split].
  - destruct (proj2 (proj2 (init_gets_or_creates config Cases.fresh_world)))
      as (w' & Hrun & Hc & _ & _ & Hstats); [reflexivity|reflexivity|].
    exists w'. split; [exact Hrun|]. split; [exact Hc|exact Hstats].
  - apply (proj1 (init_gets_or_creates (Sv := Cases.model_missing) config
                    Cases.fresh_world)).
    reflexivity.
  - apply (proj1 (proj2 (init_gets_or_creates (Sv := Cases.store_locked) config
                           Cases.fresh_world))); reflexivity.
Defined.

Lemma reset_collection_only_named_witness :
  exists w' : World,
    VectorStore.reset_collection store world = (Ok tt, w')
    /\ client w' !! "stock_documents" = Some []
    /\ client w' !! "other" = client world !! "other".
Proof.
  destruct (reset_collection_only_named store world) as (w' & Hrun & Hc & Ho & _).
  exists w'. split; [exact Hrun|]. split; [exact Hc|]. apply Ho. discriminate.
Defined.

Lemma ingest_first_time_then_idle_witness :
  exists (w' : World) (records' : list Chroma.VRecord),
    VectorStore.ingest_documents config 5 store false Cases.empty_collection_world
    = (Ok tt, w')
    /\ client w' !! "stock_documents" = Some records'
    /\ length records' = 1%nat
    /\ client (snd (VectorStore.ingest_documents config 5 store false w'))
       = client w'.
Proof.
  destruct (ingest_first_time_then_idle config 5 store Cases.empty_collection_world
              (Aux.file_chunks (DocumentProcessor.init config)
                 (file "aapl.txt" "AAPL revenue grew 5%."))
              [[21]])
    as (w' & records' & Hrun & Hc & Hlen & _ & _ & _ & Hidle).
  - reflexivity.
  - reflexivity.
  - discriminate.
  - reflexivity.
  - reflexivity.
  - apply Nat.leb_le. vm_compute. reflexivity.
  - exists w', records'. split; [exact Hrun|]. split; [exact Hc|].
    split; [exact Hlen|exact Hidle].
Defined.

Lemma refresh_without_embeddings_empties_witness :
  exists w' : World,
    VectorStore.ingest_documents (Sv := Cases.model_down) config 5 store true world
    = (Ok tt, w')
    /\ client w' !! "stock_documents" = Some [].
Proof.
  destruct (refresh_without_embeddings_empties (Sv := Cases.model_down)
              config 5 store world
              (Aux.file_chunks (DocumentProcessor.init config)
                 (file "aapl.txt" "AAPL revenue grew 5%.")))
    as (w' & Hrun & Hc & _).
  - reflexivity.
  - right. left. eexists. reflexivity.
  - exists w'. split; [exact Hrun|exact Hc].
Defined.

Lemma refresh_diverges_after_reset_witness :
  fst (VectorStore.ingest_documents Cases.looping_config 1000 store true world)
  = OutOfFuel
  /\ client (snd (VectorStore.ingest_documents Cases.looping_config 1000
                    store true world)) !! "stock_documents" = Some [].
Proof.
  apply (refresh_diverges_after_reset Cases.looping_config store world
           [file "aapl.txt" "AAPL revenue grew 5%."]).
  - simpl. lia.
  - reflexivity.
  - eexists. split; [left|reflexivity].
Defined.

Lemma query_returns_hits_witness :
  exists results : Chroma.QueryResult,
    VectorStore.query config store "AAPL growth" None world
    = (Ok results,
       Spec.after world [EmbedOne "AAPL growth";
                         StoreQuery "stock_documents" [[11]] 5])
    /\ Chroma.documents results
       = [["AAPL revenue grew 5%."; "TSLA deliveries fell."; "Markets were flat."]].
Proof.
  destruct (query_returns_hits config store "AAPL growth" None world [11] records)
    as (results & Hrun & Hdocs & _).
  - reflexivity.
  - discriminate.
  - reflexivity.
  - exists results. split; [exact Hrun|exact Hdocs].
Defined.

Lemma context_without_ticker_witness :
  VectorStore.get_context_for_query config store "AAPL growth" (Some "") world
  = (Ok (join nl
           [ "--- Context 1 (Relevance: 0.75) ---";
             "Source: aapl.txt";
             "Content: AAPL revenue grew 5%.";
             "";
             "--- Context 2 (Relevance: 0.75) ---";
             "Source: tsla.txt";
             "Content: TSLA deliveries fell.";
             "";
             "--- Context 3 (Relevance: 0.75) ---";
             "Source: notes.md";
             "Content: Markets were flat.";
             "" ]),
     Spec.after world [EmbedOne "AAPL growth"; StoreQuery "stock_documents" [[11]] 5]).
Proof.
  refine (context_without_ticker config store "AAPL growth" (Some "") world
            (Spec.after world
               [EmbedOne "AAPL growth"; StoreQuery "stock_documents" [[11]] 5])
            {| Chroma.documents := [Chroma.rec_document <$> records];
               Chroma.metadatas := [Chroma.rec_metadata <$> records];
               Chroma.distances := [[25; 25; 25]] |}
            (Chroma.rec_document <$> records)
            (Chroma.rec_metadata <$> records)
            [25; 25; 25] [] [] [] _ _ _ _ _ _).
  - right. reflexivity.
  - reflexivity.
  - reflexivity.
  - discriminate.
  - reflexivity.
  - reflexivity.
Defined.

Lemma context_int_ticker_raises_witness :
  VectorStore.get_context_for_query config store "seven" (Some "AAPL")
    Cases.int_ticker_world
  = (Raise (Exception "AttributeError" "'int' object has no attribute 'upper'"),
     Spec.after Cases.int_ticker_world
       [EmbedOne "seven"; StoreQuery "stock_documents" [[5]] 5]).
Proof.
  refine (context_int_ticker_raises config store "seven" "AAPL"
            Cases.int_ticker_world _
            {| Chroma.documents := [["AAPL revenue grew 5%."; "Ticker seven."]];
               Chroma.metadatas :=
                 [[ <["ticker" := VStr "aapl"]> {["filename" := VStr "aapl.txt"]};
                    <["ticker" := VInt 7]> {["filename" := VStr "seven.txt"]} ]];
               Chroma.distances := [[25; 25]] |}
            _ _ _ [] [] [] 1 "Ticker seven." _ 25 7 _ _ _ _ _ _ _ _ _).
  - discriminate.
  - reflexivity.
  - reflexivity.
  - reflexivity.
  - reflexivity.
  - reflexivity.
  - reflexivity.
  - reflexivity.
  - reflexivity.
Defined.

Lemma generate_ai_response_ollama_witness :
  exists prompt : string,
    MCPServer._generate_ai_response config server "AAPL" "growth?" "ctx" "" world
    = (Ok ("echo: " +:+ prompt),
       Spec.after world [LLMGenerate "llama3.2" prompt 70 1000])
    /\ Aux.contains prompt ("User Question: " +:+ "growth?" +:+ nl).
Proof.
  destruct (generate_ai_response_ollama config store
              (LLMProvider.ollama_init config None None)
              "AAPL" "growth?" "ctx" "" world)
    as (prompt & answer & Hrun & Hok & _ & _ & _ & Hq & _).
  exists prompt. split; [|exact Hq].
  rewrite <- (Hok ("echo: " +:+ prompt) eq_refl). exact Hrun.
Defined.

Lemma handle_stock_query_openai_witness :
  MCPServer._handle_stock_query config Cases.openai_server
    (<["ticker" := "aapl"]> {["query" := "growth"]}) world
  = (Ok ("Error generating response: OpenAI provider not yet implemented. "
         +:+ "Install openai package and implement this method."),
     Spec.after world
       [EmbedOne "AAPL growth";
        StoreQuery (F := floats) "stock_documents" [[11]] 5]).
Proof.
  apply (handle_stock_query_openai config store
           (LLMProvider.openai_init None None)
           (<["ticker" := "aapl"]> {["query" := "growth"]})
           "aapl" "growth"
           (join nl
              [ "--- Context 1 (Relevance: 0.75) ---";
                "Source: aapl.txt";
                "Content: AAPL revenue grew 5%.";
                "";
                "--- Context 3 (Relevance: 0.75) ---";
                "Source: notes.md";
                "Content: Markets were flat.";
                "" ])
           world).
  - reflexivity.
  - discriminate.
  - reflexivity.
  - discriminate.
  - reflexivity.
Defined.

Lemma handle_stock_query_ollama_witness :
  exists prompt : string,
    MCPServer._handle_stock_query config server
      (<["ticker" := "aapl"]> {["query" := "growth"]}) world
    = (Ok ("echo: " +:+ prompt),
       Spec.after
         (Spec.after world
            [EmbedOne "AAPL growth"; StoreQuery "stock_documents" [[11]] 5])
         [LLMGenerate "llama3.2" prompt 70 1000])
    /\ Aux.contains prompt ("Stock Ticker: AAPL" +:+ nl)
    /\ Aux.contains prompt ("User Question: growth" +:+ nl).
Proof.
  destruct (handle_stock_query_ollama config store
              (LLMProvider.ollama_init config None None)
              (<["ticker" := "aapl"]> {["query" := "growth"]})
              "aapl" "growth"
              (join nl
                 [ "--- Context 1 (Relevance: 0.75) ---";
                   "Source: aapl.txt";
                   "Content: AAPL revenue grew 5%.";
                   "";
                   "--- Context 3 (Relevance: 0.75) ---";
                   "Source: notes.md";
                   "Content: Markets were flat.";
                   "" ])
              world
              (Spec.after world
                 [EmbedOne "AAPL growth";
                  StoreQuery (F := floats) "stock_documents" [[11]] 5]))
    as (prompt & answer & Hrun & Hok & Hticker & Hquery & _).
  - reflexivity.
  - discriminate.
  - reflexivity.
  - discriminate.
  - reflexivity.
  - exists prompt. split; [|split; [exact Hticker|exact Hquery]].
    rewrite <- (Hok ("echo: " +:+ prompt) eq_refl). exact Hrun.
Defined.

Lemma handle_stock_query_ticker_case_witness :
  MCPServer._handle_stock_query config server
    (<["ticker" := "aapl"]> {["query" := "growth"]}) world
  = MCPServer._handle_stock_query config server
      (<["ticker" := "AAPL"]> {["query" := "growth"]}) world.
Proof.
  apply (handle_stock_query_ticker_case config server {["query" := "growth"]}
           "aapl" "AAPL" world).
  reflexivity.
Defined.

Lemma call_tool_always_text_witness :
  MCPServer.call_tool config 0 server "delete_everything" ∅ world
  = (Ok [ {| MCPServer.type := "text";
             MCPServer.text := "Unknown tool: delete_everything" |} ], world)
  /\ Aux.text_reply
       (fst (MCPServer.call_tool config 0 server "query_stock"
               (<["ticker" := "aapl"]> {["query" := "growth"]})
               Cases.int_ticker_world)).
Proof.
  split.
  - apply (proj2 (call_tool_always_text config 0 server "delete_everything"
                    ∅ world)); discriminate.
  - destruct (proj1 (call_tool_always_text config 0 server "query_stock"
                       (<["ticker" := "aapl"]> {["query" := "growth"]})
                       Cases.int_ticker_world)) as [Hr|[Hname _]].
    + exact Hr.
    + discriminate.
Defined.

Lemma client_query_stock_witness :
  MCPClient.query_stock (MCPClient.init None) "AAPL" "growth" None world
  = (Raise (Exception "RuntimeError"
              "Not connected to server. Call connect() first."), world)
  /\ MCPClient.query_stock Cases.connected_client "" "growth" (Some "") world
     = (Ok "Error: Both ticker and query are required", world).
Proof.
  split.
  - apply (proj1 (client_query_stock config 5 server (MCPClient.init None)
                    "AAPL" "growth" None world)).
    reflexivity.
  - destruct (proj2 (client_query_stock config 5 server Cases.connected_client
                       "" "growth" (Some "") world)
                (Aux.direct_session config 5 server) eq_refl)
      as (answer & Hrun & _ & _ & Hempty).
    + intros name arguments w. reflexivity.
    + destruct Hempty as [-> Hw]; [left; reflexivity|].
      rewrite Hrun, Hw. reflexivity.
Defined.

Lemma client_refresh_reports_success_witness :
  exists w' : World,
    MCPClient.refresh_knowledge_base Cases.connected_client_model_down world
    = (Ok "Knowledge base refreshed successfully", w')
    /\ client w' !! "stock_documents" = Some [].
Proof.
  apply (client_refresh_reports_success (Sv := Cases.model_down) config 5 server
           Cases.connected_client_model_down
           (Aux.direct_session (Sv := Cases.model_down) config 5 server) world
           (Aux.file_chunks (DocumentProcessor.init config)
              (file "aapl.txt" "AAPL revenue grew 5%."))).
  - reflexivity.
  - intros name arguments w. reflexivity.
  - reflexivity.
  - right. left. eexists. reflexivity.
Defined.
